(** * mount_utils_zfs: Lustre disk data stored as ZFS user properties

    A shallow embedding of [lustre/utils/mount_utils_zfs.c].  The C code is
    translated function by function; every definition names the C function
    it stands for.  The libzfs / libc collaborators the file calls are
    modelled next to it, and the parts of the repository that live in other
    files (macros of the headers, [add_param], [run_command], ...) are
    collected in the class [Externals]. *)

From Stdlib Require Import ZArith List String Ascii Bool Lia Permutation.
Import ListNotations.

Local Open Scope string_scope.
Local Open Scope Z_scope.

(** ** errno values (Linux, asm-generic/errno-base.h and errno.h) *)

Definition ENOENT : Z := 2.
Definition ENOMEM : Z := 12.
Definition EINVAL : Z := 22.
Definition ERANGE : Z := 34.
Definition ENOSYS : Z := 38.

(** ** C strings

    A C string is modelled by the characters before its terminating NUL. *)

Module CStr.

(** [strchr delim c != NULL] for a character [c] of the subject string. *)
Fixpoint is_delim (delim : string) (c : ascii) : bool :=
  match delim with
  | EmptyString => false
  | String d delim' => if Ascii.eqb c d then true else is_delim delim' c
  end.

(** [s + strspn(s, delim)] *)
Fixpoint skip_delims (delim s : string) : string :=
  match s with
  | EmptyString => EmptyString
  | String c s' => if is_delim delim c then skip_delims delim s' else s
  end.

(** The characters [strspn] steps over. *)
Fixpoint take_delims (delim s : string) : string :=
  match s with
  | EmptyString => EmptyString
  | String c s' =>
      if is_delim delim c then String c (take_delims delim s') else EmptyString
  end.

(** Splits [s] at [s + strcspn(s, delim)]: the token, and what follows the
    delimiter that ended it ([None] when the token runs to the NUL). *)
Fixpoint break_token (delim s : string) : string * option string :=
  match s with
  | EmptyString => (EmptyString, None)
  | String c s' =>
      if is_delim delim c then (EmptyString, Some s')
      else let '(tok, rest) := break_token delim s' in (String c tok, rest)
  end.

(** [strtok_r(s, delim, &save)] with a non-NULL [s] (and, applied to the
    saved pointer, with a NULL one).  The result is the token, or [None]
    for NULL, and the new value of [save]. *)
Definition strtok_r (s delim : string) : option string * string :=
  match skip_delims delim s with
  | EmptyString => (None, EmptyString)
  | String c s' =>
      match break_token delim (String c s') with
      | (tok, Some rest) => (Some tok, rest)
      | (tok, None) => (Some tok, EmptyString)
      end
  end.

(** [strtok_r] writes a NUL over the delimiter that ends the token.  The
    C string that starts at the argument pointer [s] is, after the call,
    the skipped delimiters followed by the token. *)
Definition strtok_residue (s delim : string) : string :=
  match strtok_r s delim with
  | (None, _) => s
  | (Some tok, _) => take_delims delim s ++ tok
  end.

(** [strstr(hay, needle) != NULL] *)
Fixpoint strstr (hay needle : string) : bool :=
  if String.prefix needle hay then true
  else match hay with
       | EmptyString => false
       | String _ hay' => strstr hay' needle
       end.

(** [strncmp(s, p, strlen(p)) == 0] *)
Definition has_prefix (p s : string) : bool := String.prefix p s.

(** [s + n] for [n <= strlen(s)] *)
Fixpoint advance (n : nat) (s : string) : string :=
  match n, s with
  | O, _ => s
  | S n', String _ s' => advance n' s'
  | S _, EmptyString => EmptyString
  end.

(** [strchr(s, c) != NULL] *)
Fixpoint strchr (s : string) (c : ascii) : bool :=
  match s with
  | EmptyString => false
  | String d s' => if Ascii.eqb d c then true else strchr s' c
  end.

(** The string cut at the first [c]: what [strchr(s, c)[0] = 0] leaves. *)
Fixpoint cut_at (s : string) (c : ascii) : string :=
  match s with
  | EmptyString => EmptyString
  | String d s' => if Ascii.eqb d c then EmptyString else String d (cut_at s' c)
  end.

(** [t] is empty or starts with a character that is not a delimiter. *)
Definition starts_token (delim t : string) : Prop :=
  match t with
  | EmptyString => True
  | String c _ => is_delim delim c = false
  end.

End CStr.

(** ** Decimal conversions of libc *)

Module Dec.

Definition digit_char (d : Z) : ascii := ascii_of_nat (48 + Z.to_nat d).

Definition is_digit (c : ascii) : bool :=
  let n := Z.of_nat (nat_of_ascii c) in (48 <=? n) && (n <=? 57).

Definition digit_val (c : ascii) : Z := Z.of_nat (nat_of_ascii c) - 48.

(** Digits of [n], most significant first, pushed in front of [acc]. *)
Fixpoint fmt_udec (fuel : nat) (n : Z) (acc : string) : string :=
  let acc' := String (digit_char (n mod 10)) acc in
  match fuel with
  | O => acc'
  | S f => if n / 10 =? 0 then acc' else fmt_udec f (n / 10) acc'
  end.

(** [snprintf(str, sizeof str, "%i", v)]; the 64 byte buffer of the
    caller holds every 32-bit value. *)
Definition fmt_i (v : Z) : string :=
  if v <? 0 then String "-" (fmt_udec (Z.to_nat (Z.log2 (- v))) (- v) "")
  else fmt_udec (Z.to_nat (Z.log2 v)) v "".

(** The value of the leading run of decimal digits of [s], from [acc]. *)
Fixpoint digits_val (s : string) (acc : Z) : Z :=
  match s with
  | EmptyString => acc
  | String c s' =>
      if is_digit c then digits_val s' (acc * 10 + digit_val c) else acc
  end.

(** [isspace] in the C locale *)
Definition is_space (c : ascii) : bool :=
  let n := nat_of_ascii c in
  (Nat.eqb n 32) || ((Nat.leb 9 n) && (Nat.leb n 13)).

Fixpoint skip_space (s : string) : string :=
  match s with
  | EmptyString => EmptyString
  | String c s' => if is_space c then skip_space s' else s
  end.

(** [unsigned long] of the LP64 Linux hosts the utilities are built for. *)
Definition ULONG_MAX : Z := 2 ^ 64 - 1.

(** [errno = 0; v = strtoul(s, NULL, 10)]: the value and [errno] after
    the call.  White space is skipped, one sign is accepted, the digit run
    is converted; a magnitude above [ULONG_MAX] gives [ULONG_MAX] and
    [ERANGE]; a minus sign negates the result in [unsigned long]; with no
    digit at all the result is 0 and [errno] is left alone. *)
Definition strtoul10 (s : string) : Z * Z :=
  let s1 := skip_space s in
  let '(neg, s2) :=
    match s1 with
    | String c r =>
        if Ascii.eqb c "-" then (true, r)
        else if Ascii.eqb c "+" then (false, r)
        else (false, s1)
    | EmptyString => (false, s1)
    end in
  match s2 with
  | String c _ =>
      if is_digit c then
        let m := digits_val s2 0 in
        if m >? ULONG_MAX then (ULONG_MAX, ERANGE)
        else ((if neg then - m else m) mod 2 ^ 64, 0)
      else (0, 0)
  | EmptyString => (0, 0)
  end.

(** The value of an [__u32] object read through an [int] lvalue. *)
Definition as_int (v : Z) : Z :=
  let u := v mod 2 ^ 32 in if u <? 2 ^ 31 then u else u - 2 ^ 32.

(** Conversion of an [unsigned long] to [__u32]. *)
Definition as_u32 (v : Z) : Z := v mod 2 ^ 32.

End Dec.


(** ** The host and libzfs, as far as the file uses them *)

Inductive zfs_type_t := ZFS_TYPE_FILESYSTEM | ZFS_TYPE_SNAPSHOT | ZFS_TYPE_VOLUME.

Definition zfs_type_eqb (a b : zfs_type_t) : bool :=
  match a, b with
  | ZFS_TYPE_FILESYSTEM, ZFS_TYPE_FILESYSTEM
  | ZFS_TYPE_SNAPSHOT, ZFS_TYPE_SNAPSHOT
  | ZFS_TYPE_VOLUME, ZFS_TYPE_VOLUME => true
  | _, _ => false
  end.

(** The user properties of a dataset: an nvlist of pairs, in enumeration
    order.  Each pair holds a nested nvlist, of which only the string under
    [ZPROP_VALUE] is read; [None] stands for a pair without it. *)
Definition nvlist := list (string * option string).

Record dataset := {
  ds_type : zfs_type_t;
  ds_user_props : option nvlist   (* [zfs_get_user_props], NULL as [None] *)
}.

(** What the code sends to [stderr], one constructor per call site;
    [FATAL] is the [fatal()] hook. *)
Inductive diag :=
| FATAL
| MSG_init_not_done                    (* Failed to initialize ZFS library. Are the ... *)
| MSG_open_dataset (ds : string)       (* Failed to open zfs dataset %s *)
| MSG_open_spl_hostid (err : Z)        (* Failed to open spl_hostid: %s *)
| MSG_read_spl_hostid (rc : Z)         (* Failed to read spl_hostid: %d *)
| MSG_read_hostid (rc : Z)             (* Failed to read /etc/hostid: %d *)
| MSG_warn_no_hostid                   (* WARNING: spl_hostid not set. ZFS has no ... *)
| MSG_hostid_not_set                   (* spl_hostid not set. See %s(8) *)
| MSG_need_index                       (* The target index must be specified with --index *)
| MSG_destroy_failed (ds : string) (ret : Z)
| MSG_pool_create_failed (pool : string) (ret : Z)
| MSG_fs_create_failed (ds : string) (ret : Z)
| MSG_vdev_access (vdev : string) (ret : Z)
| MSG_vdev_no_size
| MSG_vdev_create (vdev : string) (ret : Z)
| MSG_quota                            (* this option is not only valid for zfs *)
| MSG_invalid_name (dev : string)
| MSG_missing_pool (dev : string)
| MSG_init_failed (ret : Z).           (* Failed to initialize ZFS library: %d *)

(** [/sys/module/spl/parameters/spl_hostid] as the code sees it: [fopen]
    fails, or [fscanf(f, "%li", &hostid)] returns [rc] and, when [rc] is
    1, has stored [hostid].  After a failed [fopen] the code reads [errno]
    twice, for the message and at [return errno], with [fatal()] and
    [fprintf] before the second; [err] is [errno] as the code reads it,
    those two calls being taken to leave it alone. *)
Inductive spl_hostid_file :=
| SplNoFile (err : Z)
| SplScanned (rc : Z) (hostid : Z).

Record world := {
  osd_zfs_setup : Z;                       (* static int osd_zfs_setup *)
  g_zfs : bool;                            (* g_zfs != NULL *)
  w_datasets : list (string * dataset);    (* the datasets of the pools, by name *)
  w_pools : list string;
  w_handles : list string;                 (* zfs_handle_t opened and not closed *)
  w_spl_hostid : spl_hostid_file;
  w_etc_hostid : option (list Z);          (* bytes of /etc/hostid, if it opens *)
  w_stderr : list diag                     (* oldest first *)
}.

Definition set_setup (v : Z) (w : world) : world :=
  {| osd_zfs_setup := v; g_zfs := g_zfs w; w_datasets := w_datasets w;
     w_pools := w_pools w; w_handles := w_handles w;
     w_spl_hostid := w_spl_hostid w; w_etc_hostid := w_etc_hostid w;
     w_stderr := w_stderr w |}.

Definition set_g_zfs (v : bool) (w : world) : world :=
  {| osd_zfs_setup := osd_zfs_setup w; g_zfs := v; w_datasets := w_datasets w;
     w_pools := w_pools w; w_handles := w_handles w;
     w_spl_hostid := w_spl_hostid w; w_etc_hostid := w_etc_hostid w;
     w_stderr := w_stderr w |}.

Definition set_datasets (d : list (string * dataset)) (w : world) : world :=
  {| osd_zfs_setup := osd_zfs_setup w; g_zfs := g_zfs w; w_datasets := d;
     w_pools := w_pools w; w_handles := w_handles w;
     w_spl_hostid := w_spl_hostid w; w_etc_hostid := w_etc_hostid w;
     w_stderr := w_stderr w |}.

Definition set_handles (h : list string) (w : world) : world :=
  {| osd_zfs_setup := osd_zfs_setup w; g_zfs := g_zfs w; w_datasets := w_datasets w;
     w_pools := w_pools w; w_handles := h;
     w_spl_hostid := w_spl_hostid w; w_etc_hostid := w_etc_hostid w;
     w_stderr := w_stderr w |}.

(** [fprintf(stderr, ...)] and [fatal()] *)
Definition emit (ds : list diag) (w : world) : world :=
  {| osd_zfs_setup := osd_zfs_setup w; g_zfs := g_zfs w; w_datasets := w_datasets w;
     w_pools := w_pools w; w_handles := w_handles w;
     w_spl_hostid := w_spl_hostid w; w_etc_hostid := w_etc_hostid w;
     w_stderr := (w_stderr w ++ ds)%list |}.

(** *** Metadata record and options (lustre_disk.h, mount_utils.h)

    The fields the file reads or writes.  The integers are [__u32]; the
    character arrays are modelled by the C string they hold. *)

Record lustre_disk_data := {
  ldd_config_ver : Z;
  ldd_flags : Z;
  ldd_svindex : Z;
  ldd_mount_type : Z;
  ldd_fsname : string;
  ldd_svname : string;
  ldd_uuid : string;
  ldd_userdata : string;
  ldd_mount_opts : string;
  ldd_params : string
}.

Record mkfs_opts := {
  mo_ldd : lustre_disk_data;
  mo_device : string;
  mo_mkfsopts : string;
  mo_pool_vdevs : option (list string);    (* NULL, or a NULL-terminated array *)
  mo_device_kb : Z;
  mo_flags : Z
}.

Record mount_opts := {
  mo_source : string;
  mnt_ldd : lustre_disk_data               (* mo_ldd of struct mount_opts *)
}.

Definition set_pool_vdevs (v : option (list string)) (mop : mkfs_opts) : mkfs_opts :=
  {| mo_ldd := mo_ldd mop; mo_device := mo_device mop; mo_mkfsopts := mo_mkfsopts mop;
     mo_pool_vdevs := v; mo_device_kb := mo_device_kb mop; mo_flags := mo_flags mop |}.

Module Ldd.

Definition put_config_ver (v : Z) (l : lustre_disk_data) : lustre_disk_data :=
  {| ldd_config_ver := v; ldd_flags := ldd_flags l; ldd_svindex := ldd_svindex l;
     ldd_mount_type := ldd_mount_type l; ldd_fsname := ldd_fsname l;
     ldd_svname := ldd_svname l; ldd_uuid := ldd_uuid l;
     ldd_userdata := ldd_userdata l; ldd_mount_opts := ldd_mount_opts l;
     ldd_params := ldd_params l |}.

Definition put_flags (v : Z) (l : lustre_disk_data) : lustre_disk_data :=
  {| ldd_config_ver := ldd_config_ver l; ldd_flags := v; ldd_svindex := ldd_svindex l;
     ldd_mount_type := ldd_mount_type l; ldd_fsname := ldd_fsname l;
     ldd_svname := ldd_svname l; ldd_uuid := ldd_uuid l;
     ldd_userdata := ldd_userdata l; ldd_mount_opts := ldd_mount_opts l;
     ldd_params := ldd_params l |}.

Definition put_svindex (v : Z) (l : lustre_disk_data) : lustre_disk_data :=
  {| ldd_config_ver := ldd_config_ver l; ldd_flags := ldd_flags l; ldd_svindex := v;
     ldd_mount_type := ldd_mount_type l; ldd_fsname := ldd_fsname l;
     ldd_svname := ldd_svname l; ldd_uuid := ldd_uuid l;
     ldd_userdata := ldd_userdata l; ldd_mount_opts := ldd_mount_opts l;
     ldd_params := ldd_params l |}.

Definition put_mount_type (v : Z) (l : lustre_disk_data) : lustre_disk_data :=
  {| ldd_config_ver := ldd_config_ver l; ldd_flags := ldd_flags l;
     ldd_svindex := ldd_svindex l;
     ldd_mount_type := v; ldd_fsname := ldd_fsname l;
     ldd_svname := ldd_svname l; ldd_uuid := ldd_uuid l;
     ldd_userdata := ldd_userdata l; ldd_mount_opts := ldd_mount_opts l;
     ldd_params := ldd_params l |}.

Definition put_fsname (v : string) (l : lustre_disk_data) : lustre_disk_data :=
  {| ldd_config_ver := ldd_config_ver l; ldd_flags := ldd_flags l;
     ldd_svindex := ldd_svindex l;
     ldd_mount_type := ldd_mount_type l; ldd_fsname := v;
     ldd_svname := ldd_svname l; ldd_uuid := ldd_uuid l;
     ldd_userdata := ldd_userdata l; ldd_mount_opts := ldd_mount_opts l;
     ldd_params := ldd_params l |}.

Definition put_svname (v : string) (l : lustre_disk_data) : lustre_disk_data :=
  {| ldd_config_ver := ldd_config_ver l; ldd_flags := ldd_flags l;
     ldd_svindex := ldd_svindex l;
     ldd_mount_type := ldd_mount_type l; ldd_fsname := ldd_fsname l;
     ldd_svname := v; ldd_uuid := ldd_uuid l;
     ldd_userdata := ldd_userdata l; ldd_mount_opts := ldd_mount_opts l;
     ldd_params := ldd_params l |}.

Definition put_uuid (v : string) (l : lustre_disk_data) : lustre_disk_data :=
  {| ldd_config_ver := ldd_config_ver l; ldd_flags := ldd_flags l;
     ldd_svindex := ldd_svindex l;
     ldd_mount_type := ldd_mount_type l; ldd_fsname := ldd_fsname l;
     ldd_svname := ldd_svname l; ldd_uuid := v;
     ldd_userdata := ldd_userdata l; ldd_mount_opts := ldd_mount_opts l;
     ldd_params := ldd_params l |}.

Definition put_userdata (v : string) (l : lustre_disk_data) : lustre_disk_data :=
  {| ldd_config_ver := ldd_config_ver l; ldd_flags := ldd_flags l;
     ldd_svindex := ldd_svindex l;
     ldd_mount_type := ldd_mount_type l; ldd_fsname := ldd_fsname l;
     ldd_svname := ldd_svname l; ldd_uuid := ldd_uuid l;
     ldd_userdata := v; ldd_mount_opts := ldd_mount_opts l;
     ldd_params := ldd_params l |}.

Definition put_mount_opts (v : string) (l : lustre_disk_data) : lustre_disk_data :=
  {| ldd_config_ver := ldd_config_ver l; ldd_flags := ldd_flags l;
     ldd_svindex := ldd_svindex l;
     ldd_mount_type := ldd_mount_type l; ldd_fsname := ldd_fsname l;
     ldd_svname := ldd_svname l; ldd_uuid := ldd_uuid l;
     ldd_userdata := ldd_userdata l; ldd_mount_opts := v;
     ldd_params := ldd_params l |}.

Definition put_params (v : string) (l : lustre_disk_data) : lustre_disk_data :=
  {| ldd_config_ver := ldd_config_ver l; ldd_flags := ldd_flags l;
     ldd_svindex := ldd_svindex l;
     ldd_mount_type := ldd_mount_type l; ldd_fsname := ldd_fsname l;
     ldd_svname := ldd_svname l; ldd_uuid := ldd_uuid l;
     ldd_userdata := ldd_userdata l; ldd_mount_opts := ldd_mount_opts l;
     ldd_params := v |}.

End Ldd.

(** *** What the rest of the repository and the libraries provide

    Macros and functions the file uses and other files define.  The macros
    are constants; the functions are taken with their effect on the world.
    [add_param buf key val] gives the return code and the new contents of
    [buf].  [zfs_prop_set_errno w zhp prop val] is the code [zfs_prop_set]
    returns (0 when the property is stored). *)
Class Externals := {
  PARAM_FAILNODE : string;                              (* lustre_param.h *)
  LDD_F_NEED_INDEX : Z;                                 (* lustre_disk.h *)
  LDD_MT_ZFS : Z;
  MO_FORCEFORMAT : Z;                                   (* mount_utils.h *)
  MO_NOHOSTID_CHECK : Z;
  add_param : string -> string -> string -> Z * string; (* mount_utils.c *)
  strscat : string -> string -> Z -> option string;     (* [None]: exit(EOVERFLOW) *)
  run_command : string -> Z -> world -> Z * world;
  file_create : string -> Z -> world -> Z * world;
  access_F_OK : world -> string -> Z;                   (* 0, or errno after -1 *)
  zfs_name_valid : string -> zfs_type_t -> bool;        (* libzfs *)
  zfs_prop_set_errno : world -> string -> string -> string -> Z;
  zfs_destroy : string -> world -> Z * world;
  libzfs_init : world -> bool;                          (* != NULL *)
  system : string -> world -> Z * world                 (* libc *)
}.

(** The result of a call that may loop: it returns a code in a world, or
    it is still running, in the world it has reached, when the fuel that
    bounds the number of loop iterations is used up. *)
Inductive outcome :=
| Returns (ret : Z) (w : world)
| Spins (w : world).

Section Bridge.

Context {ext : Externals}.

(** *** libzfs and libnvpair calls *)

Fixpoint find_dataset (ds : list (string * dataset)) (name : string) : option dataset :=
  match ds with
  | [] => None
  | (n, d) :: ds' => if String.eqb n name then Some d else find_dataset ds' name
  end.

(** [zfs_open(g_zfs, name, type)]: the handle, here the name of the
    dataset it refers to, or [None] for NULL when no dataset of that name
    and type exists. *)
Definition zfs_open (w : world) (name : string) (type : zfs_type_t)
  : option string * world :=
  match find_dataset (w_datasets w) name with
  | Some d =>
      if zfs_type_eqb (ds_type d) type
      then (Some name, set_handles (name :: w_handles w) w)
      else (None, w)
  | None => (None, w)
  end.

Fixpoint remove_handle (zhp : string) (hs : list string) : list string :=
  match hs with
  | [] => []
  | h :: hs' => if String.eqb h zhp then hs' else h :: remove_handle zhp hs'
  end.

(** [zfs_close(zhp)] *)
Definition zfs_close (w : world) (zhp : string) : world :=
  set_handles (remove_handle zhp (w_handles w)) w.

(** [zfs_get_user_props(zhp)] *)
Definition zfs_get_user_props (w : world) (zhp : string) : option nvlist :=
  match find_dataset (w_datasets w) zhp with
  | Some d => ds_user_props d
  | None => None
  end.

Fixpoint nvlist_find (nvl : nvlist) (name : string) : option (option string) :=
  match nvl with
  | [] => None
  | (n, v) :: nvl' => if String.eqb n name then Some v else nvlist_find nvl' name
  end.

(** [nvlist_lookup_nvlist(nvl, name, &propval)]: the code, and the pair
    found when the code is 0. *)
Definition nvlist_lookup_nvlist (nvl : option nvlist) (name : string)
  : Z * option string :=
  match nvl with
  | None => (EINVAL, None)
  | Some l =>
      match nvlist_find l name with
      | None => (ENOENT, None)
      | Some propval => (0, propval)
      end
  end.

(** [nvlist_lookup_string(propval, ZPROP_VALUE, &propstr)] *)
Definition nvlist_lookup_string (propval : option string) : Z * string :=
  match propval with
  | None => (ENOENT, EmptyString)
  | Some s => (0, s)
  end.

Fixpoint nvlist_put (nvl : nvlist) (name value : string) : nvlist :=
  match nvl with
  | [] => [(name, Some value)]
  | (n, v) :: nvl' =>
      if String.eqb n name then (n, Some value) :: nvl'
      else (n, v) :: nvlist_put nvl' name value
  end.

Fixpoint update_dataset (ds : list (string * dataset)) (name : string)
    (f : dataset -> dataset) : list (string * dataset) :=
  match ds with
  | [] => []
  | (n, d) :: ds' =>
      if String.eqb n name then (n, f d) :: ds'
      else (n, d) :: update_dataset ds' name f
  end.

Definition put_user_prop (prop value : string) (d : dataset) : dataset :=
  {| ds_type := ds_type d;
     ds_user_props :=
       Some (nvlist_put (match ds_user_props d with Some l => l | None => [] end)
                        prop value) |}.

(** [zfs_prop_set(zhp, prop, value)]: a failure leaves the dataset as it
    is; a success stores the value under the name, over an old value if
    there is one. *)
Definition zfs_prop_set (w : world) (zhp prop value : string) : Z * world :=
  let err := zfs_prop_set_errno w zhp prop value in
  if err =? 0
  then (0, set_datasets (update_dataset (w_datasets w) zhp (put_user_prop prop value)) w)
  else (err, w).

(** *** Property names *)

Definition LDD_PREFIX := "lustre:".
Definition LDD_VERSION_PROP := LDD_PREFIX ++ "version".
Definition LDD_FLAGS_PROP := LDD_PREFIX ++ "flags".
Definition LDD_INDEX_PROP := LDD_PREFIX ++ "index".
Definition LDD_FSNAME_PROP := LDD_PREFIX ++ "fsname".
Definition LDD_SVNAME_PROP := LDD_PREFIX ++ "svname".
Definition LDD_UUID_PROP := LDD_PREFIX ++ "uuid".
Definition LDD_USERDATA_PROP := LDD_PREFIX ++ "userdata".
Definition LDD_MOUNTOPTS_PROP := LDD_PREFIX ++ "mountopts".

(** *** Typed accessors

    The C functions take the address of the field as [void *val].  Here
    a setter takes the value found there, and a getter takes it and
    returns what is there after the call.  [vprint] output is left out. *)

Definition zfs_set_prop_int (w : world) (zhp prop : string) (val : Z) : Z * world :=
  let str := Dec.fmt_i (Dec.as_int val) in
  zfs_prop_set w zhp prop str.

(** [val] is [None] for a NULL pointer. *)
Definition zfs_set_prop_str (w : world) (zhp prop : string) (val : option string)
  : Z * world :=
  match val with
  | Some s =>
      if (0 <? Z.of_nat (String.length s)) then zfs_prop_set w zhp prop s
      else (0, w)
  | None => (0, w)
  end.

Definition zfs_get_prop_int (w : world) (zhp prop : string) (val : Z) : Z * Z :=
  let '(ret, propval) := nvlist_lookup_nvlist (zfs_get_user_props w zhp) prop in
  if negb (ret =? 0) then (ret, val)
  else
    let '(ret, propstr) := nvlist_lookup_string propval in
    if negb (ret =? 0) then (ret, val)
    else
      let '(v, errno) := Dec.strtoul10 propstr in
      let val := Dec.as_u32 v in
      if negb (errno =? 0) then (errno, val)
      else (ret, val).

Definition zfs_get_prop_str (w : world) (zhp prop : string) (val : string)
  : Z * string :=
  let '(ret, propval) := nvlist_lookup_nvlist (zfs_get_user_props w zhp) prop in
  if negb (ret =? 0) then (ret, val)
  else
    let '(ret, propstr) := nvlist_lookup_string propval in
    if negb (ret =? 0) then (ret, val)
    else (ret, propstr).

(** *** The bridge table *)

(** [zlpb_ldd_offset] with the type of the field: how to read and write
    the field of the record the offset points to. *)
Inductive ldd_field :=
| FieldInt (get : lustre_disk_data -> Z)
           (put : Z -> lustre_disk_data -> lustre_disk_data)
| FieldStr (get : lustre_disk_data -> string)
           (put : string -> lustre_disk_data -> lustre_disk_data).

Record zfs_ldd_prop_bridge := {
  zlpb_prop_name : string;
  zlpb_ldd_offset : ldd_field
}.

(** [bridge->zlpb_get_prop_fn] applied to the field at [ldd + offset].
    A string getter puts the value into its field with [strcpy]; a
    string is modelled by its characters, so this stands for the code on
    a value that fits the character array of the field: a longer one the
    code copies over the fields that follow. *)
Definition zlpb_get_prop_fn (b : zfs_ldd_prop_bridge) (w : world) (zhp : string)
    (ldd : lustre_disk_data) : Z * lustre_disk_data :=
  match zlpb_ldd_offset b with
  | FieldInt get put =>
      let '(ret, v) := zfs_get_prop_int w zhp (zlpb_prop_name b) (get ldd) in
      (ret, put v ldd)
  | FieldStr get put =>
      let '(ret, v) := zfs_get_prop_str w zhp (zlpb_prop_name b) (get ldd) in
      (ret, put v ldd)
  end.

(** [bridge->zlpb_set_prop_fn] applied to the field at [ldd + offset] *)
Definition zlpb_set_prop_fn (b : zfs_ldd_prop_bridge) (w : world) (zhp : string)
    (ldd : lustre_disk_data) : Z * world :=
  match zlpb_ldd_offset b with
  | FieldInt get _ => zfs_set_prop_int w zhp (zlpb_prop_name b) (get ldd)
  | FieldStr get _ => zfs_set_prop_str w zhp (zlpb_prop_name b) (Some (get ldd))
  end.

Definition ZLB_INIT_int name get put : zfs_ldd_prop_bridge :=
  {| zlpb_prop_name := name; zlpb_ldd_offset := FieldInt get put |}.

Definition ZLB_INIT_str name get put : zfs_ldd_prop_bridge :=
  {| zlpb_prop_name := name; zlpb_ldd_offset := FieldStr get put |}.

(** The list ends where the C array has its [{ NULL }] entry. *)
Definition special_ldd_prop_params : list zfs_ldd_prop_bridge :=
  [ ZLB_INIT_int LDD_VERSION_PROP   ldd_config_ver Ldd.put_config_ver;
    ZLB_INIT_int LDD_FLAGS_PROP     ldd_flags      Ldd.put_flags;
    ZLB_INIT_int LDD_INDEX_PROP     ldd_svindex    Ldd.put_svindex;
    ZLB_INIT_str LDD_FSNAME_PROP    ldd_fsname     Ldd.put_fsname;
    ZLB_INIT_str LDD_SVNAME_PROP    ldd_svname     Ldd.put_svname;
    ZLB_INIT_str LDD_UUID_PROP      ldd_uuid       Ldd.put_uuid;
    ZLB_INIT_str LDD_USERDATA_PROP  ldd_userdata   Ldd.put_userdata;
    ZLB_INIT_str LDD_MOUNTOPTS_PROP ldd_mount_opts Ldd.put_mount_opts ].

(** *** Parameter blob, write direction *)

(** The [while (token)] loop of [zfs_set_prop_params].  [token] and
    [save_token] are the C variables; [strtok] keeps its own position,
    which lives from the first call of an iteration to the second.  A
    [continue] goes back to the test with [token] as it is: the same
    pointer, the string under it cut by the first [strtok]. *)
Fixpoint zfs_set_prop_params_loop (fuel : nat) (w : world) (zhp : string)
    (token : option string) (save_token : string) (ret : Z) : outcome :=
  match fuel with
  | O => Spins w
  | S fuel' =>
      match token with
      | None => Returns ret w
      | Some tok =>
          let '(key, strtok_pos) := CStr.strtok_r tok "=" in
          let tok' := CStr.strtok_residue tok "=" in
          match key with
          | None => zfs_set_prop_params_loop fuel' w zhp (Some tok') save_token ret
          | Some key =>
              match fst (CStr.strtok_r strtok_pos "=") with
              | None =>
                  zfs_set_prop_params_loop fuel' w zhp (Some tok') save_token ret
              | Some value =>
                  let prop_name := LDD_PREFIX ++ key in
                  let '(ret, w) := zfs_prop_set w zhp prop_name value in
                  if negb (ret =? 0) then Returns ret w
                  else
                    let '(token, save_token) := CStr.strtok_r save_token " " in
                    zfs_set_prop_params_loop fuel' w zhp token save_token ret
              end
          end
      end
  end.

(** [strdup] is taken to succeed. *)
Definition zfs_set_prop_params (fuel : nat) (w : world) (zhp params : string)
  : outcome :=
  let ret := 0 in
  let '(token, save_token) := CStr.strtok_r params " " in
  zfs_set_prop_params_loop fuel w zhp token save_token ret.

(** *** Host id check *)

(** The [unsigned long hostid] after [fread(&hostid, sizeof(uint32_t), 1, f)]
    has read four bytes into a [hostid] that was 0 (little endian). *)
Definition hostid_of_bytes (b : list Z) : Z :=
  match b with
  | b0 :: b1 :: b2 :: b3 :: _ => b0 + 256 * b1 + 65536 * b2 + 16777216 * b3
  | _ => 0
  end.

Definition flag_set (flags mask : Z) : bool := negb (Z.land flags mask =? 0).

Definition zfs_check_hostid (w : world) (mop : mkfs_opts) : Z * world :=
  if negb (CStr.strstr (ldd_params (mo_ldd mop)) PARAM_FAILNODE) then (0, w)
  else
    match w_spl_hostid w with
    | SplNoFile err => (err, emit [FATAL; MSG_open_spl_hostid err] w)
    | SplScanned rc hostid =>
        if negb (rc =? 1) then (rc, emit [FATAL; MSG_read_spl_hostid rc] w)
        else if negb (hostid =? 0) then (0, w)
        else
          let '(hostid, w) :=
            match w_etc_hostid w with
            | None => (hostid, w)                      (* goto out *)
            | Some bytes =>
                let rc := if (4 <=? Z.of_nat (List.length bytes)) then 1 else 0 in
                if negb (rc =? 1) then (0, emit [MSG_read_hostid rc] w)
                else (hostid_of_bytes bytes, w)
            end in
          if hostid =? 0 then
            if flag_set (mo_flags mop) MO_NOHOSTID_CHECK
            then (0, emit [MSG_warn_no_hostid] w)
            else (EINVAL, emit [FATAL; MSG_hostid_not_set] w)
          else (0, w)
    end.

(** The value of [osd_zfs_setup == 1], after the message. *)
Definition osd_check_zfs_setup (w : world) : bool * world :=
  let w := if osd_zfs_setup w =? 0 then emit [FATAL; MSG_init_not_done] w else w in
  (osd_zfs_setup w =? 1, w).

(** *** Write *)

(** The [for] loop over the table in [zfs_write_ldd]: the code of the
    entry that failed, or 0 after the last entry. *)
Fixpoint write_special_props (w : world) (zhp : string) (ldd : lustre_disk_data)
    (tbl : list zfs_ldd_prop_bridge) : Z * world :=
  match tbl with
  | [] => (0, w)
  | bridge :: tbl' =>
      let '(ret, w) := zlpb_set_prop_fn bridge w zhp ldd in
      if negb (ret =? 0) then (ret, w)
      else write_special_props w zhp ldd tbl'
  end.

Definition zfs_write_ldd (fuel : nat) (w : world) (mop : mkfs_opts) : outcome :=
  let ldd := mo_ldd mop in
  let ds := mo_device mop in
  let ret := EINVAL in
  let '(ok, w) := osd_check_zfs_setup w in
  if negb ok then Returns ret w                              (* goto out *)
  else
    match zfs_open w ds ZFS_TYPE_FILESYSTEM with
    | (None, w) => Returns ret (emit [MSG_open_dataset ds] w)  (* goto out *)
    | (Some zhp, w) =>
        let '(ret, w) := zfs_check_hostid w mop in
        if negb (ret =? 0) then Returns ret w                (* goto out *)
        else
          let '(ret, w) := write_special_props w zhp ldd special_ldd_prop_params in
          if negb (ret =? 0) then Returns ret (zfs_close w zhp)   (* goto out_close *)
          else
            match zfs_set_prop_params fuel w zhp (ldd_params ldd) with
            | Returns ret w => Returns ret (zfs_close w zhp)
            | Spins w => Spins w
            end
    end.

(** *** Parameter blob, read direction *)

Fixpoint zfs_is_special_ldd_prop_param_in (tbl : list zfs_ldd_prop_bridge)
    (name : string) : bool :=
  match tbl with
  | [] => false
  | b :: tbl' =>
      if String.eqb name (zlpb_prop_name b) then true
      else zfs_is_special_ldd_prop_param_in tbl' name
  end.

Definition zfs_is_special_ldd_prop_param (name : string) : bool :=
  zfs_is_special_ldd_prop_param_in special_ldd_prop_params name.

(** The [while (nvp = nvlist_next_nvpair(props, nvp), nvp)] loop: [nvps]
    are the pairs still to come, [value] the scratch buffer, [ret] the
    variable of that name. *)
Fixpoint zfs_get_prop_params_loop (w : world) (zhp : string) (nvps : nvlist)
    (param value : string) (ret : Z) : Z * string :=
  match nvps with
  | [] => (ret, param)
  | (nvpair_name, _) :: nvps' =>
      let '(ret, value) := zfs_get_prop_str w zhp nvpair_name value in
      if negb (ret =? 0) then (ret, param)                       (* break *)
      else if negb (CStr.has_prefix LDD_PREFIX nvpair_name)
      then zfs_get_prop_params_loop w zhp nvps' param value ret  (* continue *)
      else if zfs_is_special_ldd_prop_param nvpair_name
      then zfs_get_prop_params_loop w zhp nvps' param value ret  (* continue *)
      else
        let key := CStr.advance (String.length LDD_PREFIX) nvpair_name ++ "=" in
        let '(ret, param) := add_param param key value in
        if negb (ret =? 0) then (ret, param)                     (* break *)
        else zfs_get_prop_params_loop w zhp nvps' param value ret
  end.

(** [malloc(size) == NULL] for an [int size], as far as the size decides
    it: a negative [int] reaches [malloc] as a [size_t] above
    [PTRDIFF_MAX], which is refused; any other request is taken to be
    granted. *)
Definition malloc_fails (size : Z) : bool := size <? 0.

(** [value = malloc(len)] is the buffer [zfs_get_prop_str] copies the
    value of every property into with [strcpy], whatever the name of the
    property; it is written before it is read.  Strings are modelled by
    their characters, so the definition stands for the code on values
    shorter than [len]: a longer one is copied past the end of the
    buffer.  [key] has [ZFS_MAXPROPLEN] bytes, more than the name of a
    property can have. *)
Definition zfs_get_prop_params (w : world) (zhp param : string) (len : Z)
  : Z * string :=
  let ret := 0 in
  match zfs_get_user_props w zhp with
  | None => (ENOENT, param)
  | Some props =>
      if malloc_fails len then (ENOMEM, param)
      else zfs_get_prop_params_loop w zhp props param EmptyString ret
  end.

(** *** Read *)

(** The [for] loop over the table in [zfs_read_ldd]: the code that made
    it leave, or 0 after the last entry. *)
Fixpoint read_special_props (w : world) (zhp : string) (ldd : lustre_disk_data)
    (tbl : list zfs_ldd_prop_bridge) : Z * lustre_disk_data :=
  match tbl with
  | [] => (0, ldd)
  | bridge :: tbl' =>
      let '(ret, ldd) := zlpb_get_prop_fn bridge w zhp ldd in
      if negb (ret =? 0) && negb (ret =? ENOENT) then (ret, ldd)
      else read_special_props w zhp ldd tbl'
  end.

Definition zfs_read_ldd (w : world) (ds : string) (ldd : lustre_disk_data)
  : Z * lustre_disk_data * world :=
  let ret := EINVAL in
  let '(ok, w) := osd_check_zfs_setup w in
  if negb ok then (EINVAL, ldd, w)
  else
    let '(zhp, w) :=
      match zfs_open w ds ZFS_TYPE_FILESYSTEM with
      | (Some zhp, w) => (Some zhp, w)
      | (None, w) => zfs_open w ds ZFS_TYPE_SNAPSHOT
      end in
    match zhp with
    | None => (ret, ldd, w)                                      (* goto out *)
    | Some zhp =>
        let '(ret, ldd) := read_special_props w zhp ldd special_ldd_prop_params in
        if negb (ret =? 0) then (ret, ldd, zfs_close w zhp)      (* goto out_close *)
        else
          let '(ret, params) := zfs_get_prop_params w zhp (ldd_params ldd) 4096 in
          let ldd := Ldd.put_params params ldd in
          if negb (ret =? 0) && negb (ret =? ENOENT)
          then (ret, ldd, zfs_close w zhp)                       (* goto out_close *)
          else
            let ldd := Ldd.put_mount_type LDD_MT_ZFS ldd in
            (0, ldd, zfs_close w zhp)
    end.

(** [tmp_ldd] is the local [struct lustre_disk_data tmp_ldd] as it is
    when the function is entered: the declaration has no initializer, so
    its contents are whatever the stack holds.  [mount_type] is the value
    of [*mount_type] before the call; the result gives it after. *)
Definition zfs_is_lustre (w : world) (ds : string) (mount_type : Z)
    (tmp_ldd : lustre_disk_data) : Z * Z * world :=
  if osd_zfs_setup w =? 0 then (0, mount_type, w)
  else
    let '(ret, tmp_ldd, w) := zfs_read_ldd w ds tmp_ldd in
    if (ret =? 0) && (ldd_config_ver tmp_ldd >? 0)
       && (0 <? Z.of_nat (String.length (ldd_svname tmp_ldd)))
    then (1, ldd_mount_type tmp_ldd, w)
    else (0, mount_type, w).

(** *** Provisioning *)

Definition PATH_MAX : Z := 4096.

(** [snprintf(buf, len, ...)] keeps [len - 1] characters of the text. *)
Fixpoint truncate (n : nat) (s : string) : string :=
  match n, s with
  | S n', String c s' => String c (truncate n' s')
  | _, _ => EmptyString
  end.

Definition snprintf (len : Z) (text : string) : string :=
  truncate (Z.to_nat (len - 1)) text.

Definition zfs_mkfs_opts (mop : mkfs_opts) (len : Z) : string :=
  if negb (Nat.eqb (String.length (mo_mkfsopts mop)) 0)
  then snprintf len (" -o " ++ mo_mkfsopts mop)
  else EmptyString.

Definition zfs_create_vdev (w : world) (mop : mkfs_opts) (vdev : string)
  : Z * world :=
  let ret := 0 in
  if CStr.has_prefix "disk" vdev || CStr.has_prefix "file" vdev
     || CStr.has_prefix "mirror" vdev || CStr.has_prefix "raidz" vdev
     || CStr.has_prefix "spare" vdev || CStr.has_prefix "log" vdev
     || CStr.has_prefix "cache" vdev
  then (ret, w)
  else if CStr.has_prefix "/" vdev then
    let ret := access_F_OK w vdev in
    if ret =? 0 then (ret, w)
    else if negb (ret =? ENOENT)
    then (ret, emit [FATAL; MSG_vdev_access vdev ret] w)
    else if mo_device_kb mop =? 0
    then (EINVAL, emit [FATAL; MSG_vdev_no_size] w)
    else
      let '(ret, w) := file_create vdev (mo_device_kb mop) w in
      if negb (ret =? 0) then (ret, emit [FATAL; MSG_vdev_create vdev ret] w)
      else (ret, w)
  else (ret, w).

(** The loop of [zfs_make_lustre] over the array [mo_pool_vdevs]:
    [None] when [strscat] ends the process, else the code (0 at the end of
    the array), the command line, the vdevs [mo_pool_vdevs] is left
    pointing to, and the world. *)
Fixpoint append_vdevs (w : world) (mop : mkfs_opts) (mkfs_cmd : string)
    (vdevs : list string) : option (Z * string * list string * world) :=
  match vdevs with
  | [] => Some (0, mkfs_cmd, [], w)
  | vdev :: vdevs' =>
      match strscat mkfs_cmd " " PATH_MAX with
      | None => None
      | Some mkfs_cmd =>
          match strscat mkfs_cmd vdev PATH_MAX with
          | None => None
          | Some mkfs_cmd =>
              let '(ret, w) := zfs_create_vdev w mop vdev in
              if negb (ret =? 0) then Some (ret, mkfs_cmd, vdev :: vdevs', w)
              else append_vdevs w mop mkfs_cmd vdevs'
          end
      end
  end.

(** [None] is the end of the process: [strscat] calling [exit], or the
    store through [strchr(pool, '/')] when the name has no '/'.  The
    [strdup] and [malloc] calls are taken to succeed.  The result carries
    [mop], whose [mo_pool_vdevs] the function advances. *)
Definition zfs_make_lustre (w : world) (mop : mkfs_opts)
  : option (Z * mkfs_opts * world) :=
  let ds := mo_device mop in
  let '(ok, w) := osd_check_zfs_setup w in
  if negb ok then Some (EINVAL, mop, w)
  else if flag_set (ldd_flags (mo_ldd mop)) LDD_F_NEED_INDEX
  then Some (EINVAL, mop, emit [FATAL; MSG_need_index] w)
  else
    let '(ret, w) := zfs_check_hostid w mop in
    if negb (ret =? 0) then Some (ret, mop, w)
    else if negb (CStr.strchr ds "/") then None
    else
      let pool := CStr.cut_at ds "/" in
      (* --reformat: destroy the previous dataset *)
      let destroyed :=
        if flag_set (mo_flags mop) MO_FORCEFORMAT then
          match zfs_open w ds ZFS_TYPE_FILESYSTEM with
          | (Some zhp, w) =>
              let '(ret, w) := zfs_destroy zhp w in
              if negb (ret =? 0)
              then (ret, emit [MSG_destroy_failed ds ret] (zfs_close w zhp))
              else (ret, zfs_close w zhp)
          | (None, w) => (ret, w)
          end
        else (ret, w) in
      let '(ret, w) := destroyed in
      if negb (ret =? 0) then Some (ret, mop, w)
      else
        let pool_exists := existsb (String.eqb pool) (w_pools w) in
        (* zpool create *)
        let created :=
          match mo_pool_vdevs mop with
          | Some vdevs =>
              if negb pool_exists then
                let mkfs_cmd :=
                  snprintf PATH_MAX ("zpool create -f -O canmount=off " ++ pool) in
                match append_vdevs w mop mkfs_cmd vdevs with
                | None => None
                | Some (ret, mkfs_cmd, vdevs, w) =>
                    let mop := set_pool_vdevs (Some vdevs) mop in
                    if negb (ret =? 0) then Some (ret, mop, w)
                    else
                      let '(ret, w) := run_command mkfs_cmd PATH_MAX w in
                      if negb (ret =? 0)
                      then Some (ret, mop,
                                 emit [FATAL; MSG_pool_create_failed pool ret] w)
                      else Some (ret, mop, w)
                end
              else Some (ret, mop, w)
          | None => Some (ret, mop, w)
          end in
        match created with
        | None => None
        | Some (ret, mop, w) =>
            if negb (ret =? 0) then Some (ret, mop, w)
            else
              (* zfs create *)
              let mkfs_cmd :=
                snprintf PATH_MAX
                  ("zfs create -o canmount=off -o xattr=sa"
                     ++ zfs_mkfs_opts mop PATH_MAX ++ " " ++ ds) in
              let '(ret, w) := run_command mkfs_cmd PATH_MAX w in
              if negb (ret =? 0)
              then Some (ret, mop, emit [FATAL; MSG_fs_create_failed ds ret] w)
              else Some (ret, mop, w)
        end.

Definition zfs_enable_quota (w : world) (mop : mkfs_opts) : Z * world :=
  (ENOSYS, emit [MSG_quota] w).

Definition zfs_prepare_lustre (w : world) (mop : mkfs_opts)
    (wanted_mountopts : string) (len : Z) : Z * world :=
  let '(ok, w) := osd_check_zfs_setup w in
  if negb ok then (EINVAL, w)
  else if negb (zfs_name_valid (mo_device mop) ZFS_TYPE_FILESYSTEM)
  then (EINVAL, emit [FATAL; MSG_invalid_name (mo_device mop)] w)
  else if negb (CStr.strchr (mo_device mop) "/")
  then (EINVAL, emit [FATAL; MSG_missing_pool (mo_device mop)] w)
  else (0, w).

Definition zfs_tune_lustre (w : world) (dev : string) (mop : mount_opts)
  : Z * world :=
  let '(ok, w) := osd_check_zfs_setup w in
  if negb ok then (EINVAL, w) else (0, w).

Definition zfs_label_lustre (w : world) (mop : mount_opts) : Z * world :=
  let '(ok, w) := osd_check_zfs_setup w in
  if negb ok then (EINVAL, w)
  else
    match zfs_open w (mo_source mop) ZFS_TYPE_FILESYSTEM with
    | (None, w) => (EINVAL, w)
    | (Some zhp, w) =>
        let '(ret, w) :=
          zfs_set_prop_str w zhp LDD_SVNAME_PROP (Some (ldd_svname (mnt_ldd mop))) in
        (ret, zfs_close w zhp)
    end.

(** *** Library state *)

Definition zfs_init (w : world) : Z * world :=
  let ret := 0 in
  let w := set_g_zfs (libzfs_init w) w in
  let '(ret, w) :=
    if negb (g_zfs w) then
      let '(ret, w) := system "/sbin/modprobe -q zfs" w in
      if ret =? 0 then
        let w := set_g_zfs (libzfs_init w) w in
        if negb (g_zfs w) then (EINVAL, w) else (ret, w)
      else (ret, w)
    else (ret, w) in
  if ret =? 0 then (ret, set_setup 1 w)
  else (ret, emit [MSG_init_failed ret] w).

Definition zfs_fini (w : world) : world :=
  let w := if g_zfs w then set_g_zfs false w else w in
  set_setup 0 w.

End Bridge.

(** ** An instance to run the code on examples *)

(** Modelled from the spec: [add_param] of mount_utils.c is not part of
    this file.  The spec has the read direction "append
    unprefixed-key=value (and a blank) to the accumulating parameter
    blob"; the call gets the blob, the key with its '=', and the value. *)
Definition add_param_spec (buf key val : string) : Z * string :=
  (0, buf ++ key ++ val ++ " ").

(** Modelled from the spec: the failover-node option of lustre_param.h is
    not part of this file; the spec writes a token of it as failnode=1. *)
Definition PARAM_FAILNODE_spec : string := "failnode=".

(** Collaborators that always succeed and leave the world alone; the flag
    bits are distinct powers of two. *)
Definition host_ext : Externals :=
  {| PARAM_FAILNODE := PARAM_FAILNODE_spec;
     LDD_F_NEED_INDEX := 16;
     LDD_MT_ZFS := 5;
     MO_FORCEFORMAT := 4;
     MO_NOHOSTID_CHECK := 256;
     add_param := add_param_spec;
     strscat := fun dst src _ => Some (dst ++ src);
     run_command := fun _ _ w => (0, w);
     file_create := fun _ _ w => (0, w);
     access_F_OK := fun _ _ => 0;
     zfs_name_valid := fun _ _ => true;
     zfs_prop_set_errno := fun _ _ _ _ => 0;
     zfs_destroy := fun _ w => (0, w);
     libzfs_init := fun _ => true;
     system := fun _ w => (0, w) |}.

(** Collaborators that can fail: the store refuses the value "refused",
    [access] finds only /dev/sdb, and the library does not load. *)
Definition strict_ext : Externals :=
  {| PARAM_FAILNODE := PARAM_FAILNODE_spec;
     LDD_F_NEED_INDEX := 16;
     LDD_MT_ZFS := 5;
     MO_FORCEFORMAT := 4;
     MO_NOHOSTID_CHECK := 256;
     add_param := add_param_spec;
     strscat := fun dst src _ => Some (dst ++ src);
     run_command := fun _ _ w => (0, w);
     file_create := fun _ _ w => (ENOMEM, w);
     access_F_OK := fun _ path => if String.eqb path "/dev/sdb" then 0 else ENOENT;
     zfs_name_valid := fun _ _ => true;
     zfs_prop_set_errno :=
       fun _ _ _ value => if String.eqb value "refused" then EINVAL else 0;
     zfs_destroy := fun _ w => (0, w);
     libzfs_init := fun _ => false;
     system := fun _ w => (1, w) |}.

(** A pool with one filesystem and one snapshot, the library set up, no
    host id anywhere. *)
Definition demo_world (props : option nvlist) : world :=
  {| osd_zfs_setup := 1;
     g_zfs := true;
     w_datasets :=
       [ ("pool/ost0", {| ds_type := ZFS_TYPE_FILESYSTEM; ds_user_props := props |});
         ("pool/ost0@snap", {| ds_type := ZFS_TYPE_SNAPSHOT; ds_user_props := props |}) ];
     w_pools := ["pool"];
     w_handles := [];
     w_spl_hostid := SplScanned 1 0;
     w_etc_hostid := None;
     w_stderr := [] |}.

Definition demo_ldd (params : string) : lustre_disk_data :=
  {| ldd_config_ver := 1; ldd_flags := 2; ldd_svindex := 3; ldd_mount_type := 0;
     ldd_fsname := "lustre"; ldd_svname := "lustre-OST0003"; ldd_uuid := "";
     ldd_userdata := ""; ldd_mount_opts := ""; ldd_params := params |}.

Definition demo_mkfs_opts (params : string) (flags : Z) : mkfs_opts :=
  {| mo_ldd := demo_ldd params; mo_device := "pool/ost0"; mo_mkfsopts := "";
     mo_pool_vdevs := None; mo_device_kb := 0; mo_flags := flags |}.

(** The bytes a local [struct lustre_disk_data] may find on the stack: the
    record an earlier call left there. *)
Definition stale_ldd : lustre_disk_data := demo_ldd EmptyString.

(** A record of zeroes. *)
Definition zero_ldd : lustre_disk_data :=
  {| ldd_config_ver := 0; ldd_flags := 0; ldd_svindex := 0; ldd_mount_type := 0;
     ldd_fsname := ""; ldd_svname := ""; ldd_uuid := ""; ldd_userdata := "";
     ldd_mount_opts := ""; ldd_params := "" |}.

(** ** Predicates used in the statements *)

(** [/etc/hostid] does not give a host id other than 0. *)
Definition etc_hostid_gives_zero (w : world) : bool :=
  match w_etc_hostid w with
  | None => true
  | Some bytes =>
      (Z.of_nat (List.length bytes) <? 4) || (hostid_of_bytes bytes =? 0)
  end.

(** A code the read path steps over. *)
Definition tolerated (ret : Z) : Prop := ret = 0 \/ ret = ENOENT.

(** The return code of the getter of a bridge entry on a handle. *)
Definition bridge_code {ext : Externals} (w : world) (zhp : string)
    (ldd : lustre_disk_data) (b : zfs_ldd_prop_bridge) : Z :=
  fst (zlpb_get_prop_fn b w zhp ldd).

(** The return code of the enumeration of the parameters on a handle. *)
Definition bulk_code {ext : Externals} (w : world) (zhp : string)
    (ldd : lustre_disk_data) : Z :=
  fst (zfs_get_prop_params w zhp (ldd_params ldd) 4096).

(** What [zfs_read_ldd] does with an open handle, from the [for] loop to
    the label [out_close]: the code it will return and the record. *)
Definition read_with_handle {ext : Externals} (w : world) (zhp : string)
    (ldd : lustre_disk_data) : Z * lustre_disk_data :=
  let '(ret, ldd) := read_special_props w zhp ldd special_ldd_prop_params in
  if negb (ret =? 0) then (ret, ldd)
  else
    let '(ret, params) := zfs_get_prop_params w zhp (ldd_params ldd) 4096 in
    let ldd := Ldd.put_params params ldd in
    if negb (ret =? 0) && negb (ret =? ENOENT) then (ret, ldd)
    else (0, Ldd.put_mount_type LDD_MT_ZFS ldd).

(** ** Parameter blobs made of well-formed tokens

    Used to state what the codec does on the blobs it is meant for. *)

(** No character of [s] is [d]. *)
Fixpoint lacks (d : ascii) (s : string) : bool :=
  match s with
  | EmptyString => true
  | String c s' => negb (Ascii.eqb c d) && lacks d s'
  end.

(** A key or a value: not empty, no blank, no '='. *)
Definition is_word (s : string) : bool :=
  negb (String.eqb s EmptyString) && lacks " " s && lacks "=" s.

Definition is_pair (kv : string * string) : bool :=
  is_word (fst kv) && is_word (snd kv).

(** The token key=value. *)
Definition param_token (kv : string * string) : string :=
  fst kv ++ "=" ++ snd kv.

(** The tokens, one blank between two of them. *)
Fixpoint params_blob (kvs : list (string * string)) : string :=
  match kvs with
  | [] => EmptyString
  | [kv] => param_token kv
  | kv :: kvs' => param_token kv ++ " " ++ params_blob kvs'
  end.

(** [n] blanks. *)
Fixpoint blanks (n : nat) : string :=
  match n with
  | O => EmptyString
  | S n' => String " " (blanks n')
  end.

(** The pairs set one after the other as lustre:key, up to the first
    [zfs_prop_set] that fails: its code, or 0, and the world reached. *)
Fixpoint set_pairs {ext : Externals} (w : world) (zhp : string)
    (kvs : list (string * string)) : Z * world :=
  match kvs with
  | [] => (0, w)
  | (k, v) :: kvs' =>
      let '(ret, w') := zfs_prop_set w zhp (LDD_PREFIX ++ k) v in
      if negb (ret =? 0) then (ret, w') else set_pairs w' zhp kvs'
  end.

(** A list of user properties after the values have been put under the
    names, in order. *)
Fixpoint nvlist_puts (l : nvlist) (kvs : list (string * string)) : nvlist :=
  match kvs with
  | [] => l
  | (k, v) :: kvs' => nvlist_puts (nvlist_put l k v) kvs'
  end.

(** The value the last pair for [name] gives, if a pair has that name. *)
Fixpoint last_value (name : string) (kvs : list (string * string))
  : option string :=
  match kvs with
  | [] => None
  | (k, v) :: kvs' =>
      match last_value name kvs' with
      | Some v' => Some v'
      | None => if String.eqb k name then Some v else None
      end
  end.

(** The property names of the pairs. *)
Definition lustre_names (kvs : list (string * string))
  : list (string * string) :=
  map (fun kv => (LDD_PREFIX ++ fst kv, snd kv)) kvs.

(** The tokens, a blank after each of them, then [tail]. *)
Fixpoint params_then (kvs : list (string * string)) (tail : string) : string :=
  match kvs with
  | [] => tail
  | kv :: kvs' => param_token kv ++ String " " (params_then kvs' tail)
  end.

(** A token the loop of [zfs_set_prop_params] cannot use: [strtok] finds
    no key in it, or no value after the key. *)
Definition malformed (tok : string) : Prop :=
  fst (CStr.strtok_r tok "=") = None \/
  fst (CStr.strtok_r (snd (CStr.strtok_r tok "=")) "=") = None.

(** ** The read direction of the codec *)

(** User properties that all have a value. *)
Definition valued (kvs : list (string * string)) : nvlist :=
  map (fun kv => (fst kv, Some (snd kv))) kvs.

(** The properties the enumeration appends to the blob: those in the
    lustre: name space that the bridge table does not hold. *)
Definition is_param_prop (name : string) : bool :=
  CStr.has_prefix LDD_PREFIX name && negb (zfs_is_special_ldd_prop_param name).

(** The blob after [add_param] was called for each property, in order,
    with the name without its prefix. *)
Fixpoint add_params {ext : Externals} (param : string)
    (kvs : list (string * string)) : string :=
  match kvs with
  | [] => param
  | (name, value) :: kvs' =>
      add_params
        (snd (add_param param
                (CStr.advance (String.length LDD_PREFIX) name ++ "=") value))
        kvs'
  end.

(** ** What the bridge table writes *)

(** The string an entry stores for a record: the decimal of an integer
    field, a string field as it is, nothing for an empty string. *)
Definition bridge_value (ldd : lustre_disk_data) (b : zfs_ldd_prop_bridge)
  : option string :=
  match zlpb_ldd_offset b with
  | FieldInt get _ => Some (Dec.fmt_i (Dec.as_int (get ldd)))
  | FieldStr get _ =>
      if String.eqb (get ldd) EmptyString then None else Some (get ldd)
  end.

Fixpoint bridge_writes (ldd : lustre_disk_data) (tbl : list zfs_ldd_prop_bridge)
  : list (string * string) :=
  match tbl with
  | [] => []
  | b :: tbl' =>
      match bridge_value ldd b with
      | Some v => (zlpb_prop_name b, v) :: bridge_writes ldd tbl'
      | None => bridge_writes ldd tbl'
      end
  end.


(** A dataset of a type with a list of user properties. *)
Definition a_dataset (type : zfs_type_t) (l : nvlist) : dataset :=
  {| ds_type := type; ds_user_props := Some l |}.

(** No parameter has the name of a table entry. *)
Definition plain_keys (kvs : list (string * string)) : bool :=
  forallb (fun kv => negb (zfs_is_special_ldd_prop_param (LDD_PREFIX ++ fst kv))) kvs.

(** ** Command lines *)

(** The vdevs as [zfs_make_lustre] appends them: a blank before each. *)
Fixpoint vdev_args (vdevs : list string) : string :=
  match vdevs with
  | [] => EmptyString
  | vdev :: vdevs' => " " ++ vdev ++ vdev_args vdevs'
  end.

(** A vdev [zfs_create_vdev] has nothing to do for: a name that is not
    an absolute path, or a path [access] finds. *)
Definition vdev_is_there {ext : Externals} (w : world) (vdev : string) : bool :=
  negb (CStr.has_prefix "/" vdev) || (access_F_OK w vdev =? 0).

(** ** Facts on the decimal conversions *)

Module DecFacts.
Import Dec.

Lemma digit_char_is_digit d :
  0 <= d < 10 -> is_digit (digit_char d) = true /\ digit_val (digit_char d) = d.
Proof.
  intros Hd. unfold is_digit, digit_val, digit_char.
  rewrite nat_ascii_embedding by lia.
  split; [apply andb_true_intro; split; apply Z.leb_le; lia | lia].
Qed.

Lemma digits_val_fmt_udec fuel : forall n acc,
  0 <= n < 10 ^ Z.of_nat (S fuel) ->
  digits_val (fmt_udec fuel n acc) 0 = digits_val acc n.
Proof.
  induction fuel as [|fuel IH]; intros n acc Hn.
  - change (10 ^ Z.of_nat 1) with 10 in Hn. cbn [fmt_udec digits_val].
    destruct (digit_char_is_digit (n mod 10)) as [-> ->];
      [apply Z.mod_pos_bound; lia|].
    rewrite Z.mod_small by lia. reflexivity.
  - cbn [fmt_udec].
    assert (Hd : 0 <= n mod 10 < 10) by (apply Z.mod_pos_bound; lia).
    destruct (digit_char_is_digit (n mod 10) Hd) as [Hi Hv].
    destruct (Z.eqb_spec (n / 10) 0) as [Hq|Hq].
    + cbn [digits_val]. rewrite Hi, Hv.
      f_equal. pose proof (Z.div_mod n 10). lia.
    + rewrite IH.
      * cbn [digits_val]. rewrite Hi, Hv.
        f_equal. pose proof (Z.div_mod n 10). lia.
      * split; [apply Z.div_pos; lia|].
        apply Z.div_lt_upper_bound; [lia|].
        replace (Z.of_nat (S (S fuel))) with (Z.succ (Z.of_nat (S fuel))) in Hn by lia.
        rewrite Z.pow_succ_r in Hn by lia. lia.
  Qed.

Lemma fmt_udec_head fuel : forall n acc,
  exists c s, fmt_udec fuel n acc = String c s /\ is_digit c = true.
Proof.
  induction fuel as [|fuel IH]; intros n acc; cbn [fmt_udec].
  - eexists _, _. split; [reflexivity|].
    apply digit_char_is_digit, Z.mod_pos_bound; lia.
  - destruct (n / 10 =? 0); [|apply IH].
    eexists _, _. split; [reflexivity|].
    apply digit_char_is_digit, Z.mod_pos_bound; lia.
Qed.

Lemma digit_not_space c : is_digit c = true -> is_space c = false.
Proof.
  unfold is_digit, is_space. intros H.
  apply andb_prop in H as [H1 H2]. apply Z.leb_le in H1.
  apply orb_false_intro.
  - apply Nat.eqb_neq. lia.
  - apply andb_false_intro2. apply Nat.leb_gt. lia.
Qed.

Lemma digit_not_sign c :
  is_digit c = true -> Ascii.eqb c "-" = false /\ Ascii.eqb c "+" = false.
Proof.
  intros H. split; apply Ascii.eqb_neq; intros ->; discriminate H.
Qed.

Lemma log2_fuel n : 0 <= n -> n < 10 ^ Z.of_nat (S (Z.to_nat (Z.log2 n))).
Proof.
  intros Hn. pose proof (Z.log2_nonneg n) as Hl.
  replace (Z.of_nat (S (Z.to_nat (Z.log2 n)))) with (Z.succ (Z.log2 n)) by lia.
  destruct (Z.eq_dec n 0) as [->|Hz]; [reflexivity|].
  apply Z.lt_le_trans with (2 ^ Z.succ (Z.log2 n)).
  - apply Z.log2_spec. lia.
  - apply Z.pow_le_mono_l. lia.
Qed.

(** [strtoul] reads back what "%i" printed: a non-negative value as it
    is, a negative one as its two's complement in [unsigned long]. *)
Lemma strtoul10_fmt_i v :
  - 2 ^ 63 <= v < 2 ^ 64 -> strtoul10 (fmt_i v) = (v mod 2 ^ 64, 0).
Proof.
  intros Hv. unfold fmt_i.
  destruct (Z.ltb_spec v 0) as [Hneg|Hpos].
  - unfold strtoul10. cbn [skip_space].
    change (is_space "-") with false. cbv iota.
    change (Ascii.eqb "-" "-") with true. cbv iota.
    destruct (fmt_udec_head (Z.to_nat (Z.log2 (- v))) (- v) "") as (c & s & E & Hc).
    assert (Hnn : 0 <= - v) by lia.
    pose proof (digits_val_fmt_udec (Z.to_nat (Z.log2 (- v))) (- v) ""
                  (conj Hnn (log2_fuel (- v) Hnn))) as Hd.
    rewrite E in *. rewrite Hc, Hd. cbn [digits_val].
    destruct (Z.gtb_spec (- v) ULONG_MAX) as [Hgt|_];
      [unfold ULONG_MAX in Hgt; lia|].
    now rewrite Z.opp_involutive.
  - unfold strtoul10.
    destruct (fmt_udec_head (Z.to_nat (Z.log2 v)) v "") as (c & s & E & Hc).
    pose proof (digits_val_fmt_udec (Z.to_nat (Z.log2 v)) v ""
                  (conj Hpos (log2_fuel v Hpos))) as Hd.
    rewrite E in *. cbn [skip_space]. rewrite (digit_not_space c Hc).
    destruct (digit_not_sign c Hc) as [-> ->]. rewrite Hc, Hd.
    cbn [digits_val].
    destruct (Z.gtb_spec v ULONG_MAX) as [Hgt|_];
      [unfold ULONG_MAX in Hgt; lia|reflexivity].
Qed.

Lemma as_int_range v : - 2 ^ 31 <= as_int v < 2 ^ 31.
Proof.
  unfold as_int. pose proof (Z.mod_pos_bound v (2 ^ 32) ltac:(lia)).
  destruct (Z.ltb_spec (v mod 2 ^ 32) (2 ^ 31)); lia.
Qed.

Lemma as_u32_as_int v : 0 <= v < 2 ^ 32 -> as_u32 (as_int v mod 2 ^ 64) = v.
Proof.
  unfold as_u32, as_int.
  change (2 ^ 64) with 18446744073709551616.
  change (2 ^ 32) with 4294967296. change (2 ^ 31) with 2147483648.
  intros Hv. rewrite (Z.mod_small v) by lia.
  destruct (Z.ltb_spec v 2147483648).
  - rewrite (Z.mod_small v 18446744073709551616) by lia.
    apply Z.mod_small; lia.
  - replace ((v - 4294967296) mod 18446744073709551616)
      with (v + 4294967295 * 4294967296).
    + rewrite Z.mod_add by lia. apply Z.mod_small; lia.
    + apply Z.mod_unique with (-1); lia.
Qed.

Lemma fmt_i_negative v :
  v < 0 -> exists digits, fmt_i v = String "-" digits.
Proof.
  intros Hv. unfold fmt_i. destruct (Z.ltb_spec v 0); [|lia].
  eexists. reflexivity.
Qed.

End DecFacts.

(** ** Facts on the property store *)

Section StoreFacts.

Context {ext : Externals}.

Lemma find_update_dataset ds name f d :
  find_dataset ds name = Some d ->
  find_dataset (update_dataset ds name f) name = Some (f d).
Proof.
  induction ds as [|[n d'] ds IH]; cbn [find_dataset update_dataset]; [discriminate|].
  destruct (String.eqb n name) eqn:E; intros H.
  - injection H as <-. cbn [find_dataset]. now rewrite E.
  - cbn [find_dataset]. rewrite E. auto.
Qed.

Lemma nvlist_find_put l prop value :
  nvlist_find (nvlist_put l prop value) prop = Some (Some value).
Proof.
  induction l as [|[n v] l IH]; cbn [nvlist_put nvlist_find].
  - now rewrite String.eqb_refl.
  - destruct (String.eqb n prop) eqn:E; cbn [nvlist_find]; now rewrite E.
Qed.

Lemma nvlist_find_put_other l prop value name :
  name <> prop ->
  nvlist_find (nvlist_put l prop value) name = nvlist_find l name.
Proof.
  intros Hne. induction l as [|[n v] l IH]; cbn [nvlist_put nvlist_find].
  - destruct (String.eqb_spec prop name); congruence.
  - destruct (String.eqb_spec n prop) as [->|Hn]; cbn [nvlist_find].
    + destruct (String.eqb_spec prop name); congruence.
    + now rewrite IH.
Qed.

(** A successful [zfs_prop_set] shows in the user properties of the handle. *)
Lemma zfs_prop_set_stored w zhp prop value d :
  find_dataset (w_datasets w) zhp = Some d ->
  fst (zfs_prop_set w zhp prop value) = 0 ->
  zfs_get_user_props (snd (zfs_prop_set w zhp prop value)) zhp =
    Some (nvlist_put (match ds_user_props d with Some l => l | None => [] end)
                     prop value).
Proof.
  intros Hd. unfold zfs_prop_set.
  destruct (zfs_prop_set_errno w zhp prop value =? 0) eqn:E; cbn [fst snd].
  - intros _. unfold zfs_get_user_props. cbn [w_datasets set_datasets].
    now rewrite (find_update_dataset _ _ _ _ Hd).
  - intros H. rewrite H in E. discriminate E.
Qed.

Lemma zfs_prop_set_failed w zhp prop value :
  fst (zfs_prop_set w zhp prop value) <> 0 ->
  snd (zfs_prop_set w zhp prop value) = w.
Proof.
  unfold zfs_prop_set.
  destruct (zfs_prop_set_errno w zhp prop value =? 0); cbn [fst snd]; congruence.
Qed.

Lemma set_handles_same w : set_handles (w_handles w) w = w.
Proof. now destruct w. Qed.

Lemma remove_handle_head zhp hs : remove_handle zhp (zhp :: hs) = hs.
Proof. cbn [remove_handle]. now rewrite String.eqb_refl. Qed.

(** Closing the handle that was opened last gives the handles back. *)
Lemma zfs_close_opened w zhp :
  zfs_close (set_handles (zhp :: w_handles w) w) zhp = w.
Proof.
  unfold zfs_close. cbn [w_handles set_handles].
  rewrite remove_handle_head. now destruct w.
Qed.

End StoreFacts.

(** ** Typed accessors *)

Section Accessors.

Context {ext : Externals}.

Lemma zfs_get_prop_str_stored w zhp prop value old l :
  zfs_get_user_props w zhp = Some l ->
  nvlist_find l prop = Some (Some value) ->
  zfs_get_prop_str w zhp prop old = (0, value).
Proof.
  intros Hp Hf. unfold zfs_get_prop_str, nvlist_lookup_nvlist.
  now rewrite Hp, Hf.
Qed.

Lemma zfs_get_prop_int_stored w zhp prop value old l :
  zfs_get_user_props w zhp = Some l ->
  nvlist_find l prop = Some (Some value) ->
  zfs_get_prop_int w zhp prop old =
    (let '(v, errno) := Dec.strtoul10 value in
     if negb (errno =? 0) then (errno, Dec.as_u32 v) else (0, Dec.as_u32 v)).
Proof.
  intros Hp Hf. unfold zfs_get_prop_int, nvlist_lookup_nvlist.
  rewrite Hp, Hf. cbn. now destruct (Dec.strtoul10 value).
Qed.

(** C10: for every 32-bit value [v] of a field, [zfs_get_prop_int] after
    a successful [zfs_set_prop_int] gives [v] back with code 0, also for
    [v] at or above 2^31: such a value is stored as a decimal string with
    a minus sign (the "%i" of the field read as [int]), and the unsigned
    parse of that string, cut to 32 bits, is [v] again. *)
Theorem zfs_int_accessor_roundtrip (w : world) (zhp prop : string)
    (d : dataset) (v old : Z) :
  0 <= v < 2 ^ 32 ->
  find_dataset (w_datasets w) zhp = Some d ->
  fst (zfs_set_prop_int w zhp prop v) = 0 ->
  let w' := snd (zfs_set_prop_int w zhp prop v) in
  zfs_get_prop_int w' zhp prop old = (0, v) /\
  (2 ^ 31 <= v ->
   exists digits,
     zfs_get_prop_str w' zhp prop EmptyString = (0, String "-" digits) /\
     Dec.strtoul10 (String "-" digits) = (2 ^ 64 - 2 ^ 32 + v, 0)).
Proof.
  intros Hv Hd Hset w'. subst w'. unfold zfs_set_prop_int in *.
  pose proof (zfs_prop_set_stored _ _ _ _ _ Hd Hset) as Hp.
  pose proof (DecFacts.as_int_range v) as Hr.
  assert (Hparse : Dec.strtoul10 (Dec.fmt_i (Dec.as_int v))
                   = (Dec.as_int v mod 2 ^ 64, 0))
    by (apply DecFacts.strtoul10_fmt_i; lia).
  split.
  - rewrite (zfs_get_prop_int_stored _ _ _ _ _ _ Hp (nvlist_find_put _ _ _)).
    rewrite Hparse. cbn [Z.eqb negb].
    now rewrite DecFacts.as_u32_as_int.
  - intros Hhigh.
    assert (Hneg : Dec.as_int v = v - 2 ^ 32).
    { unfold Dec.as_int. rewrite Z.mod_small by lia.
      destruct (Z.ltb_spec v (2 ^ 31)); lia. }
    destruct (DecFacts.fmt_i_negative (Dec.as_int v)) as [digits E]; [lia|].
    exists digits. rewrite <- E. split.
    + apply (zfs_get_prop_str_stored _ _ _ _ _ _ Hp (nvlist_find_put _ _ _)).
    + rewrite Hparse, Hneg. f_equal.
      symmetry. apply Z.mod_unique with (-1); lia.
Qed.

(** C9: [zfs_set_prop_str] with a NULL or empty value returns 0 and
    leaves the world as it is, whatever [zfs_prop_set] would have
    answered, so no call is made; a read after it gives what a read
    before it gave (the old property, or the code of a missing one with
    the field untouched); and after a successful write of a non-empty
    value the read gives that value. *)
Theorem zfs_set_prop_str_policy (w : world) (zhp prop : string) :
  zfs_set_prop_str w zhp prop None = (0, w) /\
  zfs_set_prop_str w zhp prop (Some EmptyString) = (0, w) /\
  (forall old,
     zfs_get_prop_str (snd (zfs_set_prop_str w zhp prop (Some EmptyString)))
                      zhp prop old
     = zfs_get_prop_str w zhp prop old) /\
  (forall d value old,
     find_dataset (w_datasets w) zhp = Some d ->
     value <> EmptyString ->
     fst (zfs_set_prop_str w zhp prop (Some value)) = 0 ->
     zfs_get_prop_str (snd (zfs_set_prop_str w zhp prop (Some value)))
                      zhp prop old
     = (0, value)).
Proof.
  repeat split; try reflexivity.
  intros d value old Hd Hne Hset.
  unfold zfs_set_prop_str in *.
  destruct value as [|c value]; [contradiction|].
  cbn [String.length] in *.
  destruct (Z.ltb_spec 0 (Z.of_nat (S (String.length value)))); [|lia].
  pose proof (zfs_prop_set_stored _ _ _ _ _ Hd Hset) as Hp.
  apply (zfs_get_prop_str_stored _ _ _ _ _ _ Hp (nvlist_find_put _ _ _)).
Qed.

End Accessors.

(** ** Facts on C strings *)

Module CStrFacts.
Import CStr.

Lemma prefix_nil y : String.prefix EmptyString y = true.
Proof. now destruct y. Qed.

Lemma prefix_app n : forall y, String.prefix n (n ++ y) = true.
Proof.
  induction n as [|c n IH]; intros y; [apply prefix_nil|].
  cbn. destruct (ascii_dec c c); [apply IH|congruence].
Qed.

Lemma prefix_app_l n : forall h y,
  String.prefix n h = true -> String.prefix n (h ++ y) = true.
Proof.
  induction n as [|c n IH]; intros h y; [intros _; apply prefix_nil|].
  destruct h as [|c' h]; cbn; [discriminate|].
  destruct (ascii_dec c c'); [apply IH|discriminate].
Qed.

Lemma strstr_prefix h n : String.prefix n h = true -> strstr h n = true.
Proof. intros H. destruct h; cbn [strstr]; now rewrite H. Qed.

Lemma strstr_skip x : forall h n, strstr h n = true -> strstr (x ++ h) n = true.
Proof.
  induction x as [|c x IH]; intros h n H; [exact H|].
  cbn [append strstr]. rewrite (IH _ _ H).
  now destruct (String.prefix n (String c (x ++ h))).
Qed.

Lemma strstr_app_l h : forall y n, strstr h n = true -> strstr (h ++ y) n = true.
Proof.
  induction h as [|c h IH]; intros y n.
  - cbn [strstr]. destruct (String.prefix n "") eqn:E; [|discriminate].
    intros _. apply strstr_prefix. now apply (prefix_app_l n "" y).
  - cbn [strstr append].
    destruct (String.prefix n (String c h)) eqn:E.
    + intros _. change (String c (h ++ y)) with (String c h ++ y).
      now rewrite (prefix_app_l _ _ y E).
    + intros H. rewrite (IH y n H).
      now destruct (String.prefix n (String c (h ++ y))).
Qed.

(** A blob contains what was appended to it. *)
Lemma strstr_appended x n y : strstr (x ++ n ++ y) n = true.
Proof. apply strstr_skip, strstr_prefix, prefix_app. Qed.

Lemma append_assoc (a b c : string) : (a ++ b) ++ c = a ++ b ++ c.
Proof. induction a as [|x a IH]; cbn; [reflexivity|now rewrite IH]. Qed.

(** *** [strtok] on a string it has already cut *)

Lemma skip_delims_take delim t : starts_token delim t ->
  forall s, skip_delims delim (take_delims delim s ++ t) = t.
Proof.
  intros Ht s. induction s as [|c s IH]; cbn [take_delims].
  - destruct t as [|c t]; [reflexivity|]. cbn in *. now rewrite Ht.
  - destruct (is_delim delim c) eqn:E.
    + cbn [append skip_delims]. now rewrite E.
    + destruct t as [|c' t]; [reflexivity|]. cbn in *. now rewrite Ht.
Qed.

Lemma take_delims_take delim t : starts_token delim t ->
  forall s, take_delims delim (take_delims delim s ++ t) = take_delims delim s.
Proof.
  intros Ht s. induction s as [|c s IH]; cbn [take_delims].
  - destruct t as [|c t]; [reflexivity|]. cbn in *. now rewrite Ht.
  - destruct (is_delim delim c) eqn:E.
    + cbn [append take_delims]. now rewrite E, IH.
    + destruct t as [|c' t]; [reflexivity|]. cbn in *. now rewrite Ht.
Qed.

Lemma skip_delims_head delim s c s' :
  skip_delims delim s = String c s' -> is_delim delim c = false.
Proof.
  induction s as [|d s IH]; cbn [skip_delims]; [discriminate|].
  destruct (is_delim delim d) eqn:E; [exact IH|].
  intros H. injection H as <- _. exact E.
Qed.

(** A token holds no delimiter: breaking it again gives it whole. *)
Lemma break_token_again delim s : forall tok rest,
  break_token delim s = (tok, rest) -> break_token delim tok = (tok, None).
Proof.
  induction s as [|c s IH]; intros tok rest; cbn [break_token].
  - intros H. injection H as <- _. reflexivity.
  - destruct (is_delim delim c) eqn:E.
    + intros H. injection H as <- _. reflexivity.
    + destruct (break_token delim s) as [tok' rest'] eqn:B.
      intros H. injection H as <- _. cbn [break_token].
      now rewrite E, (IH tok' rest' eq_refl).
Qed.

Lemma strtok_r_token delim s key pos :
  strtok_r s delim = (Some key, pos) ->
  exists c k, key = String c k /\ is_delim delim c = false /\
              break_token delim key = (key, None).
Proof.
  unfold strtok_r. destruct (skip_delims delim s) as [|c s'] eqn:S; [discriminate|].
  pose proof (skip_delims_head _ _ _ _ S) as Hc.
  destruct (break_token delim (String c s')) as [tok rest] eqn:B.
  pose proof (break_token_again _ _ _ _ B) as Hagain.
  cbn [break_token] in B. rewrite Hc in B.
  destruct (break_token delim s') as [tok' rest']. injection B as <- <-.
  intros H. exists c, tok'.
  destruct rest'; injection H as <- _; auto.
Qed.

(** After [strtok] has cut a string at its first token, [strtok] on
    the same pointer finds that token again, with nothing after it, and
    leaves the string as it is. *)
Lemma strtok_r_residue delim s key pos :
  strtok_r s delim = (Some key, pos) ->
  strtok_r (strtok_residue s delim) delim = (Some key, EmptyString) /\
  strtok_residue (strtok_residue s delim) delim = strtok_residue s delim.
Proof.
  intros H. destruct (strtok_r_token _ _ _ _ H) as (c & k & -> & Hc & Hb).
  assert (Hst : starts_token delim (String c k)) by exact Hc.
  assert (E : strtok_r (take_delims delim s ++ String c k) delim
              = (Some (String c k), EmptyString)).
  { unfold strtok_r. rewrite (skip_delims_take _ _ Hst). now rewrite Hb. }
  assert (HR : strtok_residue s delim = take_delims delim s ++ String c k)
    by (unfold strtok_residue; now rewrite H).
  rewrite HR. split; [exact E|].
  unfold strtok_residue. rewrite E. now rewrite (take_delims_take _ _ Hst).
Qed.

Lemma strtok_r_nothing delim s pos :
  strtok_r s delim = (None, pos) -> strtok_residue s delim = s.
Proof. intros H. unfold strtok_residue. now rewrite H. Qed.

End CStrFacts.

(** ** Parameter blob *)

Section ParamsCodec.

Context {ext : Externals}.

(** One iteration on a token that has a key and a value. *)
Lemma set_params_loop_pair fuel w zhp tok save ret key pos value :
  CStr.strtok_r tok "=" = (Some key, pos) ->
  fst (CStr.strtok_r pos "=") = Some value ->
  zfs_set_prop_params_loop (S fuel) w zhp (Some tok) save ret =
    (let '(ret, w) := zfs_prop_set w zhp (LDD_PREFIX ++ key) value in
     if negb (ret =? 0) then Returns ret w
     else let '(token, save_token) := CStr.strtok_r save " " in
          zfs_set_prop_params_loop fuel w zhp token save_token ret).
Proof.
  intros Hk Hv. cbn [zfs_set_prop_params_loop]. now rewrite Hk, Hv.
Qed.

(** One iteration on a token without a key or without a value: the
    [continue] comes back with the same token, cut at its key. *)
Lemma set_params_loop_continue fuel w zhp tok save ret :
  (fst (CStr.strtok_r tok "=") = None \/
   fst (CStr.strtok_r (snd (CStr.strtok_r tok "=")) "=") = None) ->
  zfs_set_prop_params_loop (S fuel) w zhp (Some tok) save ret =
    zfs_set_prop_params_loop fuel w zhp
      (Some (CStr.strtok_residue tok "=")) save ret.
Proof.
  intros H. cbn [zfs_set_prop_params_loop].
  destruct (CStr.strtok_r tok "=") as [[key|] pos]; cbn [fst snd] in H.
  - destruct H as [H|H]; [discriminate|]. now rewrite H.
  - reflexivity.
Qed.

(** A token that is its own residue and has no value keeps the loop
    where it is: it never returns and never writes. *)
Lemma set_params_loop_stuck w zhp tok save ret :
  CStr.strtok_residue tok "=" = tok ->
  (fst (CStr.strtok_r tok "=") = None \/
   fst (CStr.strtok_r (snd (CStr.strtok_r tok "=")) "=") = None) ->
  forall fuel, zfs_set_prop_params_loop fuel w zhp (Some tok) save ret = Spins w.
Proof.
  intros Hres Hbad fuel. induction fuel as [|fuel IH]; [reflexivity|].
  rewrite set_params_loop_continue by exact Hbad. now rewrite Hres.
Qed.

(** Whatever the blob, once the loop holds a token without a key or
    without a value it stays there. *)
Lemma set_params_loop_malformed w zhp tok save ret :
  (fst (CStr.strtok_r tok "=") = None \/
   fst (CStr.strtok_r (snd (CStr.strtok_r tok "=")) "=") = None) ->
  forall fuel, zfs_set_prop_params_loop fuel w zhp (Some tok) save ret = Spins w.
Proof.
  intros Hbad fuel. destruct fuel as [|fuel]; [reflexivity|].
  rewrite set_params_loop_continue by exact Hbad.
  destruct (CStr.strtok_r tok "=") as [[key|] pos] eqn:E.
  - destruct (CStrFacts.strtok_r_residue _ _ _ _ E) as [E1 E2].
    apply set_params_loop_stuck; [exact E2|]. right. now rewrite E1.
  - rewrite (CStrFacts.strtok_r_nothing _ _ _ E).
    apply set_params_loop_stuck.
    + apply (CStrFacts.strtok_r_nothing _ _ _ E).
    + left. now rewrite E.
Qed.

(** Every blob whose first token is malformed makes
    [zfs_set_prop_params] spin without a write. *)
Lemma zfs_set_prop_params_first_malformed w zhp params tok save :
  CStr.strtok_r params " " = (Some tok, save) ->
  (fst (CStr.strtok_r tok "=") = None \/
   fst (CStr.strtok_r (snd (CStr.strtok_r tok "=")) "=") = None) ->
  forall fuel, zfs_set_prop_params fuel w zhp params = Spins w.
Proof.
  intros Ht Hbad fuel. unfold zfs_set_prop_params. rewrite Ht.
  now apply set_params_loop_malformed.
Qed.

Lemma zfs_prop_set_ok w zhp prop value :
  zfs_prop_set_errno w zhp prop value = 0 ->
  zfs_prop_set w zhp prop value =
    (0, set_datasets
          (update_dataset (w_datasets w) zhp (put_user_prop prop value)) w).
Proof. intros H. unfold zfs_prop_set. now rewrite H. Qed.

(** C1 (what the code does): on the blob "nokey opt=a", and on
    "novalue= opt=a", [zfs_set_prop_params] does not return, whatever the
    number of iterations allowed, and the world stays as it was: the
    malformed first token is met again at every iteration, and the
    property for opt=a is never written. *)
Theorem zfs_set_prop_params_malformed_spins (w : world) (zhp : string)
    (fuel : nat) :
  zfs_set_prop_params fuel w zhp "nokey opt=a" = Spins w /\
  zfs_set_prop_params fuel w zhp "novalue= opt=a" = Spins w.
Proof.
  split.
  - unfold zfs_set_prop_params.
    change (CStr.strtok_r "nokey opt=a" " ") with (Some "nokey", "opt=a").
    apply set_params_loop_stuck; [reflexivity|right; reflexivity].
  - unfold zfs_set_prop_params.
    change (CStr.strtok_r "novalue= opt=a" " ") with (Some "novalue=", "opt=a").
    destruct fuel as [|fuel]; [reflexivity|].
    rewrite set_params_loop_continue by (right; reflexivity).
    change (CStr.strtok_residue "novalue=" "=") with "novalue".
    apply set_params_loop_stuck; [reflexivity|right; reflexivity].
Qed.

(** C4: with a property store that accepts the writes, the blob
    "opt1=a opt2=b" makes [zfs_set_prop_params] return 0 after exactly
    the two calls that set lustre:opt1 to a and lustre:opt2 to b; and for
    user properties that are those two, in either order, and an
    [add_param] that appends the key and the value to the blob,
    [zfs_get_prop_params] returns 0 with a blob that contains both
    opt1=a and opt2=b. *)
Theorem params_codec_example (w : world) (zhp : string) (d : dataset)
    (fuel : nat) :
  find_dataset (w_datasets w) zhp = Some d ->
  (forall w' prop value, zfs_prop_set_errno w' zhp prop value = 0) ->
  (forall buf key val, exists pre post,
      add_param buf key val = (0, buf ++ pre ++ key ++ val ++ post)) ->
  let old := match ds_user_props d with Some l => l | None => [] end in
  let w1 := snd (zfs_prop_set w zhp "lustre:opt1" "a") in
  let w2 := snd (zfs_prop_set w1 zhp "lustre:opt2" "b") in
  zfs_set_prop_params (3 + fuel) w zhp "opt1=a opt2=b" = Returns 0 w2 /\
  zfs_get_user_props w2 zhp =
    Some (nvlist_put (nvlist_put old "lustre:opt1" "a") "lustre:opt2" "b") /\
  (forall w3 props param,
      zfs_get_user_props w3 zhp = Some props ->
      Permutation props [("lustre:opt1", Some "a"); ("lustre:opt2", Some "b")] ->
      exists blob,
        zfs_get_prop_params w3 zhp param 4096 = (0, blob) /\
        CStr.strstr blob "opt1=a" = true /\
        CStr.strstr blob "opt2=b" = true).
Proof.
  intros Hd Hset Hadd old w1 w2.
  assert (E1 : zfs_prop_set w zhp "lustre:opt1" "a" = (0, w1)).
  { subst w1. now rewrite zfs_prop_set_ok by apply Hset. }
  assert (E2 : zfs_prop_set w1 zhp "lustre:opt2" "b" = (0, w2)).
  { subst w2. now rewrite (zfs_prop_set_ok w1) by apply Hset. }
  split; [|split].
  - unfold zfs_set_prop_params.
    change (CStr.strtok_r "opt1=a opt2=b" " ") with (Some "opt1=a", "opt2=b").
    change (3 + fuel)%nat with (S (S (S fuel))). cbv beta iota zeta.
    rewrite (set_params_loop_pair _ _ _ "opt1=a" _ _ "opt1" "a" "a")
      by reflexivity.
    change (LDD_PREFIX ++ "opt1") with "lustre:opt1". rewrite E1.
    cbn [Z.eqb negb].
    change (CStr.strtok_r "opt2=b" " ") with (Some "opt2=b", "").
    cbv beta iota zeta.
    rewrite (set_params_loop_pair _ _ _ "opt2=b" _ _ "opt2" "b" "b")
      by reflexivity.
    change (LDD_PREFIX ++ "opt2") with "lustre:opt2". rewrite E2.
    reflexivity.
  - assert (H1 : fst (zfs_prop_set w zhp "lustre:opt1" "a") = 0)
      by now rewrite E1.
    pose proof (zfs_prop_set_stored _ _ _ _ _ Hd H1) as P1.
    fold w1 in P1.
    assert (Hd1 : find_dataset (w_datasets w1) zhp
                  = Some (put_user_prop "lustre:opt1" "a" d)).
    { subst w1. rewrite zfs_prop_set_ok by apply Hset. cbn [snd].
      now apply find_update_dataset. }
    assert (H2 : fst (zfs_prop_set w1 zhp "lustre:opt2" "b") = 0)
      by now rewrite E2.
    pose proof (zfs_prop_set_stored _ _ _ _ _ Hd1 H2) as P2.
    fold w2 in P2. exact P2.
  - intros w3 props param Hp Hperm.
    assert (Hcase : props = [("lustre:opt1", Some "a"); ("lustre:opt2", Some "b")]
                 \/ props = [("lustre:opt2", Some "b"); ("lustre:opt1", Some "a")]).
    { apply Permutation_sym in Hperm.
      now apply Permutation_length_2_inv in Hperm as [->| ->]; [left|right]. }
    unfold zfs_get_prop_params. rewrite Hp.
    assert (G1 : nvlist_find props "lustre:opt1" = Some (Some "a")
                /\ nvlist_find props "lustre:opt2" = Some (Some "b")).
    { destruct Hcase as [-> | ->]; now split. }
    destruct G1 as [F1 F2].
    pose proof (fun old : string =>
                  zfs_get_prop_str_stored w3 zhp _ _ old _ Hp F1) as S1.
    pose proof (fun old : string =>
                  zfs_get_prop_str_stored w3 zhp _ _ old _ Hp F2) as S2.
    destruct Hcase as [-> | ->]; cbn [zfs_get_prop_params_loop].
    + rewrite S1. cbn [Z.eqb negb].
      change (CStr.has_prefix LDD_PREFIX "lustre:opt1") with true.
      change (zfs_is_special_ldd_prop_param "lustre:opt1") with false.
      cbn [negb].
      change (CStr.advance (String.length LDD_PREFIX) "lustre:opt1" ++ "=")
        with "opt1=".
      destruct (Hadd param "opt1=" "a") as (pre1 & post1 & A1). rewrite A1.
      cbn [Z.eqb negb]. rewrite S2. cbn [Z.eqb negb].
      change (CStr.has_prefix LDD_PREFIX "lustre:opt2") with true.
      change (zfs_is_special_ldd_prop_param "lustre:opt2") with false.
      cbn [negb].
      change (CStr.advance (String.length LDD_PREFIX) "lustre:opt2" ++ "=")
        with "opt2=".
      destruct (Hadd (param ++ pre1 ++ "opt1=" ++ "a" ++ post1) "opt2=" "b")
        as (pre2 & post2 & A2). rewrite A2.
      eexists. split; [reflexivity|]. split.
      * apply CStrFacts.strstr_app_l.
        rewrite <- CStrFacts.append_assoc.
        apply (CStrFacts.strstr_appended (param ++ pre1) "opt1=a" post1).
      * rewrite <- CStrFacts.append_assoc.
        apply (CStrFacts.strstr_appended _ "opt2=b" post2).
    + rewrite S2. cbn [Z.eqb negb].
      change (CStr.has_prefix LDD_PREFIX "lustre:opt2") with true.
      change (zfs_is_special_ldd_prop_param "lustre:opt2") with false.
      cbn [negb].
      change (CStr.advance (String.length LDD_PREFIX) "lustre:opt2" ++ "=")
        with "opt2=".
      destruct (Hadd param "opt2=" "b") as (pre1 & post1 & A1). rewrite A1.
      cbn [Z.eqb negb]. rewrite S1. cbn [Z.eqb negb].
      change (CStr.has_prefix LDD_PREFIX "lustre:opt1") with true.
      change (zfs_is_special_ldd_prop_param "lustre:opt1") with false.
      cbn [negb].
      change (CStr.advance (String.length LDD_PREFIX) "lustre:opt1" ++ "=")
        with "opt1=".
      destruct (Hadd (param ++ pre1 ++ "opt2=" ++ "b" ++ post1) "opt1=" "a")
        as (pre2 & post2 & A2). rewrite A2.
      eexists. split; [reflexivity|]. split.
      * rewrite <- CStrFacts.append_assoc.
        apply (CStrFacts.strstr_appended _ "opt1=a" post2).
      * apply CStrFacts.strstr_app_l.
        rewrite <- CStrFacts.append_assoc.
        apply (CStrFacts.strstr_appended (param ++ pre1) "opt2=b" post1).
Qed.

End ParamsCodec.

(** ** Host id check and write *)

Section WritePath.

Context {ext : Externals}.

Lemma emit_emit a b w : emit b (emit a w) = emit (a ++ b)%list w.
Proof. destruct w. unfold emit. cbn. now rewrite app_assoc. Qed.

(** C6: without the failover-node option in the parameter blob
    [zfs_check_hostid] returns 0 and reads and prints nothing.  With the
    option, when spl_hostid reads as 0 and /etc/hostid gives no other
    host id (it does not open, is short, or holds 0), the check returns
    [EINVAL] after [fatal()] and its message if [MO_NOHOSTID_CHECK] is
    not in [mo_flags], and returns 0 if it is, printing the warning, with
    no [fatal()], after at most the note that /etc/hostid was short. *)
Theorem zfs_check_hostid_policy (w : world) (mop : mkfs_opts) :
  (CStr.strstr (ldd_params (mo_ldd mop)) PARAM_FAILNODE = false ->
   zfs_check_hostid w mop = (0, w)) /\
  (CStr.strstr (ldd_params (mo_ldd mop)) PARAM_FAILNODE = true ->
   w_spl_hostid w = SplScanned 1 0 ->
   etc_hostid_gives_zero w = true ->
   exists pre,
     (pre = [] \/ pre = [MSG_read_hostid 0]) /\
     (Z.land (mo_flags mop) MO_NOHOSTID_CHECK = 0 ->
      zfs_check_hostid w mop
      = (EINVAL, emit (pre ++ [FATAL; MSG_hostid_not_set]) w)) /\
     (Z.land (mo_flags mop) MO_NOHOSTID_CHECK <> 0 ->
      zfs_check_hostid w mop
      = (0, emit (pre ++ [MSG_warn_no_hostid]) w))).
Proof.
  split.
  - intros H. unfold zfs_check_hostid. now rewrite H.
  - intros H Hspl Hetc. unfold zfs_check_hostid. rewrite H, Hspl.
    change (negb (1 =? 1)) with false. change (negb (0 =? 0)) with false.
    cbv beta iota zeta. unfold etc_hostid_gives_zero in Hetc.
    unfold flag_set.
    destruct (w_etc_hostid w) as [bytes|].
    + destruct (Z.leb_spec 4 (Z.of_nat (List.length bytes))) as [Hlen|Hlen].
      * exists []. split; [now left|].
        change (negb (1 =? 1)) with false. cbv beta iota zeta.
        apply orb_prop in Hetc as [Hetc|Hetc];
          [apply Z.ltb_lt in Hetc; lia|].
        rewrite Hetc. split; intros Hf.
        -- now rewrite Hf.
        -- apply Z.eqb_neq in Hf. now rewrite Hf.
      * exists [MSG_read_hostid 0]. split; [now right|].
        change (negb (0 =? 1)) with true. cbv beta iota zeta.
        change (0 =? 0) with true. cbv beta iota zeta.
        split; intros Hf.
        -- rewrite Hf. change (negb (0 =? 0)) with false.
           cbv beta iota zeta. now rewrite emit_emit.
        -- apply Z.eqb_neq in Hf. rewrite Hf. cbn [negb].
           now rewrite emit_emit.
    + exists []. split; [now left|]. change (0 =? 0) with true.
      cbv beta iota zeta.
      split; intros Hf.
      * now rewrite Hf.
      * apply Z.eqb_neq in Hf. now rewrite Hf.
Qed.

Lemma zfs_open_found w ds d type :
  find_dataset (w_datasets w) ds = Some d ->
  ds_type d = type ->
  zfs_open w ds type = (Some ds, set_handles (ds :: w_handles w) w).
Proof.
  intros Hd Ht. unfold zfs_open. rewrite Hd, Ht. now destruct type.
Qed.

Lemma osd_check_zfs_setup_ready w :
  osd_zfs_setup w = 1 -> osd_check_zfs_setup w = (true, w).
Proof.
  intros H. unfold osd_check_zfs_setup. rewrite H.
  change (1 =? 0) with false. cbv beta iota zeta. now rewrite H.
Qed.

Lemma osd_check_zfs_setup_not_ready w :
  osd_zfs_setup w = 0 ->
  osd_check_zfs_setup w = (false, emit [FATAL; MSG_init_not_done] w).
Proof.
  intros H. unfold osd_check_zfs_setup. rewrite H.
  change (0 =? 0) with true. cbv beta iota zeta.
  cbn [osd_zfs_setup emit]. now rewrite H.
Qed.

Lemma zfs_check_hostid_handles w mop :
  w_handles (snd (zfs_check_hostid w mop)) = w_handles w.
Proof.
  unfold zfs_check_hostid, flag_set.
  destruct (negb (CStr.strstr _ _)); [reflexivity|].
  destruct (w_spl_hostid w) as [err|rc hostid]; [reflexivity|].
  destruct (negb (rc =? 1)); [reflexivity|].
  destruct (negb (hostid =? 0)); [reflexivity|].
  destruct (w_etc_hostid w) as [bytes|].
  - destruct (4 <=? Z.of_nat (List.length bytes)).
    + change (negb (1 =? 1)) with false. cbv beta iota zeta.
      destruct (hostid_of_bytes bytes =? 0); [destruct (negb _)|]; reflexivity.
    + change (negb (0 =? 1)) with true. cbv beta iota zeta.
      change (0 =? 0) with true. cbv beta iota zeta.
      destruct (negb _); reflexivity.
  - cbv beta iota zeta.
    destruct (hostid =? 0); [destruct (negb _)|]; reflexivity.
Qed.

(** When the host id check fails after the open, [zfs_write_ldd] returns
    the code of the check with the handle still open. *)
Lemma zfs_write_ldd_hostid_failure fuel w mop d :
  osd_zfs_setup w = 1 ->
  find_dataset (w_datasets w) (mo_device mop) = Some d ->
  ds_type d = ZFS_TYPE_FILESYSTEM ->
  let w1 := set_handles (mo_device mop :: w_handles w) w in
  fst (zfs_check_hostid w1 mop) <> 0 ->
  zfs_write_ldd fuel w mop
    = Returns (fst (zfs_check_hostid w1 mop)) (snd (zfs_check_hostid w1 mop)) /\
  w_handles (snd (zfs_check_hostid w1 mop)) = mo_device mop :: w_handles w.
Proof.
  intros Hs Hd Ht w1 Hc. split.
  - unfold zfs_write_ldd. rewrite (osd_check_zfs_setup_ready _ Hs).
    cbn [negb]. rewrite (zfs_open_found _ _ _ _ Hd Ht). fold w1.
    destruct (zfs_check_hostid w1 mop) as [ret w2]. cbn [fst snd] in *.
    apply Z.eqb_neq in Hc. now rewrite Hc.
  - now rewrite zfs_check_hostid_handles.
Qed.

End WritePath.

(** C2 (what the code does): on a filesystem that opens, with the
    failover-node option in the parameters, no host id and no
    [MO_NOHOSTID_CHECK], [zfs_write_ldd] returns [EINVAL] and the handle it
    opened is still open: the check leaves through the label [out], past
    the [zfs_close] at [out_close]. *)
Theorem zfs_write_ldd_hostid_failure_leaks_handle (fuel : nat) :
  exists w',
    @zfs_write_ldd host_ext fuel (demo_world (Some []))
                   (demo_mkfs_opts "failnode=10.0.0.1@tcp" 0)
    = Returns EINVAL w' /\
    w_handles (demo_world (Some [])) = [] /\
    w_handles w' = ["pool/ost0"].
Proof.
  eexists. split; [|split]; [|reflexivity|].
  - unfold zfs_write_ldd. vm_compute. reflexivity.
  - reflexivity.
Qed.

(** ** Read *)

Section ReadPath.

Context {ext : Externals}.

Lemma tolerated_test ret :
  negb (ret =? 0) && negb (ret =? ENOENT) = false <-> tolerated ret.
Proof.
  unfold tolerated.
  destruct (Z.eqb_spec ret 0), (Z.eqb_spec ret ENOENT); cbn; split;
    intros H; try reflexivity; try discriminate; auto.
  destruct H; contradiction.
Qed.

(** The getters read the datasets of the world and nothing else of it. *)
Lemma zfs_get_prop_str_handles h w zhp prop val :
  zfs_get_prop_str (set_handles h w) zhp prop val = zfs_get_prop_str w zhp prop val.
Proof. reflexivity. Qed.

Lemma zfs_get_prop_int_handles h w zhp prop val :
  zfs_get_prop_int (set_handles h w) zhp prop val = zfs_get_prop_int w zhp prop val.
Proof. reflexivity. Qed.

Lemma read_special_props_handles h w zhp tbl : forall ldd,
  read_special_props (set_handles h w) zhp ldd tbl = read_special_props w zhp ldd tbl.
Proof.
  induction tbl as [|b tbl IH]; intros ldd; [reflexivity|].
  cbn [read_special_props].
  change (zlpb_get_prop_fn b (set_handles h w) zhp ldd)
    with (zlpb_get_prop_fn b w zhp ldd).
  destruct (zlpb_get_prop_fn b w zhp ldd) as [ret ldd'].
  now rewrite IH.
Qed.

Lemma zfs_get_prop_params_loop_handles h w zhp nvps : forall param value ret,
  zfs_get_prop_params_loop (set_handles h w) zhp nvps param value ret
  = zfs_get_prop_params_loop w zhp nvps param value ret.
Proof.
  induction nvps as [|[name v] nvps IH]; intros param value ret; [reflexivity|].
  cbn [zfs_get_prop_params_loop]. rewrite zfs_get_prop_str_handles.
  destruct (zfs_get_prop_str w zhp name value) as [r value'].
  destruct (negb (r =? 0)); [reflexivity|].
  destruct (negb (CStr.has_prefix LDD_PREFIX name)); [apply IH|].
  destruct (zfs_is_special_ldd_prop_param name); [apply IH|].
  destruct (add_param _ _ _) as [r' param'].
  destruct (negb (r' =? 0)); [reflexivity|apply IH].
Qed.

Lemma zfs_get_prop_params_handles h w zhp param len :
  zfs_get_prop_params (set_handles h w) zhp param len
  = zfs_get_prop_params w zhp param len.
Proof.
  unfold zfs_get_prop_params.
  change (zfs_get_user_props (set_handles h w) zhp)
    with (zfs_get_user_props w zhp).
  destruct (zfs_get_user_props w zhp); [|reflexivity].
  destruct (malloc_fails len); [reflexivity|].
  apply zfs_get_prop_params_loop_handles.
Qed.

(** With the library set up and a dataset that opens, as a filesystem or
    else as a snapshot, [zfs_read_ldd] is the reading of the properties,
    and the handle is closed again. *)
Lemma zfs_read_ldd_opened w ds d ldd :
  osd_zfs_setup w = 1 ->
  find_dataset (w_datasets w) ds = Some d ->
  ds_type d = ZFS_TYPE_FILESYSTEM \/ ds_type d = ZFS_TYPE_SNAPSHOT ->
  zfs_read_ldd w ds ldd =
    (fst (read_with_handle w ds ldd), snd (read_with_handle w ds ldd), w).
Proof.
  intros Hs Hd Ht. unfold zfs_read_ldd, read_with_handle.
  rewrite (osd_check_zfs_setup_ready _ Hs). cbn [negb].
  assert (Hopen :
    match zfs_open w ds ZFS_TYPE_FILESYSTEM with
    | (Some zhp, w0) => (Some zhp, w0)
    | (None, w0) => zfs_open w0 ds ZFS_TYPE_SNAPSHOT
    end = (Some ds, set_handles (ds :: w_handles w) w)).
  { unfold zfs_open. rewrite Hd.
    destruct Ht as [Ht|Ht]; rewrite Ht; cbn [zfs_type_eqb]; [reflexivity|].
    rewrite Hd, Ht. reflexivity. }
  rewrite Hopen. rewrite read_special_props_handles.
  destruct (read_special_props w ds ldd special_ldd_prop_params) as [ret ldd1].
  rewrite zfs_close_opened.
  destruct (negb (ret =? 0)); [reflexivity|].
  rewrite zfs_get_prop_params_handles.
  destruct (zfs_get_prop_params w ds (ldd_params ldd1) 4096) as [ret2 params].
  now destruct (negb (ret2 =? 0) && negb (ret2 =? ENOENT)).
Qed.

(** With the library set up and no dataset of that name that is a
    filesystem or a snapshot, [zfs_read_ldd] returns [EINVAL] and has
    read nothing. *)
Lemma zfs_read_ldd_not_opened w ds ldd :
  osd_zfs_setup w = 1 ->
  fst (zfs_open w ds ZFS_TYPE_FILESYSTEM) = None ->
  fst (zfs_open w ds ZFS_TYPE_SNAPSHOT) = None ->
  zfs_read_ldd w ds ldd = (EINVAL, ldd, w).
Proof.
  intros Hs Hf Hn. unfold zfs_read_ldd.
  rewrite (osd_check_zfs_setup_ready _ Hs). cbn [negb].
  unfold zfs_open in *.
  destruct (find_dataset (w_datasets w) ds) as [d|] eqn:E.
  - destruct (ds_type d) eqn:T; cbn [zfs_type_eqb fst] in *; try discriminate.
    cbv beta iota. rewrite E, T. reflexivity.
  - cbv beta iota. rewrite E. reflexivity.
Qed.

(** The code of a getter does not depend on the record it fills. *)
Lemma bridge_code_any_ldd w zhp b ldd ldd' :
  bridge_code w zhp ldd b = bridge_code w zhp ldd' b.
Proof.
  unfold bridge_code, zlpb_get_prop_fn.
  destruct (zlpb_ldd_offset b) as [get put|get put].
  - unfold zfs_get_prop_int.
    destruct (nvlist_lookup_nvlist _ _) as [r pv].
    destruct (negb (r =? 0)); [reflexivity|].
    destruct (nvlist_lookup_string pv) as [r' s].
    destruct (negb (r' =? 0)); [reflexivity|].
    destruct (Dec.strtoul10 s) as [v e].
    now destruct (negb (e =? 0)).
  - unfold zfs_get_prop_str.
    destruct (nvlist_lookup_nvlist _ _) as [r pv].
    destruct (negb (r =? 0)); [reflexivity|].
    destruct (nvlist_lookup_string pv) as [r' s].
    now destruct (negb (r' =? 0)).
Qed.

Lemma read_special_props_tolerated w zhp tbl : forall ldd ldd0,
  (forall b, In b tbl -> tolerated (bridge_code w zhp ldd0 b)) ->
  fst (read_special_props w zhp ldd tbl) = 0.
Proof.
  induction tbl as [|b tbl IH]; intros ldd ldd0 H; [reflexivity|].
  cbn [read_special_props].
  pose proof (H b (or_introl eq_refl)) as Hb.
  rewrite (bridge_code_any_ldd w zhp b ldd0 ldd) in Hb.
  unfold bridge_code in Hb.
  destruct (zlpb_get_prop_fn b w zhp ldd) as [ret ldd1]. cbn [fst] in Hb.
  apply tolerated_test in Hb. rewrite Hb.
  apply (IH ldd1 ldd0). intros b' Hin. apply H. now right.
Qed.

Lemma read_special_props_abort w zhp pre b post : forall ldd ldd0,
  (forall b', In b' pre -> tolerated (bridge_code w zhp ldd0 b')) ->
  ~ tolerated (bridge_code w zhp ldd0 b) ->
  fst (read_special_props w zhp ldd (pre ++ b :: post)) = bridge_code w zhp ldd0 b.
Proof.
  induction pre as [|b0 pre IH]; intros ldd ldd0 Hpre Hb.
  - cbn [app read_special_props].
    rewrite (bridge_code_any_ldd w zhp b ldd0 ldd) in *.
    unfold bridge_code in *.
    destruct (zlpb_get_prop_fn b w zhp ldd) as [ret ldd1]. cbn [fst] in *.
    destruct (negb (ret =? 0) && negb (ret =? ENOENT)) eqn:E; [reflexivity|].
    apply tolerated_test in E. contradiction.
  - cbn [app read_special_props].
    pose proof (Hpre b0 (or_introl eq_refl)) as H0.
    rewrite (bridge_code_any_ldd w zhp b0 ldd0 ldd) in H0.
    unfold bridge_code in H0.
    destruct (zlpb_get_prop_fn b0 w zhp ldd) as [ret ldd1]. cbn [fst] in H0.
    apply tolerated_test in H0. rewrite H0.
    apply IH; [|exact Hb]. intros b' Hin. apply Hpre. now right.
Qed.

(** No entry of the table writes the parameter blob. *)
Lemma read_special_props_params w zhp ldd :
  ldd_params (snd (read_special_props w zhp ldd special_ldd_prop_params))
  = ldd_params ldd.
Proof.
  unfold special_ldd_prop_params, ZLB_INIT_int, ZLB_INIT_str.
  cbn [read_special_props zlpb_get_prop_fn zlpb_ldd_offset zlpb_prop_name].
  repeat
    match goal with
    | |- context [zfs_get_prop_int ?a ?b ?c ?d] =>
        destruct (zfs_get_prop_int a b c d) as [? ?]
    | |- context [zfs_get_prop_str ?a ?b ?c ?d] =>
        destruct (zfs_get_prop_str a b c d) as [? ?]
    | |- context [if ?c then _ else _] => destruct c
    end;
    reflexivity.
Qed.

End ReadPath.

Section ReadClaims.

Context {ext : Externals}.

Lemma read_with_handle_success w zhp ldd :
  (forall b, In b special_ldd_prop_params -> tolerated (bridge_code w zhp ldd b)) ->
  tolerated (bulk_code w zhp ldd) ->
  fst (read_with_handle w zhp ldd) = 0 /\
  ldd_mount_type (snd (read_with_handle w zhp ldd)) = LDD_MT_ZFS.
Proof.
  intros Hb Hp. unfold read_with_handle.
  pose proof (read_special_props_tolerated w zhp _ ldd ldd Hb) as H0.
  pose proof (read_special_props_params w zhp ldd) as Hpar.
  destruct (read_special_props w zhp ldd special_ldd_prop_params) as [ret ldd1].
  cbn [fst snd] in *. subst ret. cbn [Z.eqb negb].
  unfold bulk_code in Hp. rewrite <- Hpar in Hp.
  destruct (zfs_get_prop_params w zhp (ldd_params ldd1) 4096) as [ret2 params].
  cbn [fst] in Hp. apply tolerated_test in Hp. rewrite Hp. now split.
Qed.

Lemma read_with_handle_bridge_error w zhp ldd pre b post :
  special_ldd_prop_params = (pre ++ b :: post)%list ->
  (forall b', In b' pre -> tolerated (bridge_code w zhp ldd b')) ->
  ~ tolerated (bridge_code w zhp ldd b) ->
  fst (read_with_handle w zhp ldd) = bridge_code w zhp ldd b.
Proof.
  intros Htbl Hpre Hb. unfold read_with_handle.
  pose proof (read_special_props_abort w zhp pre b post ldd ldd Hpre Hb) as H0.
  rewrite <- Htbl in H0.
  destruct (read_special_props w zhp ldd special_ldd_prop_params) as [ret ldd1].
  cbn [fst] in H0. subst ret.
  destruct (Z.eqb_spec (bridge_code w zhp ldd b) 0) as [E|E]; [|reflexivity].
  exfalso. apply Hb. now left.
Qed.

Lemma read_with_handle_bulk_error w zhp ldd :
  (forall b, In b special_ldd_prop_params -> tolerated (bridge_code w zhp ldd b)) ->
  ~ tolerated (bulk_code w zhp ldd) ->
  fst (read_with_handle w zhp ldd) = bulk_code w zhp ldd.
Proof.
  intros Hb Hp. unfold read_with_handle.
  pose proof (read_special_props_tolerated w zhp _ ldd ldd Hb) as H0.
  pose proof (read_special_props_params w zhp ldd) as Hpar.
  destruct (read_special_props w zhp ldd special_ldd_prop_params) as [ret ldd1].
  cbn [fst snd] in *. subst ret. cbn [Z.eqb negb].
  unfold bulk_code in *. rewrite <- Hpar in *.
  destruct (zfs_get_prop_params w zhp (ldd_params ldd1) 4096) as [ret2 params].
  cbn [fst] in *.
  destruct (negb (ret2 =? 0) && negb (ret2 =? ENOENT)) eqn:E; [reflexivity|].
  apply tolerated_test in E. contradiction.
Qed.

(** C7: in [zfs_read_ldd] on a dataset that opens, a getter of the
    table or the enumeration of the parameters that answers [ENOENT] does
    not stop the read: when every entry and the enumeration answer 0 or
    [ENOENT] the read returns 0 and the mount type of the record is
    [LDD_MT_ZFS]; the first entry that answers another code, after
    entries that answered 0 or [ENOENT], makes the read return that code;
    so does another code of the enumeration after the table went through. *)
Theorem zfs_read_ldd_not_found_is_not_fatal (w : world) (ds : string)
    (d : dataset) (ldd : lustre_disk_data) :
  osd_zfs_setup w = 1 ->
  find_dataset (w_datasets w) ds = Some d ->
  ds_type d = ZFS_TYPE_FILESYSTEM \/ ds_type d = ZFS_TYPE_SNAPSHOT ->
  let ret := fst (fst (zfs_read_ldd w ds ldd)) in
  let ldd' := snd (fst (zfs_read_ldd w ds ldd)) in
  ((forall b, In b special_ldd_prop_params -> tolerated (bridge_code w ds ldd b)) ->
   tolerated (bulk_code w ds ldd) ->
   ret = 0 /\ ldd_mount_type ldd' = LDD_MT_ZFS) /\
  (forall pre b post,
     special_ldd_prop_params = (pre ++ b :: post)%list ->
     (forall b', In b' pre -> tolerated (bridge_code w ds ldd b')) ->
     ~ tolerated (bridge_code w ds ldd b) ->
     ret = bridge_code w ds ldd b) /\
  ((forall b, In b special_ldd_prop_params -> tolerated (bridge_code w ds ldd b)) ->
   ~ tolerated (bulk_code w ds ldd) ->
   ret = bulk_code w ds ldd).
Proof.
  intros Hs Hd Ht ret ldd'. subst ret ldd'.
  rewrite (zfs_read_ldd_opened w ds d ldd Hs Hd Ht). cbn [fst snd].
  split; [|split].
  - apply read_with_handle_success.
  - apply read_with_handle_bridge_error.
  - apply read_with_handle_bulk_error.
Qed.

(** C8: [zfs_read_ldd] opens the name as a filesystem and, when that
    fails, as a snapshot.  When both opens fail it returns [EINVAL], the
    record untouched; when one of them gives a handle the properties are
    read through it and the handle is closed.  A dataset that is a
    snapshot fails the first open, passes the second, and is read: 0 is
    returned, with the mount type set, when its properties are found or
    only missing. *)
Theorem zfs_read_ldd_snapshot_fallback (w : world) (ds : string)
    (ldd : lustre_disk_data) :
  osd_zfs_setup w = 1 ->
  (fst (zfs_open w ds ZFS_TYPE_FILESYSTEM) = None ->
   fst (zfs_open w ds ZFS_TYPE_SNAPSHOT) = None ->
   zfs_read_ldd w ds ldd = (EINVAL, ldd, w)) /\
  (forall zhp,
     fst (zfs_open w ds ZFS_TYPE_FILESYSTEM) = Some zhp \/
     (fst (zfs_open w ds ZFS_TYPE_FILESYSTEM) = None /\
      fst (zfs_open w ds ZFS_TYPE_SNAPSHOT) = Some zhp) ->
     zfs_read_ldd w ds ldd =
       (fst (read_with_handle w zhp ldd), snd (read_with_handle w zhp ldd), w)) /\
  (forall d,
     find_dataset (w_datasets w) ds = Some d ->
     ds_type d = ZFS_TYPE_SNAPSHOT ->
     fst (zfs_open w ds ZFS_TYPE_FILESYSTEM) = None /\
     fst (zfs_open w ds ZFS_TYPE_SNAPSHOT) = Some ds /\
     ((forall b, In b special_ldd_prop_params ->
                 tolerated (bridge_code w ds ldd b)) ->
      tolerated (bulk_code w ds ldd) ->
      fst (fst (zfs_read_ldd w ds ldd)) = 0 /\
      ldd_mount_type (snd (fst (zfs_read_ldd w ds ldd))) = LDD_MT_ZFS)).
Proof.
  intros Hs. split; [|split].
  - now apply zfs_read_ldd_not_opened.
  - intros zhp Hopen.
    assert (Hfound : exists d, find_dataset (w_datasets w) ds = Some d /\
              (ds_type d = ZFS_TYPE_FILESYSTEM \/ ds_type d = ZFS_TYPE_SNAPSHOT)
              /\ zhp = ds).
    { unfold zfs_open in Hopen.
      destruct (find_dataset (w_datasets w) ds) as [d|];
        [|destruct Hopen as [H|[_ H]]; discriminate H].
      exists d. split; [reflexivity|].
      destruct (ds_type d); cbn [zfs_type_eqb fst] in Hopen.
      - destruct Hopen as [H|[H _]]; [|discriminate H].
        injection H as <-. auto.
      - destruct Hopen as [H|[_ H]]; [discriminate H|].
        injection H as <-. auto.
      - destruct Hopen as [H|[_ H]]; discriminate H. }
    destruct Hfound as (d & Hd & Ht & ->).
    apply (zfs_read_ldd_opened w ds d ldd Hs Hd Ht).
  - intros d Hd Ht. unfold zfs_open. rewrite Hd, Ht. cbn [zfs_type_eqb fst].
    split; [reflexivity|]. split; [reflexivity|].
    intros Hb Hp.
    rewrite (zfs_read_ldd_opened w ds d ldd Hs Hd (or_intror Ht)).
    cbn [fst snd]. now apply read_with_handle_success.
Qed.

(** [zfs_is_lustre] says yes exactly when the library is set up, the
    read returns 0, and the record then holds a version above 0 and a
    service name that is not empty. *)
Lemma zfs_is_lustre_accepts_iff w ds mount_type tmp_ldd :
  fst (fst (zfs_is_lustre w ds mount_type tmp_ldd)) = 1 <->
  osd_zfs_setup w <> 0 /\
  fst (fst (zfs_read_ldd w ds tmp_ldd)) = 0 /\
  ldd_config_ver (snd (fst (zfs_read_ldd w ds tmp_ldd))) > 0 /\
  ldd_svname (snd (fst (zfs_read_ldd w ds tmp_ldd))) <> EmptyString.
Proof.
  unfold zfs_is_lustre.
  destruct (Z.eqb_spec (osd_zfs_setup w) 0) as [Hs|Hs].
  - cbn [fst]. split; [discriminate|]. intros [H _]. contradiction.
  - destruct (zfs_read_ldd w ds tmp_ldd) as [[ret l] w']. cbn [fst snd].
    destruct (Z.eqb_spec ret 0) as [Hr|Hr];
      [|cbn; split; [discriminate|intros (_ & H & _); contradiction]].
    destruct (Z.gtb_spec (ldd_config_ver l) 0) as [Hv|Hv];
      [|cbn; split; [discriminate|intros (_ & _ & H & _); lia]].
    destruct (ldd_svname l) as [|c s]; cbn [String.length andb].
    + cbn. split; [discriminate|intros (_ & _ & _ & H); contradiction].
    + destruct (Z.ltb_spec 0 (Z.of_nat (S (String.length s)))); [|lia].
      cbn [fst]. split; [|reflexivity].
      intros _. repeat split; try assumption; try lia. discriminate.
Qed.

(** C5 (what the code does): on a filesystem without any user property,
    [zfs_is_lustre] answers 1 when the stack under [tmp_ldd] happens to
    hold a version above 0 and a non-empty service name: the read finds
    nothing, leaves both fields as they were and returns 0, and the test
    then reads what was never written. *)
Theorem zfs_is_lustre_reads_uninitialized (mount_type : Z) :
  zfs_get_user_props (demo_world (Some [])) "pool/ost0" = Some [] /\
  zfs_read_ldd (demo_world (Some [])) "pool/ost0" stale_ldd
  = (0, Ldd.put_mount_type LDD_MT_ZFS stale_ldd, demo_world (Some [])) /\
  zfs_is_lustre (demo_world (Some [])) "pool/ost0" mount_type stale_ldd
  = (1, LDD_MT_ZFS, demo_world (Some [])).
Proof. repeat split. Qed.

(** With a [tmp_ldd] of zeroes the same dataset is not recognized. *)
Lemma zfs_is_lustre_zeroed_record (mount_type : Z) :
  zfs_is_lustre (demo_world (Some [])) "pool/ost0" mount_type zero_ldd
  = (0, mount_type, demo_world (Some [])).
Proof. reflexivity. Qed.

End ReadClaims.

(** ** Handles *)

Section Handles.

Context {ext : Externals}.

Lemma zfs_prop_set_handles w zhp prop value :
  w_handles (snd (zfs_prop_set w zhp prop value)) = w_handles w.
Proof.
  unfold zfs_prop_set. now destruct (zfs_prop_set_errno w zhp prop value =? 0).
Qed.

Lemma zlpb_set_prop_fn_handles b w zhp ldd :
  w_handles (snd (zlpb_set_prop_fn b w zhp ldd)) = w_handles w.
Proof.
  unfold zlpb_set_prop_fn, zfs_set_prop_int, zfs_set_prop_str.
  destruct (zlpb_ldd_offset b) as [get put|get put].
  - apply zfs_prop_set_handles.
  - destruct (0 <? Z.of_nat (String.length (get ldd)));
      [apply zfs_prop_set_handles|reflexivity].
Qed.

Lemma write_special_props_handles zhp ldd tbl : forall w,
  w_handles (snd (write_special_props w zhp ldd tbl)) = w_handles w.
Proof.
  induction tbl as [|b tbl IH]; intros w; [reflexivity|].
  cbn [write_special_props].
  pose proof (zlpb_set_prop_fn_handles b w zhp ldd) as Hb.
  destruct (zlpb_set_prop_fn b w zhp ldd) as [ret w1]. cbn [snd] in Hb.
  destruct (negb (ret =? 0)); [exact Hb|]. now rewrite IH.
Qed.

Lemma zfs_set_prop_params_loop_handles zhp fuel : forall w token save ret r w',
  zfs_set_prop_params_loop fuel w zhp token save ret = Returns r w' ->
  w_handles w' = w_handles w.
Proof.
  induction fuel as [|fuel IH]; intros w token save ret r w';
    cbn [zfs_set_prop_params_loop]; [discriminate|].
  destruct token as [tok|]; [|intros H; now injection H as _ <-].
  destruct (CStr.strtok_r tok "=") as [[key|] pos]; [|apply IH].
  destruct (fst (CStr.strtok_r pos "=")) as [value|]; [|apply IH].
  pose proof (zfs_prop_set_handles w zhp (LDD_PREFIX ++ key) value) as Hs.
  destruct (zfs_prop_set w zhp (LDD_PREFIX ++ key) value) as [ret1 w1].
  cbn [snd] in Hs. destruct (negb (ret1 =? 0)).
  - intros H. injection H as _ <-. exact Hs.
  - destruct (CStr.strtok_r save " ") as [token' save'].
    intros H. rewrite <- Hs. exact (IH _ _ _ _ _ _ H).
Qed.

Lemma osd_check_zfs_setup_handles w :
  w_handles (snd (osd_check_zfs_setup w)) = w_handles w.
Proof. unfold osd_check_zfs_setup. now destruct (osd_zfs_setup w =? 0). Qed.

Lemma zfs_open_handles w ds type :
  match fst (zfs_open w ds type) with
  | Some zhp => zhp = ds /\ w_handles (snd (zfs_open w ds type)) = ds :: w_handles w
  | None => snd (zfs_open w ds type) = w
  end.
Proof.
  unfold zfs_open. destruct (find_dataset (w_datasets w) ds) as [d|]; [|reflexivity].
  destruct (zfs_type_eqb (ds_type d) type); cbn; auto.
Qed.

(** [zfs_read_ldd] leaves no handle open, on any path. *)
Lemma zfs_read_ldd_closes w ds ldd :
  w_handles (snd (zfs_read_ldd w ds ldd)) = w_handles w.
Proof.
  unfold zfs_read_ldd.
  pose proof (osd_check_zfs_setup_handles w) as H0.
  destruct (osd_check_zfs_setup w) as [ok w0]. cbn [snd] in H0.
  destruct ok; cbn [negb]; [|exact H0]. rewrite <- H0.
  assert (Hopen :
    let r := match zfs_open w0 ds ZFS_TYPE_FILESYSTEM with
             | (Some zhp, w1) => (Some zhp, w1)
             | (None, w1) => zfs_open w1 ds ZFS_TYPE_SNAPSHOT
             end in
    match fst r with
    | Some zhp => zhp = ds /\ w_handles (snd r) = ds :: w_handles w0
    | None => snd r = w0
    end).
  { pose proof (zfs_open_handles w0 ds ZFS_TYPE_FILESYSTEM) as H1.
    destruct (zfs_open w0 ds ZFS_TYPE_FILESYSTEM) as [[zhp|] w1]; cbn [fst snd] in *.
    - exact H1.
    - subst w1. apply zfs_open_handles. }
  cbv zeta in Hopen.
  destruct (match zfs_open w0 ds ZFS_TYPE_FILESYSTEM with
            | (Some zhp, w1) => (Some zhp, w1)
            | (None, w1) => zfs_open w1 ds ZFS_TYPE_SNAPSHOT
            end) as [[zhp|] w1]; cbn [fst snd] in Hopen.
  - destruct Hopen as [-> Hh].
    assert (Hclose : w_handles (zfs_close w1 ds) = w_handles w0).
    { unfold zfs_close. cbn [w_handles set_handles]. rewrite Hh.
      apply remove_handle_head. }
    destruct (read_special_props w1 ds ldd special_ldd_prop_params) as [ret ldd1].
    destruct (negb (ret =? 0)); [exact Hclose|].
    destruct (zfs_get_prop_params w1 ds (ldd_params ldd1) 4096) as [ret2 params].
    now destruct (negb (ret2 =? 0) && negb (ret2 =? ENOENT)).
  - now subst w1.
Qed.

(** [zfs_label_lustre] leaves no handle open, on any path. *)
Lemma zfs_label_lustre_closes w mop :
  w_handles (snd (zfs_label_lustre w mop)) = w_handles w.
Proof.
  unfold zfs_label_lustre.
  pose proof (osd_check_zfs_setup_handles w) as H0.
  destruct (osd_check_zfs_setup w) as [ok w0]. cbn [snd] in H0.
  destruct ok; cbn [negb]; [|exact H0]. rewrite <- H0.
  pose proof (zfs_open_handles w0 (mo_source mop) ZFS_TYPE_FILESYSTEM) as H1.
  destruct (zfs_open w0 (mo_source mop) ZFS_TYPE_FILESYSTEM) as [[zhp|] w1];
    cbn [fst snd] in H1.
  - destruct H1 as [-> Hh].
    unfold zfs_set_prop_str.
    destruct (0 <? Z.of_nat (String.length (ldd_svname (mnt_ldd mop)))).
    + pose proof (zfs_prop_set_handles w1 (mo_source mop) LDD_SVNAME_PROP
                    (ldd_svname (mnt_ldd mop))) as Hs.
      destruct (zfs_prop_set w1 (mo_source mop) LDD_SVNAME_PROP
                  (ldd_svname (mnt_ldd mop))) as [ret w2].
      cbn [snd] in *. unfold zfs_close. cbn [w_handles set_handles].
      rewrite Hs, Hh. apply remove_handle_head.
    + cbn [snd]. unfold zfs_close. cbn [w_handles set_handles].
      rewrite Hh. apply remove_handle_head.
  - now subst w1.
Qed.

(** The code of the host id check depends on the two host id files
    only, and neither [osd_check_zfs_setup] nor [zfs_open] touches them. *)
Lemma zfs_check_hostid_code_files w w0 mop :
  w_spl_hostid w0 = w_spl_hostid w ->
  w_etc_hostid w0 = w_etc_hostid w ->
  fst (zfs_check_hostid w0 mop) = fst (zfs_check_hostid w mop).
Proof.
  intros H1 H2. unfold zfs_check_hostid, flag_set. rewrite H1, H2.
  destruct (negb (CStr.strstr _ _)); [reflexivity|].
  destruct (w_spl_hostid w) as [err|rc hostid]; [reflexivity|].
  destruct (negb (rc =? 1)); [reflexivity|].
  destruct (negb (hostid =? 0)); [reflexivity|].
  destruct (w_etc_hostid w) as [bytes|].
  - destruct (4 <=? Z.of_nat (List.length bytes)).
    + change (negb (1 =? 1)) with false. cbv beta iota zeta.
      destruct (hostid_of_bytes bytes =? 0); [destruct (negb _)|]; reflexivity.
    + change (negb (0 =? 1)) with true. cbv beta iota zeta.
      change (0 =? 0) with true. cbv beta iota zeta.
      destruct (negb _); reflexivity.
  - cbv beta iota zeta.
    destruct (hostid =? 0); [destruct (negb _)|]; reflexivity.
Qed.

Lemma osd_check_zfs_setup_files w :
  w_spl_hostid (snd (osd_check_zfs_setup w)) = w_spl_hostid w /\
  w_etc_hostid (snd (osd_check_zfs_setup w)) = w_etc_hostid w.
Proof.
  unfold osd_check_zfs_setup. now destruct (osd_zfs_setup w =? 0).
Qed.

Lemma zfs_open_files w ds type :
  w_spl_hostid (snd (zfs_open w ds type)) = w_spl_hostid w /\
  w_etc_hostid (snd (zfs_open w ds type)) = w_etc_hostid w.
Proof.
  unfold zfs_open.
  destruct (find_dataset (w_datasets w) ds) as [d|]; [|now split].
  now destruct (zfs_type_eqb (ds_type d) type).
Qed.

(** [zfs_write_ldd], when it returns, leaves no handle open if the host
    id check passes in the world of the call, with or without the
    failover-node option. *)
Lemma zfs_write_ldd_closes_after_check fuel w mop ret w' :
  fst (zfs_check_hostid w mop) = 0 ->
  zfs_write_ldd fuel w mop = Returns ret w' ->
  w_handles w' = w_handles w.
Proof.
  intros Hcheck. unfold zfs_write_ldd.
  pose proof (osd_check_zfs_setup_handles w) as H0.
  destruct (osd_check_zfs_setup_files w) as [F0 G0].
  destruct (osd_check_zfs_setup w) as [ok w0]. cbn [snd] in H0, F0, G0.
  destruct ok; cbn [negb]; [|intros H; now injection H as _ <-].
  rewrite <- H0.
  pose proof (zfs_open_handles w0 (mo_device mop) ZFS_TYPE_FILESYSTEM) as H1.
  destruct (zfs_open_files w0 (mo_device mop) ZFS_TYPE_FILESYSTEM) as [F1 G1].
  destruct (zfs_open w0 (mo_device mop) ZFS_TYPE_FILESYSTEM) as [[zhp|] w1];
    cbn [fst snd] in H1, F1, G1.
  - destruct H1 as [-> Hh].
    pose proof (zfs_check_hostid_handles w1 mop) as H2.
    pose proof (zfs_check_hostid_code_files w w1 mop
                  (eq_trans F1 F0) (eq_trans G1 G0)) as Hc.
    rewrite Hcheck in Hc.
    destruct (zfs_check_hostid w1 mop) as [r2 w2]. cbn [fst snd] in *.
    subst r2. cbn [Z.eqb negb].
    pose proof (write_special_props_handles (mo_device mop) (mo_ldd mop)
                  special_ldd_prop_params w2) as H3.
    destruct (write_special_props w2 (mo_device mop) (mo_ldd mop)
                special_ldd_prop_params) as [r3 w3]. cbn [snd] in H3.
    assert (Hclose : forall w4, w_handles w4 = w_handles w3 ->
                       w_handles (zfs_close w4 (mo_device mop)) = w_handles w0).
    { intros w4 H4. unfold zfs_close. cbn [w_handles set_handles].
      rewrite H4, H3, H2, Hh. apply remove_handle_head. }
    destruct (negb (r3 =? 0)).
    + intros H. injection H as _ <-. now apply Hclose.
    + unfold zfs_set_prop_params.
      destruct (CStr.strtok_r (ldd_params (mo_ldd mop)) " ") as [token save].
      destruct (zfs_set_prop_params_loop fuel w3 (mo_device mop) token save 0)
        as [r4 w4|w4] eqn:L; [|discriminate].
      intros H. injection H as _ <-. apply Hclose.
      exact (zfs_set_prop_params_loop_handles _ _ _ _ _ _ _ _ L).
  - subst w1. intros H. now injection H as _ <-.
Qed.

End Handles.

(** ** The ready flag *)

Section ReadyFlag.

Context {ext : Externals}.

(** C3 (amended): with [osd_zfs_setup] at 0, [zfs_write_ldd],
    [zfs_read_ldd], [zfs_make_lustre], [zfs_prepare_lustre],
    [zfs_tune_lustre] and [zfs_label_lustre] return [EINVAL] after the
    message of [osd_check_zfs_setup] and do nothing else;
    [zfs_is_lustre] tests the flag first too but answers 0, its output
    parameter untouched; [zfs_enable_quota] does not look at the flag: in
    every state, ready or not, it prints its message and returns
    [ENOSYS]. *)
Theorem not_ready_entry_points (w : world) :
  (osd_zfs_setup w = 0 ->
   let w' := emit [FATAL; MSG_init_not_done] w in
   (forall fuel mop, zfs_write_ldd fuel w mop = Returns EINVAL w') /\
   (forall ds ldd, zfs_read_ldd w ds ldd = (EINVAL, ldd, w')) /\
   (forall mop, zfs_make_lustre w mop = Some (EINVAL, mop, w')) /\
   (forall mop wanted_mountopts len,
       zfs_prepare_lustre w mop wanted_mountopts len = (EINVAL, w')) /\
   (forall dev mop, zfs_tune_lustre w dev mop = (EINVAL, w')) /\
   (forall mop, zfs_label_lustre w mop = (EINVAL, w')) /\
   (forall ds mount_type tmp_ldd,
       zfs_is_lustre w ds mount_type tmp_ldd = (0, mount_type, w))) /\
  (forall mop, zfs_enable_quota w mop = (ENOSYS, emit [MSG_quota] w)).
Proof.
  split; [|reflexivity].
  intros Hs w'. subst w'.
  pose proof (osd_check_zfs_setup_not_ready w Hs) as Hc.
  repeat split; intros.
  - unfold zfs_write_ldd. now rewrite Hc.
  - unfold zfs_read_ldd. now rewrite Hc.
  - unfold zfs_make_lustre. now rewrite Hc.
  - unfold zfs_prepare_lustre. now rewrite Hc.
  - unfold zfs_tune_lustre. now rewrite Hc.
  - unfold zfs_label_lustre. now rewrite Hc.
  - unfold zfs_is_lustre. now rewrite Hs.
Qed.

End ReadyFlag.

(** ** Tokens of a well-formed blob *)

Module TokenFacts.
Import CStr.

Lemma lacks_app d a b : lacks d (a ++ b) = lacks d a && lacks d b.
Proof.
  induction a as [|c a IH]; cbn [append lacks]; [reflexivity|].
  now rewrite IH, andb_assoc.
Qed.

Lemma is_delim_one d c : is_delim (String d EmptyString) c = Ascii.eqb c d.
Proof. cbn [is_delim]. now destruct (Ascii.eqb c d). Qed.

(** Up to the first [d], a string without [d] is one token. *)
Lemma break_token_app d t : forall rest,
  lacks d t = true ->
  break_token (String d EmptyString) (t ++ String d rest) = (t, Some rest).
Proof.
  induction t as [|c t IH]; intros rest H.
  - cbn [append break_token]. rewrite is_delim_one.
    now rewrite Ascii.eqb_refl.
  - cbn [lacks] in H. apply andb_prop in H as [Hc Ht].
    cbn [append break_token]. rewrite is_delim_one.
    apply negb_true_iff in Hc. rewrite Hc. now rewrite (IH rest Ht).
Qed.

Lemma break_token_end d t :
  lacks d t = true -> break_token (String d EmptyString) t = (t, None).
Proof.
  induction t as [|c t IH]; intros H; [reflexivity|].
  cbn [lacks] in H. apply andb_prop in H as [Hc Ht].
  cbn [break_token]. rewrite is_delim_one.
  apply negb_true_iff in Hc. rewrite Hc. now rewrite (IH Ht).
Qed.

Lemma skip_delims_token d c t rest :
  lacks d (String c t) = true ->
  skip_delims (String d EmptyString) (String c t ++ rest) = String c t ++ rest.
Proof.
  intros H. cbn [lacks] in H. apply andb_prop in H as [Hc _].
  apply negb_true_iff in Hc.
  cbn [append skip_delims]. rewrite is_delim_one. now rewrite Hc.
Qed.

Lemma strtok_r_no_skip delim s :
  s <> EmptyString -> skip_delims delim s = s ->
  strtok_r s delim =
    match break_token delim s with
    | (tok, Some rest) => (Some tok, rest)
    | (tok, None) => (Some tok, EmptyString)
    end.
Proof.
  intros Hne Hs. unfold strtok_r. rewrite Hs.
  destruct s; [contradiction|reflexivity].
Qed.

Lemma append_nil_r s : s ++ EmptyString = s.
Proof. induction s as [|c s IH]; cbn; [reflexivity|now rewrite IH]. Qed.

(** [strtok_r] on a token followed by a delimiter. *)
Lemma strtok_r_app d t rest :
  t <> EmptyString -> lacks d t = true ->
  strtok_r (t ++ String d rest) (String d EmptyString) = (Some t, rest).
Proof.
  intros Hne H. rewrite strtok_r_no_skip.
  - now rewrite (break_token_app d t rest H).
  - destruct t; [contradiction|discriminate].
  - destruct t as [|c t]; [contradiction|]. now apply skip_delims_token.
Qed.

(** [strtok_r] on a token that ends the string. *)
Lemma strtok_r_end d t :
  t <> EmptyString -> lacks d t = true ->
  strtok_r t (String d EmptyString) = (Some t, EmptyString).
Proof.
  intros Hne H. rewrite strtok_r_no_skip.
  - now rewrite (break_token_end d t H).
  - exact Hne.
  - destruct t as [|c t]; [contradiction|].
    pose proof (skip_delims_token d c t EmptyString H) as Hs.
    now rewrite append_nil_r in Hs.
Qed.

Lemma strtok_r_blanks n : strtok_r (blanks n) " " = (None, EmptyString).
Proof.
  unfold strtok_r.
  assert (E : skip_delims " " (blanks n) = EmptyString)
    by (induction n as [|n IH]; [reflexivity|exact IH]).
  now rewrite E.
Qed.

Lemma is_word_parts s :
  is_word s = true ->
  s <> EmptyString /\ lacks " " s = true /\ lacks "=" s = true.
Proof.
  unfold is_word. intros H.
  apply andb_prop in H as [H H3]. apply andb_prop in H as [H1 H2].
  repeat split; try assumption.
  intros ->. discriminate H1.
Qed.

Lemma param_token_parts kv :
  is_pair kv = true ->
  param_token kv <> EmptyString /\ lacks " " (param_token kv) = true.
Proof.
  unfold is_pair, param_token. intros H. apply andb_prop in H as [Hk Hv].
  apply is_word_parts in Hk as (Hk0 & Hk1 & _).
  apply is_word_parts in Hv as (_ & Hv1 & _).
  split.
  - destruct (fst kv); [contradiction|discriminate].
  - rewrite !lacks_app, Hk1, Hv1. reflexivity.
Qed.

(** The first token of a well-formed blob, and the blob that is left. *)
Lemma strtok_r_params_blob kv kvs :
  is_pair kv = true ->
  strtok_r (params_blob (kv :: kvs)) " " = (Some (param_token kv), params_blob kvs).
Proof.
  intros H. destruct (param_token_parts kv H) as [Hne Hl].
  destruct kvs as [|kv' kvs].
  - cbn [params_blob]. now apply strtok_r_end.
  - change (params_blob (kv :: kv' :: kvs))
      with (param_token kv ++ String " " (params_blob (kv' :: kvs))).
    now apply strtok_r_app.
Qed.

(** The key and the value of a well-formed token, also when more text
    follows a second '='. *)
Lemma strtok_r_key k v :
  is_word k = true ->
  strtok_r (k ++ "=" ++ v) "=" = (Some k, v).
Proof.
  intros Hk. apply is_word_parts in Hk as (Hk0 & _ & Hk2).
  now apply (strtok_r_app "=" k v).
Qed.

Lemma strtok_r_value v :
  is_word v = true -> fst (strtok_r v "=") = Some v.
Proof.
  intros Hv. apply is_word_parts in Hv as (Hv0 & _ & Hv2).
  now rewrite (strtok_r_end "=" v Hv0 Hv2).
Qed.

Lemma strtok_r_value_cut v tail :
  is_word v = true -> fst (strtok_r (v ++ "=" ++ tail) "=") = Some v.
Proof.
  intros Hv. apply is_word_parts in Hv as (Hv0 & _ & Hv2).
  change (v ++ "=" ++ tail) with (v ++ String "=" tail).
  now rewrite (strtok_r_app "=" v tail Hv0 Hv2).
Qed.

End TokenFacts.

(** ** The write direction of the codec on well-formed blobs *)

Section ParamsWrite.

Context {ext : Externals}.

(** One well-formed token: its pair is set, and the call goes on with the
    rest of the blob as a call on that rest would. *)
Lemma zfs_set_prop_params_step fuel w zhp s kv s' :
  is_pair kv = true ->
  CStr.strtok_r s " " = (Some (param_token kv), s') ->
  zfs_set_prop_params (S fuel) w zhp s =
    (let '(ret, w') := zfs_prop_set w zhp (LDD_PREFIX ++ fst kv) (snd kv) in
     if negb (ret =? 0) then Returns ret w'
     else zfs_set_prop_params fuel w' zhp s').
Proof.
  intros Hp Hs. unfold zfs_set_prop_params. rewrite Hs.
  unfold is_pair in Hp. apply andb_prop in Hp as [Hk Hv].
  rewrite (set_params_loop_pair fuel w zhp (param_token kv) s' 0
             (fst kv) (snd kv) (snd kv)).
  - destruct (zfs_prop_set w zhp (LDD_PREFIX ++ fst kv) (snd kv)) as [ret w'].
    destruct (Z.eqb_spec ret 0) as [->|]; reflexivity.
  - now apply TokenFacts.strtok_r_key.
  - now apply TokenFacts.strtok_r_value.
Qed.

Lemma zfs_set_prop_params_then kvs : forall fuel w zhp tail,
  forallb is_pair kvs = true ->
  zfs_set_prop_params (List.length kvs + fuel) w zhp (params_then kvs tail) =
    (if fst (set_pairs w zhp kvs) =? 0
     then zfs_set_prop_params fuel (snd (set_pairs w zhp kvs)) zhp tail
     else Returns (fst (set_pairs w zhp kvs)) (snd (set_pairs w zhp kvs))).
Proof.
  induction kvs as [|[k v] kvs IH]; intros fuel w zhp tail Hp; [reflexivity|].
  cbn [forallb] in Hp. apply andb_prop in Hp as [Hkv Hp].
  cbn [List.length Nat.add params_then set_pairs].
  rewrite (zfs_set_prop_params_step _ w zhp _ (k, v) (params_then kvs tail) Hkv).
  - cbn [fst snd].
    destruct (zfs_prop_set w zhp (LDD_PREFIX ++ k) v) as [ret w'].
    destruct (Z.eqb_spec ret 0) as [->|Hne]; cbn [negb].
    + apply IH, Hp.
    + cbn [fst snd]. apply Z.eqb_neq in Hne. now rewrite Hne.
  - destruct (TokenFacts.param_token_parts _ Hkv) as [Hne Hl].
    now apply TokenFacts.strtok_r_app.
Qed.

Lemma zfs_set_prop_params_empty fuel w zhp :
  zfs_set_prop_params (S fuel) w zhp EmptyString = Returns 0 w.
Proof. reflexivity. Qed.

Lemma params_blob_then kvs kv :
  params_blob (kvs ++ [kv]) = params_then kvs (param_token kv).
Proof.
  induction kvs as [|kv0 kvs IH]; [reflexivity|].
  cbn [app params_then]. rewrite <- IH.
  destruct (kvs ++ [kv])%list eqn:E; [now destruct kvs|reflexivity].
Qed.

(** The blob of well-formed tokens: the call is the pairs set in order,
    up to the first failure. *)
Lemma zfs_set_prop_params_refines kvs : forall fuel w zhp,
  forallb is_pair kvs = true ->
  zfs_set_prop_params (S (List.length kvs) + fuel) w zhp (params_blob kvs) =
    Returns (fst (set_pairs w zhp kvs)) (snd (set_pairs w zhp kvs)).
Proof.
  induction kvs as [|[k v] kvs IH]; intros fuel w zhp Hp; [reflexivity|].
  cbn [forallb] in Hp. apply andb_prop in Hp as [Hkv Hp].
  cbn [List.length Nat.add set_pairs].
  rewrite (zfs_set_prop_params_step _ w zhp _ (k, v) (params_blob kvs) Hkv
             (TokenFacts.strtok_r_params_blob (k, v) kvs Hkv)).
  cbn [fst snd].
  destruct (zfs_prop_set w zhp (LDD_PREFIX ++ k) v) as [ret w'].
  destruct (Z.eqb_spec ret 0) as [->|Hne]; cbn [negb]; [|reflexivity].
  apply (IH fuel w' zhp Hp).
Qed.

Lemma params_blob_app pre kv post :
  params_blob (pre ++ kv :: post) = params_then pre (params_blob (kv :: post)).
Proof.
  induction pre as [|kv0 pre IH]; [reflexivity|].
  cbn [app params_then]. rewrite <- IH.
  destruct (pre ++ kv :: post)%list eqn:E; [now destruct pre|reflexivity].
Qed.

Lemma forallb_app_pairs (pre post : list (string * string)) :
  forallb is_pair (pre ++ post) = true ->
  forallb is_pair pre = true /\ forallb is_pair post = true.
Proof. rewrite forallb_app. apply andb_prop. Qed.

(** *** The store after the pairs *)

Lemma nvlist_find_puts kvs : forall l name,
  nvlist_find (nvlist_puts l kvs) name =
    match last_value name kvs with
    | Some v => Some (Some v)
    | None => nvlist_find l name
    end.
Proof.
  induction kvs as [|[k v] kvs IH]; intros l name; [reflexivity|].
  cbn [nvlist_puts last_value]. rewrite IH.
  destruct (last_value name kvs); [reflexivity|].
  destruct (String.eqb_spec k name) as [->|Hne].
  - apply nvlist_find_put.
  - apply nvlist_find_put_other. congruence.
Qed.

Lemma last_value_lustre_names k kvs :
  last_value (LDD_PREFIX ++ k) (lustre_names kvs) = last_value k kvs.
Proof.
  induction kvs as [|[k' v'] kvs IH]; [reflexivity|].
  cbn [lustre_names map last_value fst snd].
  fold (lustre_names kvs). rewrite IH.
  destruct (last_value k kvs); [reflexivity|].
  destruct (String.eqb_spec k' k) as [->|Hne].
  - now rewrite String.eqb_refl.
  - destruct (String.eqb_spec (LDD_PREFIX ++ k') (LDD_PREFIX ++ k)) as [E|_];
      [|reflexivity].
    exfalso. apply Hne. now injection E.
Qed.

(** When every [zfs_prop_set] on the handle succeeds, the pairs are all
    set, and the user properties are the old ones with the values put. *)
Lemma set_pairs_stored kvs : forall w zhp d l0,
  (forall w' prop value, zfs_prop_set_errno w' zhp prop value = 0) ->
  find_dataset (w_datasets w) zhp = Some d ->
  ds_user_props d = Some l0 ->
  fst (set_pairs w zhp kvs) = 0 /\
  zfs_get_user_props (snd (set_pairs w zhp kvs)) zhp =
    Some (nvlist_puts l0 (lustre_names kvs)).
Proof.
  induction kvs as [|[k v] kvs IH]; intros w zhp d l0 Hset Hd Hl0.
  - cbn [set_pairs fst snd lustre_names map nvlist_puts].
    split; [reflexivity|]. unfold zfs_get_user_props. now rewrite Hd.
  - cbn [set_pairs lustre_names map nvlist_puts fst snd].
    fold (lustre_names kvs).
    rewrite (zfs_prop_set_ok w zhp _ _ (Hset w _ _)). cbn [Z.eqb negb].
    apply (IH _ zhp (put_user_prop (LDD_PREFIX ++ k) v d)).
    + exact Hset.
    + cbn [w_datasets set_datasets]. now apply find_update_dataset.
    + unfold put_user_prop. cbn [ds_user_props]. now rewrite Hl0.
Qed.

(** X1: a blob of well-formed key=value tokens, one blank between them,
    on a store that accepts every write: [zfs_set_prop_params] returns 0
    once the fuel exceeds the number of tokens, the user properties are
    the old ones with every value put under lustre:key in token order, and
    each key reads back the value of its last token. *)
Theorem zfs_set_prop_params_stores_pairs (kvs : list (string * string))
    (fuel : nat) (w : world) (zhp : string) (d : dataset) (l0 : nvlist) :
  forallb is_pair kvs = true ->
  (List.length kvs < fuel)%nat ->
  (forall w' prop value, zfs_prop_set_errno w' zhp prop value = 0) ->
  find_dataset (w_datasets w) zhp = Some d ->
  ds_user_props d = Some l0 ->
  exists w',
    zfs_set_prop_params fuel w zhp (params_blob kvs) = Returns 0 w' /\
    zfs_get_user_props w' zhp = Some (nvlist_puts l0 (lustre_names kvs)) /\
    (forall k v old,
        last_value k kvs = Some v ->
        zfs_get_prop_str w' zhp (LDD_PREFIX ++ k) old = (0, v)).
Proof.
  intros Hp Hfuel Hset Hd Hl0.
  destruct (set_pairs_stored kvs w zhp d l0 Hset Hd Hl0) as [H0 Hprops].
  exists (snd (set_pairs w zhp kvs)).
  replace fuel with (S (List.length kvs) + (fuel - S (List.length kvs)))%nat by lia.
  rewrite (zfs_set_prop_params_refines kvs _ w zhp Hp), H0.
  split; [reflexivity|]. split; [exact Hprops|].
  intros k v old Hlast.
  apply (zfs_get_prop_str_stored _ _ _ _ _ _ Hprops).
  now rewrite nvlist_find_puts, last_value_lustre_names, Hlast.
Qed.

(** X2: the first [zfs_prop_set] that fails ends [zfs_set_prop_params]:
    the call returns that code as soon as the fuel exceeds the number of
    tokens before the failing one, in the world the tokens before it have
    produced; the tokens after it are not tried. *)
Theorem zfs_set_prop_params_stops_at_failure (pre post : list (string * string))
    (kv : string * string) (fuel : nat) (w : world) (zhp : string) :
  forallb is_pair (pre ++ kv :: post) = true ->
  (List.length pre < fuel)%nat ->
  fst (set_pairs w zhp pre) = 0 ->
  let w1 := snd (set_pairs w zhp pre) in
  fst (zfs_prop_set w1 zhp (LDD_PREFIX ++ fst kv) (snd kv)) <> 0 ->
  zfs_set_prop_params fuel w zhp (params_blob (pre ++ kv :: post)) =
    Returns (fst (zfs_prop_set w1 zhp (LDD_PREFIX ++ fst kv) (snd kv))) w1.
Proof.
  intros Hp Hfuel Hpre w1 Hfail.
  destruct (forallb_app_pairs _ _ Hp) as [Hp1 Hp2].
  cbn [forallb] in Hp2. apply andb_prop in Hp2 as [Hkv _].
  rewrite params_blob_app.
  replace fuel with (List.length pre + S (fuel - S (List.length pre)))%nat by lia.
  rewrite (zfs_set_prop_params_then pre _ w zhp _ Hp1), Hpre.
  cbn [Z.eqb]. fold w1.
  rewrite (zfs_set_prop_params_step _ w1 zhp _ kv (params_blob post) Hkv
             (TokenFacts.strtok_r_params_blob kv post Hkv)).
  pose proof (zfs_prop_set_failed w1 zhp _ _ Hfail) as Hsame.
  destruct (zfs_prop_set w1 zhp (LDD_PREFIX ++ fst kv) (snd kv)) as [ret w2].
  cbn [fst snd] in *. subst w2.
  apply Z.eqb_neq in Hfail. now rewrite Hfail.
Qed.

Lemma strtok_r_leading_blanks n s :
  CStr.strtok_r (blanks n ++ s) " " = CStr.strtok_r s " ".
Proof.
  unfold CStr.strtok_r.
  assert (E : CStr.skip_delims " " (blanks n ++ s) = CStr.skip_delims " " s)
    by (induction n as [|n IH]; [reflexivity|exact IH]).
  now rewrite E.
Qed.

(** X3: blanks in front of a blob do not count, and a blob of blanks
    only, the empty one among them, makes [zfs_set_prop_params] return 0
    with nothing written. *)
Theorem zfs_set_prop_params_blanks (n fuel : nat) (w : world)
    (zhp s : string) :
  zfs_set_prop_params fuel w zhp (blanks n ++ s) = zfs_set_prop_params fuel w zhp s /\
  zfs_set_prop_params (S fuel) w zhp (blanks n) = Returns 0 w.
Proof.
  split.
  - unfold zfs_set_prop_params. now rewrite strtok_r_leading_blanks.
  - unfold zfs_set_prop_params. now rewrite TokenFacts.strtok_r_blanks.
Qed.

(** X4: in a token with a second '=', what follows the second '=' is
    dropped: the call does what it does on key=value alone, whether the
    token is followed by a blank and more, or ends the blob. *)
Theorem zfs_set_prop_params_second_equals (k v tail rest : string)
    (fuel : nat) (w : world) (zhp : string) :
  is_word k = true -> is_word v = true -> lacks " " tail = true ->
  zfs_set_prop_params fuel w zhp
    ((k ++ "=" ++ v ++ "=" ++ tail) ++ String " " rest)
  = zfs_set_prop_params fuel w zhp ((k ++ "=" ++ v) ++ String " " rest) /\
  zfs_set_prop_params fuel w zhp (k ++ "=" ++ v ++ "=" ++ tail)
  = zfs_set_prop_params fuel w zhp (k ++ "=" ++ v).
Proof.
  intros Hk Hv Ht.
  destruct (TokenFacts.is_word_parts k Hk) as (Hk0 & Hk1 & Hk2).
  destruct (TokenFacts.is_word_parts v Hv) as (Hv0 & Hv1 & Hv2).
  assert (Hne : forall x, k ++ "=" ++ x <> EmptyString)
    by (intros x; destruct k; [contradiction|discriminate]).
  assert (Hl1 : lacks " " (k ++ "=" ++ v ++ "=" ++ tail) = true)
    by now rewrite !TokenFacts.lacks_app, Hk1, Hv1, Ht.
  assert (Hl2 : lacks " " (k ++ "=" ++ v) = true)
    by now rewrite !TokenFacts.lacks_app, Hk1, Hv1.
  assert (Hloop : forall save,
             zfs_set_prop_params_loop fuel w zhp
               (Some (k ++ "=" ++ v ++ "=" ++ tail)) save 0
             = zfs_set_prop_params_loop fuel w zhp (Some (k ++ "=" ++ v)) save 0).
  { intros save. destruct fuel as [|fuel]; [reflexivity|].
    rewrite (set_params_loop_pair fuel w zhp _ save 0 k (v ++ "=" ++ tail) v
               (TokenFacts.strtok_r_key k _ Hk)
               (TokenFacts.strtok_r_value_cut v tail Hv)).
    rewrite (set_params_loop_pair fuel w zhp _ save 0 k v v
               (TokenFacts.strtok_r_key k _ Hk)
               (TokenFacts.strtok_r_value v Hv)).
    reflexivity. }
  unfold zfs_set_prop_params. split.
  - rewrite (TokenFacts.strtok_r_app " " _ rest (Hne _) Hl1).
    rewrite (TokenFacts.strtok_r_app " " _ rest (Hne _) Hl2).
    apply Hloop.
  - rewrite (TokenFacts.strtok_r_end " " _ (Hne _) Hl1).
    rewrite (TokenFacts.strtok_r_end " " _ (Hne _) Hl2).
    apply Hloop.
Qed.

(** X5: well-formed tokens followed by a token without key or value:
    the pairs before it are set, then the call stays on the bad token for
    good, whatever the fuel beyond the number of pairs. *)
Theorem zfs_set_prop_params_writes_then_spins (kvs : list (string * string))
    (tail tok save : string) (fuel : nat) (w : world) (zhp : string) :
  forallb is_pair kvs = true ->
  fst (set_pairs w zhp kvs) = 0 ->
  CStr.strtok_r tail " " = (Some tok, save) ->
  malformed tok ->
  zfs_set_prop_params (List.length kvs + fuel) w zhp (params_then kvs tail)
  = Spins (snd (set_pairs w zhp kvs)).
Proof.
  intros Hp H0 Htok Hbad.
  rewrite (zfs_set_prop_params_then kvs fuel w zhp tail Hp), H0.
  cbn [Z.eqb].
  now apply (zfs_set_prop_params_first_malformed _ zhp tail tok save).
Qed.

End ParamsWrite.

(** ** The read direction of the codec on whole property lists *)

Section ParamsRead.

Context {ext : Externals}.

Lemma nvlist_find_nodup (l : nvlist) name v :
  NoDup (map fst l) -> In (name, v) l -> nvlist_find l name = Some v.
Proof.
  induction l as [|[n x] l IH]; intros Hnd Hin; [destruct Hin|].
  cbn [map fst] in Hnd. inversion Hnd as [|? ? Hnotin Hnd']; subst.
  cbn [nvlist_find]. destruct Hin as [E|Hin].
  - injection E as -> ->. now rewrite String.eqb_refl.
  - destruct (String.eqb_spec n name) as [->|_]; [|now apply IH].
    exfalso. apply Hnotin. now apply (in_map fst l (name, v)).
Qed.

(** The loop over properties that have their values: the pairs that are
    parameters are appended, the others are passed over. *)
Lemma zfs_get_prop_params_loop_valued w zhp props kvs : forall rest param value,
  zfs_get_user_props w zhp = Some props ->
  (forall kv, In kv kvs -> nvlist_find props (fst kv) = Some (Some (snd kv))) ->
  (forall buf key val, fst (add_param buf key val) = 0) ->
  exists value',
    zfs_get_prop_params_loop w zhp (valued kvs ++ rest)%list param value 0 =
    zfs_get_prop_params_loop w zhp rest
      (add_params param (filter (fun kv => is_param_prop (fst kv)) kvs)) value' 0.
Proof.
  induction kvs as [|[name v] kvs IH]; intros rest param value Hp Hfind Hadd.
  - exists value. reflexivity.
  - cbn [valued map app fst snd zfs_get_prop_params_loop filter].
    fold (valued kvs).
    rewrite (zfs_get_prop_str_stored w zhp name v value props Hp
               (Hfind (name, v) (or_introl eq_refl))).
    cbn [Z.eqb negb]. unfold is_param_prop.
    assert (Hrest : forall kv, In kv kvs ->
                      nvlist_find props (fst kv) = Some (Some (snd kv)))
      by (intros kv Hin; apply Hfind; now right).
    destruct (CStr.has_prefix LDD_PREFIX name); cbn [negb andb];
      [|now apply IH].
    destruct (zfs_is_special_ldd_prop_param name); cbn [negb];
      [now apply IH|].
    cbn [add_params].
    pose proof (Hadd param
                  (CStr.advance (String.length LDD_PREFIX) name ++ "=") v) as Ha.
    destruct (add_param param _ v) as [ret param']. cbn [fst snd] in *.
    subst ret. cbn [Z.eqb negb]. now apply IH.
Qed.

Lemma valued_find kvs kv :
  NoDup (map fst kvs) -> In kv kvs ->
  nvlist_find (valued kvs) (fst kv) = Some (Some (snd kv)).
Proof.
  intros Hnd Hin. apply nvlist_find_nodup.
  - unfold valued. rewrite map_map. cbn [fst]. exact Hnd.
  - unfold valued. destruct kv as [k v].
    now apply (in_map (fun kv => (fst kv, Some (snd kv))) kvs (k, v)).
Qed.

Lemma zfs_get_prop_params_on_valued w zhp param len kvs :
  zfs_get_user_props w zhp = Some (valued kvs) ->
  NoDup (map fst kvs) ->
  (forall buf key val, fst (add_param buf key val) = 0) ->
  malloc_fails len = false ->
  zfs_get_prop_params w zhp param len =
    (0, add_params param (filter (fun kv => is_param_prop (fst kv)) kvs)).
Proof.
  intros Hp Hnd Hadd Hm. unfold zfs_get_prop_params. rewrite Hp, Hm.
  destruct (zfs_get_prop_params_loop_valued w zhp (valued kvs) kvs [] param
              EmptyString Hp (fun kv Hin => valued_find kvs kv Hnd Hin) Hadd)
    as [value' E].
  rewrite app_nil_r in E. now rewrite E.
Qed.

Lemma malloc_granted len : 0 < len -> malloc_fails len = false.
Proof. intros H. unfold malloc_fails. apply Z.ltb_ge. lia. Qed.

(** X6: on user properties with distinct names that all have a value,
    and an [add_param] that does not fail: for a negative [len] the
    buffer is not to be had and [zfs_get_prop_params] returns [ENOMEM]
    with the blob as it was; for a [len] above 0 that every value, of a
    parameter or not, is shorter than, it returns 0 and the blob is the
    old one with [add_param] applied, in enumeration order, to exactly
    the lustre: properties that are not in the bridge table; the other
    properties leave no trace. *)
Theorem zfs_get_prop_params_filters (w : world) (zhp param : string) (len : Z)
    (kvs : list (string * string)) :
  zfs_get_user_props w zhp = Some (valued kvs) ->
  NoDup (map fst kvs) ->
  (forall buf key val, fst (add_param buf key val) = 0) ->
  (len < 0 -> zfs_get_prop_params w zhp param len = (ENOMEM, param)) /\
  (0 < len ->
   (forall kv, In kv kvs -> Z.of_nat (String.length (snd kv)) < len) ->
   zfs_get_prop_params w zhp param len =
     (0, add_params param (filter (fun kv => is_param_prop (fst kv)) kvs))).
Proof.
  intros Hp Hnd Hadd. split.
  - intros Hlen. unfold zfs_get_prop_params, malloc_fails. rewrite Hp.
    apply Z.ltb_lt in Hlen. now rewrite Hlen.
  - intros Hlen _.
    exact (zfs_get_prop_params_on_valued w zhp param len kvs Hp Hnd Hadd
             (malloc_granted len Hlen)).
Qed.

(** X7: with a buffer of [len] bytes, [len] above 0, that the values
    before it are shorter than, a user property without a value string
    ends the enumeration with [ENOENT], whatever its name: the parameters
    before it are in the blob, those after it are not read. *)
Theorem zfs_get_prop_params_valueless (w : world) (zhp param name : string)
    (len : Z) (pre : list (string * string)) (post : nvlist) :
  zfs_get_user_props w zhp = Some (valued pre ++ (name, None) :: post)%list ->
  NoDup (map fst (valued pre ++ (name, None) :: post)%list) ->
  (forall buf key val, fst (add_param buf key val) = 0) ->
  0 < len ->
  (forall kv, In kv pre -> Z.of_nat (String.length (snd kv)) < len) ->
  zfs_get_prop_params w zhp param len =
    (ENOENT, add_params param (filter (fun kv => is_param_prop (fst kv)) pre)).
Proof.
  intros Hp Hnd Hadd Hlen _. unfold zfs_get_prop_params.
  rewrite Hp, (malloc_granted len Hlen).
  set (props := (valued pre ++ (name, None) :: post)%list) in *.
  assert (Hfind : forall kv, In kv pre ->
                    nvlist_find props (fst kv) = Some (Some (snd kv))).
  { intros [k v] Hin. apply nvlist_find_nodup; [exact Hnd|].
    apply in_or_app. left.
    now apply (in_map (fun kv => (fst kv, Some (snd kv))) pre (k, v)). }
  destruct (zfs_get_prop_params_loop_valued w zhp props pre
              ((name, None) :: post) param EmptyString Hp Hfind Hadd)
    as [value' E].
  fold props in E |- *. rewrite E. cbn [zfs_get_prop_params_loop].
  assert (Hnone : nvlist_find props name = Some None).
  { apply nvlist_find_nodup; [exact Hnd|].
    apply in_or_app. right. now left. }
  unfold zfs_get_prop_str, nvlist_lookup_nvlist. rewrite Hp, Hnone.
  reflexivity.
Qed.

End ParamsRead.

(** ** A write followed by a read *)

Section RoundTrip.

Context {ext : Externals}.

Lemma set_datasets_same w : set_datasets (w_datasets w) w = w.
Proof. now destruct w. Qed.

(** A successful [zfs_prop_set] changes the datasets only, and of them
    the one of the handle. *)
Lemma zfs_prop_set_world w zhp prop value type l :
  zfs_prop_set_errno w zhp prop value = 0 ->
  find_dataset (w_datasets w) zhp = Some (a_dataset type l) ->
  exists ds',
    zfs_prop_set w zhp prop value = (0, set_datasets ds' w) /\
    find_dataset ds' zhp = Some (a_dataset type (nvlist_put l prop value)).
Proof.
  intros He Hd. rewrite (zfs_prop_set_ok _ _ _ _ He).
  eexists. split; [reflexivity|].
  now rewrite (find_update_dataset _ _ _ _ Hd).
Qed.

Lemma set_pairs_world kvs : forall w zhp type l,
  (forall w' prop value, zfs_prop_set_errno w' zhp prop value = 0) ->
  find_dataset (w_datasets w) zhp = Some (a_dataset type l) ->
  exists ds',
    set_pairs w zhp kvs = (0, set_datasets ds' w) /\
    find_dataset ds' zhp
    = Some (a_dataset type (nvlist_puts l (lustre_names kvs))).
Proof.
  induction kvs as [|[k v] kvs IH]; intros w zhp type l Hset Hd.
  - exists (w_datasets w). now rewrite set_datasets_same.
  - cbn [set_pairs lustre_names map nvlist_puts fst snd].
    fold (lustre_names kvs).
    destruct (zfs_prop_set_world w zhp (LDD_PREFIX ++ k) v type l (Hset _ _ _) Hd)
      as (ds1 & E1 & F1).
    rewrite E1. cbn [Z.eqb negb].
    destruct (IH (set_datasets ds1 w) zhp type _ Hset F1) as (ds' & E & F).
    exists ds'. now rewrite E.
Qed.

Lemma write_special_props_world ldd tbl : forall w zhp type l,
  (forall w' prop value, zfs_prop_set_errno w' zhp prop value = 0) ->
  find_dataset (w_datasets w) zhp = Some (a_dataset type l) ->
  exists ds',
    write_special_props w zhp ldd tbl = (0, set_datasets ds' w) /\
    find_dataset ds' zhp
    = Some (a_dataset type (nvlist_puts l (bridge_writes ldd tbl))).
Proof.
  induction tbl as [|b tbl IH]; intros w zhp type l Hset Hd.
  - exists (w_datasets w). now rewrite set_datasets_same.
  - cbn [write_special_props bridge_writes].
    unfold zlpb_set_prop_fn, bridge_value, zfs_set_prop_int, zfs_set_prop_str.
    destruct (zlpb_ldd_offset b) as [get put|get put].
    + destruct (zfs_prop_set_world w zhp (zlpb_prop_name b)
                  (Dec.fmt_i (Dec.as_int (get ldd))) type l (Hset _ _ _) Hd)
        as (ds1 & E1 & F1).
      rewrite E1. cbn [Z.eqb negb nvlist_puts].
      destruct (IH (set_datasets ds1 w) zhp type _ Hset F1) as (ds' & E & F).
      exists ds'. now rewrite E.
    + destruct (get ldd) as [|c s] eqn:G.
      * cbn [String.length Z.of_nat Z.ltb Z.compare String.eqb Z.eqb negb].
        apply (IH w zhp type l Hset Hd).
      * change (String.eqb (String c s) EmptyString) with false. cbv iota.
        assert (Hlen : (0 <? Z.of_nat (String.length (String c s))) = true)
          by (apply Z.ltb_lt; cbn [String.length]; lia).
        rewrite Hlen.
        destruct (zfs_prop_set_world w zhp (zlpb_prop_name b) (String c s)
                    type l (Hset _ _ _) Hd) as (ds1 & E1 & F1).
        rewrite E1. cbn [Z.eqb negb nvlist_puts].
        destruct (IH (set_datasets ds1 w) zhp type _ Hset F1) as (ds' & E & F).
        exists ds'. now rewrite E.
Qed.

(** The host id check prints, and does nothing else. *)
Lemma zfs_check_hostid_emits w mop :
  exists msgs, snd (zfs_check_hostid w mop) = emit msgs w.
Proof.
  assert (Hnil : w = emit [] w)
    by (destruct w; unfold emit; cbn; now rewrite app_nil_r).
  unfold zfs_check_hostid, flag_set.
  destruct (negb (CStr.strstr _ _)); [now exists []|].
  destruct (w_spl_hostid w) as [err|rc hostid]; [now eexists|].
  destruct (negb (rc =? 1)); [now eexists|].
  destruct (negb (hostid =? 0)); [now exists []|].
  destruct (w_etc_hostid w) as [bytes|].
  - destruct (4 <=? Z.of_nat (List.length bytes)).
    + change (negb (1 =? 1)) with false. cbv beta iota zeta.
      destruct (hostid_of_bytes bytes =? 0); [destruct (negb _)|];
        first [now exists [] | now eexists].
    + change (negb (0 =? 1)) with true. cbv beta iota zeta.
      change (0 =? 0) with true. cbv beta iota zeta.
      destruct (negb _); cbn [snd]; rewrite emit_emit; now eexists.
  - cbv beta iota zeta.
    destruct (hostid =? 0); [destruct (negb _)|];
      first [now exists [] | now eexists].
Qed.

(** Its code does not depend on the handles that are open. *)
Lemma zfs_check_hostid_code_handles h w mop :
  fst (zfs_check_hostid (set_handles h w) mop) = fst (zfs_check_hostid w mop).
Proof.
  unfold zfs_check_hostid, flag_set. cbn [w_spl_hostid w_etc_hostid set_handles].
  destruct (negb (CStr.strstr _ _)); [reflexivity|].
  destruct (w_spl_hostid w) as [err|rc hostid]; [reflexivity|].
  destruct (negb (rc =? 1)); [reflexivity|].
  destruct (negb (hostid =? 0)); [reflexivity|].
  destruct (w_etc_hostid w) as [bytes|].
  - destruct (4 <=? Z.of_nat (List.length bytes)).
    + change (negb (1 =? 1)) with false. cbv beta iota zeta.
      destruct (hostid_of_bytes bytes =? 0); [destruct (negb _)|]; reflexivity.
    + change (negb (0 =? 1)) with true. cbv beta iota zeta.
      change (0 =? 0) with true. cbv beta iota zeta.
      destruct (negb _); reflexivity.
  - cbv beta iota zeta.
    destruct (hostid =? 0); [destruct (negb _)|]; reflexivity.
Qed.

Lemma nvlist_puts_app a : forall l b,
  nvlist_puts l (a ++ b) = nvlist_puts (nvlist_puts l a) b.
Proof.
  induction a as [|[k v] a IH]; intros l b; [reflexivity|].
  cbn [app nvlist_puts]. apply IH.
Qed.

(** A write that goes through: the world afterwards. *)
Lemma zfs_write_ldd_stored fuel w mop l0 kvs :
  osd_zfs_setup w = 1 ->
  find_dataset (w_datasets w) (mo_device mop)
  = Some (a_dataset ZFS_TYPE_FILESYSTEM l0) ->
  fst (zfs_check_hostid w mop) = 0 ->
  (forall w' prop value,
      zfs_prop_set_errno w' (mo_device mop) prop value = 0) ->
  ldd_params (mo_ldd mop) = params_blob kvs ->
  forallb is_pair kvs = true ->
  (List.length kvs < fuel)%nat ->
  exists w',
    zfs_write_ldd fuel w mop = Returns 0 w' /\
    osd_zfs_setup w' = 1 /\
    w_handles w' = w_handles w /\
    find_dataset (w_datasets w') (mo_device mop)
    = Some (a_dataset ZFS_TYPE_FILESYSTEM
              (nvlist_puts l0
                 (bridge_writes (mo_ldd mop) special_ldd_prop_params
                  ++ lustre_names kvs))).
Proof.
  intros Hs Hd Hc Hset Hpar Hp Hfuel. unfold zfs_write_ldd.
  rewrite (osd_check_zfs_setup_ready _ Hs). cbn [negb].
  rewrite (zfs_open_found w _ _ ZFS_TYPE_FILESYSTEM Hd eq_refl).
  set (w1 := set_handles (mo_device mop :: w_handles w) w).
  pose proof (zfs_check_hostid_code_handles (mo_device mop :: w_handles w) w mop)
    as Hc1. fold w1 in Hc1. rewrite Hc in Hc1.
  destruct (zfs_check_hostid_emits w1 mop) as [msgs Hw2].
  destruct (zfs_check_hostid w1 mop) as [ret w2]. cbn [fst snd] in *.
  subst ret w2. cbn [Z.eqb negb].
  destruct (write_special_props_world (mo_ldd mop) special_ldd_prop_params
              (emit msgs w1) (mo_device mop) ZFS_TYPE_FILESYSTEM l0 Hset Hd)
    as (ds3 & E3 & F3).
  rewrite E3. cbn [Z.eqb negb]. rewrite Hpar.
  replace fuel with (S (List.length kvs) + (fuel - S (List.length kvs)))%nat by lia.
  rewrite (zfs_set_prop_params_refines kvs _ _ _ Hp).
  destruct (set_pairs_world kvs (set_datasets ds3 (emit msgs w1)) (mo_device mop)
              ZFS_TYPE_FILESYSTEM _ Hset F3) as (ds4 & E4 & F4).
  rewrite E4. cbn [fst snd].
  eexists. split; [reflexivity|].
  split; [exact Hs|]. split.
  - unfold zfs_close. cbn [w_handles set_handles set_datasets emit w1].
    apply remove_handle_head.
  - cbn [w_datasets zfs_close set_handles set_datasets].
    rewrite F4. now rewrite nvlist_puts_app.
Qed.

End RoundTrip.

(** ** Reading back what was written *)

Section ReadBack.

Context {ext : Externals}.

Lemma last_value_app name a : forall b,
  last_value name (a ++ b) =
    match last_value name b with
    | Some v => Some v
    | None => last_value name a
    end.
Proof.
  induction a as [|[k v] a IH]; intros b; cbn [app last_value].
  - now destruct (last_value name b).
  - rewrite IH. now destruct (last_value name b).
Qed.

Lemma last_value_none name kvs :
  ~ In name (map fst kvs) -> last_value name kvs = None.
Proof.
  induction kvs as [|[k v] kvs IH]; intros H; [reflexivity|].
  cbn [last_value]. cbn [map fst In] in H.
  rewrite IH by tauto.
  destruct (String.eqb_spec k name); [tauto|reflexivity].
Qed.

Lemma bridge_writes_names ldd tbl name :
  In name (map fst (bridge_writes ldd tbl)) -> In name (map zlpb_prop_name tbl).
Proof.
  induction tbl as [|b tbl IH]; [intros []|].
  cbn [bridge_writes map]. destruct (bridge_value ldd b).
  - cbn [map fst In]. intros [H|H]; [now left|right; now apply IH].
  - intros H. right. now apply IH.
Qed.

Lemma bridge_writes_nodup ldd tbl :
  NoDup (map zlpb_prop_name tbl) -> NoDup (map fst (bridge_writes ldd tbl)).
Proof.
  induction tbl as [|b tbl IH]; intros Hnd; [constructor|].
  cbn [map] in Hnd. inversion Hnd as [|? ? Hnotin Hnd']; subst.
  cbn [bridge_writes]. destruct (bridge_value ldd b); [|now apply IH].
  cbn [map fst]. constructor; [|now apply IH].
  intros Hin. apply Hnotin. now apply (bridge_writes_names ldd).
Qed.

(** What the table has stored under the name of one of its entries. *)
Lemma last_value_bridge_writes ldd tbl b :
  NoDup (map zlpb_prop_name tbl) -> In b tbl ->
  last_value (zlpb_prop_name b) (bridge_writes ldd tbl) = bridge_value ldd b.
Proof.
  induction tbl as [|b0 tbl IH]; intros Hnd Hin; [destruct Hin|].
  cbn [map] in Hnd. inversion Hnd as [|? ? Hnotin Hnd']; subst.
  cbn [bridge_writes]. destruct Hin as [->|Hin].
  - assert (Hnone : last_value (zlpb_prop_name b) (bridge_writes ldd tbl) = None).
    { apply last_value_none. intros H. apply Hnotin.
      now apply (bridge_writes_names ldd). }
    destruct (bridge_value ldd b) as [v|]; [|exact Hnone].
    cbn [last_value]. now rewrite Hnone, String.eqb_refl.
  - assert (Hne : zlpb_prop_name b0 <> zlpb_prop_name b).
    { intros E. apply Hnotin. rewrite E. now apply in_map. }
    destruct (bridge_value ldd b0) as [v|]; [|now apply IH].
    cbn [last_value]. rewrite (IH Hnd' Hin).
    destruct (bridge_value ldd b); [reflexivity|].
    now destruct (String.eqb_spec (zlpb_prop_name b0) (zlpb_prop_name b)).
Qed.

Lemma special_names_nodup : NoDup (map zlpb_prop_name special_ldd_prop_params).
Proof.
  cbn. repeat constructor; cbn;
    intros H; repeat (destruct H as [H|H]; [discriminate H|]); exact H.
Qed.

Lemma zfs_is_special_in tbl name :
  zfs_is_special_ldd_prop_param_in tbl name = true <->
  In name (map zlpb_prop_name tbl).
Proof.
  induction tbl as [|b tbl IH]; cbn [zfs_is_special_ldd_prop_param_in map In].
  - split; [discriminate|intros []].
  - destruct (String.eqb_spec name (zlpb_prop_name b)) as [->|Hne].
    + split; auto.
    + rewrite IH. split; [auto|]. intros [H|H]; [congruence|exact H].
Qed.

Lemma plain_keys_names kvs name :
  plain_keys kvs = true ->
  In name (map fst (lustre_names kvs)) ->
  zfs_is_special_ldd_prop_param name = false.
Proof.
  unfold plain_keys, lustre_names. rewrite map_map. cbn [fst].
  intros Hp Hin. apply in_map_iff in Hin as (kv & <- & Hin).
  rewrite forallb_forall in Hp. apply negb_true_iff. now apply Hp.
Qed.

Lemma last_value_plain kvs b :
  plain_keys kvs = true -> In b special_ldd_prop_params ->
  last_value (zlpb_prop_name b) (lustre_names kvs) = None.
Proof.
  intros Hp Hin. apply last_value_none. intros H.
  pose proof (plain_keys_names kvs _ Hp H) as Hf.
  assert (Ht : zfs_is_special_ldd_prop_param (zlpb_prop_name b) = true)
    by (apply zfs_is_special_in; now apply in_map).
  congruence.
Qed.

(** What is stored under the name of a table entry after a write whose
    parameters avoid the table names. *)
Lemma stored_after_write ldd l0 kvs b :
  plain_keys kvs = true -> In b special_ldd_prop_params ->
  nvlist_find
    (nvlist_puts l0 (bridge_writes ldd special_ldd_prop_params ++ lustre_names kvs))
    (zlpb_prop_name b)
  = match bridge_value ldd b with
    | Some v => Some (Some v)
    | None => nvlist_find l0 (zlpb_prop_name b)
    end.
Proof.
  intros Hp Hin.
  rewrite nvlist_find_puts, last_value_app, (last_value_plain kvs b Hp Hin).
  now rewrite (last_value_bridge_writes ldd _ b special_names_nodup Hin).
Qed.

End ReadBack.

Section WriteThenRead.

Context {ext : Externals}.

Lemma nvlist_put_fresh l k v :
  nvlist_find l k = None -> nvlist_put l k v = (l ++ [(k, Some v)])%list.
Proof.
  induction l as [|[n x] l IH]; cbn [nvlist_find nvlist_put app]; [reflexivity|].
  destruct (String.eqb n k); [discriminate|]. intros H. now rewrite IH.
Qed.

Lemma nvlist_find_snoc l k v name :
  name <> k -> nvlist_find (l ++ [(k, Some v)])%list name = nvlist_find l name.
Proof.
  intros Hne. induction l as [|[n x] l IH]; cbn [nvlist_find app].
  - destruct (String.eqb_spec k name); congruence.
  - now rewrite IH.
Qed.

(** Values put under names that are new and distinct come at the end,
    in the order of the puts. *)
Lemma nvlist_puts_fresh kvs : forall l,
  NoDup (map fst kvs) ->
  (forall k, In k (map fst kvs) -> nvlist_find l k = None) ->
  nvlist_puts l kvs = (l ++ valued kvs)%list.
Proof.
  induction kvs as [|[k v] kvs IH]; intros l Hnd Hnew.
  - cbn. now rewrite app_nil_r.
  - cbn [map fst] in Hnd. inversion Hnd as [|? ? Hnotin Hnd']; subst.
    cbn [nvlist_puts valued map fst snd]. fold (valued kvs).
    rewrite (nvlist_put_fresh l k v) by (apply Hnew; now left).
    rewrite IH; [now rewrite <- app_assoc|exact Hnd'|].
    intros k' Hin. rewrite nvlist_find_snoc.
    + apply Hnew. now right.
    + intros ->. contradiction.
Qed.

Lemma lustre_names_nodup kvs :
  NoDup (map fst kvs) -> NoDup (map fst (lustre_names kvs)).
Proof.
  induction kvs as [|[k v] kvs IH]; intros Hnd; [constructor|].
  cbn [map fst] in Hnd. inversion Hnd as [|? ? Hnotin Hnd']; subst.
  cbn [lustre_names map fst]. fold (lustre_names kvs).
  constructor; [|now apply IH].
  intros Hin. apply Hnotin. unfold lustre_names in Hin.
  rewrite map_map in Hin. cbn [fst] in Hin.
  apply in_map_iff in Hin as (kv & E & Hin).
  injection E as <-. now apply in_map.
Qed.

Lemma bridge_writes_special ldd kv :
  In kv (bridge_writes ldd special_ldd_prop_params) ->
  zfs_is_special_ldd_prop_param (fst kv) = true.
Proof.
  intros Hin. apply zfs_is_special_in.
  apply (bridge_writes_names ldd). now apply in_map.
Qed.

Lemma written_names_nodup ldd kvs :
  NoDup (map fst kvs) -> plain_keys kvs = true ->
  NoDup (map fst (bridge_writes ldd special_ldd_prop_params ++ lustre_names kvs)).
Proof.
  intros Hnd Hp. rewrite map_app. apply NoDup_app.
  - apply bridge_writes_nodup, special_names_nodup.
  - now apply lustre_names_nodup.
  - intros name H1 H2.
    pose proof (plain_keys_names kvs name Hp H2) as Hf.
    assert (Ht : zfs_is_special_ldd_prop_param name = true)
      by (apply zfs_is_special_in; now apply (bridge_writes_names ldd)).
    congruence.
Qed.

(** Of what a write stores, the enumeration keeps the parameters. *)
Lemma written_params ldd kvs :
  plain_keys kvs = true ->
  filter (fun kv => is_param_prop (fst kv))
         (bridge_writes ldd special_ldd_prop_params ++ lustre_names kvs)
  = lustre_names kvs.
Proof.
  intros Hp. rewrite filter_app.
  assert (H1 : filter (fun kv => is_param_prop (fst kv))
                 (bridge_writes ldd special_ldd_prop_params) = []).
  { assert (G : forall l,
               (forall kv, In kv l -> zfs_is_special_ldd_prop_param (fst kv) = true) ->
               filter (fun kv : string * string => is_param_prop (fst kv)) l = []).
    { induction l as [|kv l IH]; intros H; [reflexivity|].
      cbn [filter]. unfold is_param_prop at 1.
      rewrite (H kv (or_introl eq_refl)), andb_false_r.
      apply IH. intros kv' Hin. apply H. now right. }
    apply G. apply bridge_writes_special. }
  rewrite H1. cbn [app].
  assert (G : forall l,
             (forall kv, In kv l -> is_param_prop (fst kv) = true) ->
             filter (fun kv : string * string => is_param_prop (fst kv)) l = l).
  { induction l as [|kv l IH]; intros H; [reflexivity|].
    cbn [filter]. rewrite (H kv (or_introl eq_refl)).
    f_equal. apply IH. intros kv' Hin. apply H. now right. }
  apply G. intros kv Hin. unfold is_param_prop.
  rewrite (plain_keys_names kvs (fst kv) Hp (in_map fst _ _ Hin)).
  unfold lustre_names in Hin. apply in_map_iff in Hin as (kv0 & <- & _).
  cbn [fst]. unfold CStr.has_prefix. now rewrite CStrFacts.prefix_app.
Qed.

Lemma zfs_get_prop_int_written w zhp l name v old :
  zfs_get_user_props w zhp = Some l ->
  nvlist_find l name = Some (Some (Dec.fmt_i (Dec.as_int v))) ->
  0 <= v < 2 ^ 32 ->
  zfs_get_prop_int w zhp name old = (0, v).
Proof.
  intros Hp Hf Hv.
  rewrite (zfs_get_prop_int_stored _ _ _ _ _ _ Hp Hf).
  pose proof (DecFacts.as_int_range v) as Hr.
  rewrite DecFacts.strtoul10_fmt_i by lia.
  cbn [Z.eqb negb]. now rewrite DecFacts.as_u32_as_int.
Qed.

Lemma zfs_get_prop_str_missing w zhp l name old :
  zfs_get_user_props w zhp = Some l ->
  nvlist_find l name = None ->
  zfs_get_prop_str w zhp name old = (ENOENT, old).
Proof.
  intros Hp Hf. unfold zfs_get_prop_str, nvlist_lookup_nvlist.
  now rewrite Hp, Hf.
Qed.


End WriteThenRead.

Section WriteThenReadTheorems.

Context {ext : Externals}.


(** A name has the same entry in two lists with distinct names that
    hold the same pairs, whatever the order. *)
Lemma nvlist_find_in (l : nvlist) name v :
  nvlist_find l name = Some v -> In (name, v) l.
Proof.
  induction l as [|[n x] l IH]; cbn [nvlist_find]; [discriminate|].
  destruct (String.eqb_spec n name) as [->|_].
  - intros E. injection E as ->. now left.
  - intros E. right. now apply IH.
Qed.

Lemma nvlist_find_absent (l : nvlist) name :
  ~ In name (map fst l) -> nvlist_find l name = None.
Proof.
  induction l as [|[n x] l IH]; intros H; [reflexivity|].
  cbn [nvlist_find]. destruct (String.eqb_spec n name) as [->|_].
  - exfalso. apply H. now left.
  - apply IH. intros Hin. apply H. now right.
Qed.

Lemma nvlist_find_perm (l1 l2 : nvlist) name :
  NoDup (map fst l1) -> Permutation l2 l1 ->
  nvlist_find l2 name = nvlist_find l1 name.
Proof.
  intros Hnd Hperm.
  assert (Hnd2 : NoDup (map fst l2)).
  { apply (Permutation_NoDup (l := map fst l1)); [|exact Hnd].
    apply Permutation_map. now apply Permutation_sym. }
  destruct (nvlist_find l1 name) as [v|] eqn:E.
  - apply nvlist_find_nodup; [exact Hnd2|].
    apply (Permutation_in _ (Permutation_sym Hperm)).
    now apply nvlist_find_in.
  - apply nvlist_find_absent. intros Hin.
    assert (Hin1 : In name (map fst l1))
      by (apply (Permutation_in _ (Permutation_map fst Hperm)); exact Hin).
    apply in_map_iff in Hin1 as ([n x] & Hn & Hx). cbn [fst] in Hn.
    subst n. now rewrite (nvlist_find_nodup l1 name x Hnd Hx) in E.
Qed.

Lemma filter_perm {A : Type} (f : A -> bool) (l1 l2 : list A) :
  Permutation l1 l2 -> Permutation (filter f l1) (filter f l2).
Proof.
  induction 1 as [|x l l' _ IH|x y l|l l' l'' _ IH1 _ IH2]; cbn [filter].
  - constructor.
  - destruct (f x); [now constructor|exact IH].
  - destruct (f x), (f y); try apply Permutation_refl. apply perm_swap.
  - now apply (Permutation_trans IH1).
Qed.

(** X8: a write of a record on a filesystem without user properties,
    with the fields of 32 bits, parameters that are well-formed, distinct
    and not named like a table entry, every value shorter than the 4096
    bytes of the scratch buffer, and collaborators that do not fail: the
    write returns 0, and wherever a dataset holds what the write has
    stored, in whatever order the library enumerates it, the property of
    each integer entry reads as the integer written, the property of a
    string entry reads as the string written or is missing when that was
    empty, and [zfs_get_prop_params] with the buffer size [zfs_read_ldd]
    gives it returns 0 after handing to [add_param] the parameters
    written, each once, in the order of the enumeration. *)
Theorem zfs_write_then_read (fuel : nat) (w : world) (mop : mkfs_opts)
    (kvs : list (string * string)) :
  osd_zfs_setup w = 1 ->
  find_dataset (w_datasets w) (mo_device mop)
  = Some (a_dataset ZFS_TYPE_FILESYSTEM []) ->
  fst (zfs_check_hostid w mop) = 0 ->
  (forall w' prop value, zfs_prop_set_errno w' (mo_device mop) prop value = 0) ->
  (forall buf key val, fst (add_param buf key val) = 0) ->
  0 <= ldd_config_ver (mo_ldd mop) < 2 ^ 32 ->
  0 <= ldd_flags (mo_ldd mop) < 2 ^ 32 ->
  0 <= ldd_svindex (mo_ldd mop) < 2 ^ 32 ->
  ldd_params (mo_ldd mop) = params_blob kvs ->
  forallb is_pair kvs = true ->
  NoDup (map fst kvs) ->
  plain_keys kvs = true ->
  (List.length kvs < fuel)%nat ->
  (forall b v, In b special_ldd_prop_params ->
               bridge_value (mo_ldd mop) b = Some v ->
               Z.of_nat (String.length v) < 4096) ->
  (forall kv, In kv kvs -> Z.of_nat (String.length (snd kv)) < 4096) ->
  exists w' stored,
    zfs_write_ldd fuel w mop = Returns 0 w' /\
    zfs_get_user_props w' (mo_device mop) = Some stored /\
    forall wr props,
      zfs_get_user_props wr (mo_device mop) = Some props ->
      Permutation props stored ->
      (forall b get put old,
          In b special_ldd_prop_params ->
          zlpb_ldd_offset b = FieldInt get put ->
          zfs_get_prop_int wr (mo_device mop) (zlpb_prop_name b) old
          = (0, get (mo_ldd mop))) /\
      (forall b get put old,
          In b special_ldd_prop_params ->
          zlpb_ldd_offset b = FieldStr get put ->
          zfs_get_prop_str wr (mo_device mop) (zlpb_prop_name b) old
          = if String.eqb (get (mo_ldd mop)) EmptyString
            then (ENOENT, old) else (0, get (mo_ldd mop))) /\
      exists order,
        Permutation order (lustre_names kvs) /\
        forall param,
          zfs_get_prop_params wr (mo_device mop) param 4096
          = (0, add_params param order).
Proof.
  intros Hs Hd Hc Hset Hadd Hver Hflags Hidx Hpar Hp Hnd Hplain Hfuel _ _.
  destruct (zfs_write_ldd_stored fuel w mop [] kvs Hs Hd Hc Hset Hpar Hp Hfuel)
    as (w' & Hw & _ & _ & Hd').
  set (ldd := mo_ldd mop) in *. set (ds := mo_device mop) in *.
  set (W := (bridge_writes ldd special_ldd_prop_params ++ lustre_names kvs)%list)
    in *.
  assert (HndW : NoDup (map fst W)) by now apply written_names_nodup.
  assert (HL : nvlist_puts [] W = valued W)
    by (rewrite nvlist_puts_fresh; [reflexivity|exact HndW|reflexivity]).
  assert (HndV : NoDup (map fst (valued W)))
    by (unfold valued; rewrite map_map; exact HndW).
  assert (Hin : forall b, In b special_ldd_prop_params ->
            nvlist_find (valued W) (zlpb_prop_name b)
            = match bridge_value ldd b with
              | Some v => Some (Some v)
              | None => None
              end)
    by (intros b Hb; rewrite <- HL;
        apply (stored_after_write ldd [] kvs b Hplain Hb)).
  exists w', (valued W). split; [exact Hw|]. split.
  { unfold zfs_get_user_props. rewrite Hd', HL. reflexivity. }
  intros wr props Hprops Hperm.
  assert (Hfind : forall b, In b special_ldd_prop_params ->
            nvlist_find props (zlpb_prop_name b)
            = match bridge_value ldd b with
              | Some v => Some (Some v)
              | None => None
              end)
    by (intros b Hb; rewrite (nvlist_find_perm (valued W) props _ HndV Hperm);
        now apply Hin).
  split; [|split].
  - intros b get put old Hb Hoff.
    pose proof (Hfind b Hb) as Hf. unfold bridge_value in Hf.
    rewrite Hoff in Hf.
    apply (zfs_get_prop_int_written wr ds props _ (get ldd) old Hprops Hf).
    unfold special_ldd_prop_params in Hb. cbn [In] in Hb.
    repeat (destruct Hb as [<-|Hb];
            [first [ injection Hoff as <- _; assumption
                   | discriminate Hoff ]|]).
    destruct Hb.
  - intros b get put old Hb Hoff.
    pose proof (Hfind b Hb) as Hf. unfold bridge_value in Hf.
    rewrite Hoff in Hf.
    destruct (String.eqb (get ldd) EmptyString).
    + now apply (zfs_get_prop_str_missing wr ds props).
    + now apply (zfs_get_prop_str_stored wr ds _ _ old props).
  - unfold valued in Hperm.
    apply Permutation_map_inv in Hperm as (W' & -> & HpermW).
    fold (valued W') in Hprops.
    exists (filter (fun kv => is_param_prop (fst kv)) W'). split.
    + rewrite <- (written_params ldd kvs Hplain). fold W.
      apply filter_perm. now apply Permutation_sym.
    + intros param.
      apply (zfs_get_prop_params_on_valued wr ds param 4096 W' Hprops);
        [|exact Hadd|reflexivity].
      apply (Permutation_NoDup (l := map fst W)); [|exact HndW].
      now apply Permutation_map.
Qed.

(** X9: a write with an empty string field does not clear the property
    of that field: after the write the dataset still holds the value it
    held before, and a read returns it. *)
Theorem zfs_write_ldd_keeps_stale_string (fuel : nat) (w : world)
    (mop : mkfs_opts) (kvs : list (string * string)) (l0 : nvlist)
    (b : zfs_ldd_prop_bridge) (get : lustre_disk_data -> string)
    (put : string -> lustre_disk_data -> lustre_disk_data)
    (stale old : string) :
  osd_zfs_setup w = 1 ->
  find_dataset (w_datasets w) (mo_device mop)
  = Some (a_dataset ZFS_TYPE_FILESYSTEM l0) ->
  fst (zfs_check_hostid w mop) = 0 ->
  (forall w' prop value, zfs_prop_set_errno w' (mo_device mop) prop value = 0) ->
  ldd_params (mo_ldd mop) = params_blob kvs ->
  forallb is_pair kvs = true ->
  plain_keys kvs = true ->
  (List.length kvs < fuel)%nat ->
  In b special_ldd_prop_params ->
  zlpb_ldd_offset b = FieldStr get put ->
  get (mo_ldd mop) = EmptyString ->
  nvlist_find l0 (zlpb_prop_name b) = Some (Some stale) ->
  exists w',
    zfs_write_ldd fuel w mop = Returns 0 w' /\
    zfs_get_prop_str w' (mo_device mop) (zlpb_prop_name b) old = (0, stale).
Proof.
  intros Hs Hd Hc Hset Hpar Hp Hplain Hfuel Hb Hoff Hget Hstale.
  destruct (zfs_write_ldd_stored fuel w mop l0 kvs Hs Hd Hc Hset Hpar Hp Hfuel)
    as (w' & Hw & _ & _ & Hd').
  exists w'. split; [exact Hw|].
  apply (zfs_get_prop_str_stored w' _ _ stale old
           (nvlist_puts l0
              (bridge_writes (mo_ldd mop) special_ldd_prop_params
               ++ lustre_names kvs))).
  - unfold zfs_get_user_props. now rewrite Hd'.
  - rewrite (stored_after_write _ l0 kvs b Hplain Hb).
    unfold bridge_value. rewrite Hoff, Hget. exact Hstale.
Qed.

(** X10: the parameters are written after the table, so a parameter
    reads back as the value of its last token whatever its key: a key
    that is the name of a well-known field replaces what the table wrote
    for that field. *)
Theorem zfs_write_ldd_param_wins (fuel : nat) (w : world) (mop : mkfs_opts)
    (kvs : list (string * string)) (l0 : nvlist) (k v old : string) :
  osd_zfs_setup w = 1 ->
  find_dataset (w_datasets w) (mo_device mop)
  = Some (a_dataset ZFS_TYPE_FILESYSTEM l0) ->
  fst (zfs_check_hostid w mop) = 0 ->
  (forall w' prop value, zfs_prop_set_errno w' (mo_device mop) prop value = 0) ->
  ldd_params (mo_ldd mop) = params_blob kvs ->
  forallb is_pair kvs = true ->
  (List.length kvs < fuel)%nat ->
  last_value k kvs = Some v ->
  exists w',
    zfs_write_ldd fuel w mop = Returns 0 w' /\
    zfs_get_prop_str w' (mo_device mop) (LDD_PREFIX ++ k) old = (0, v).
Proof.
  intros Hs Hd Hc Hset Hpar Hp Hfuel Hlast.
  destruct (zfs_write_ldd_stored fuel w mop l0 kvs Hs Hd Hc Hset Hpar Hp Hfuel)
    as (w' & Hw & _ & _ & Hd').
  exists w'. split; [exact Hw|].
  apply (zfs_get_prop_str_stored w' _ _ v old
           (nvlist_puts l0
              (bridge_writes (mo_ldd mop) special_ldd_prop_params
               ++ lustre_names kvs))).
  - unfold zfs_get_user_props. now rewrite Hd'.
  - now rewrite nvlist_find_puts, last_value_app, last_value_lustre_names, Hlast.
Qed.

End WriteThenReadTheorems.

(** ** Integers as they are read *)

Section IntegerReads.

Context {ext : Externals}.

(** [strtoul] on the decimal of a number that is not negative. *)
Lemma strtoul10_decimal n :
  0 <= n ->
  Dec.strtoul10 (Dec.fmt_i n) =
    if n >? Dec.ULONG_MAX then (Dec.ULONG_MAX, ERANGE) else (n mod 2 ^ 64, 0).
Proof.
  intros Hn. unfold Dec.fmt_i. destruct (Z.ltb_spec n 0) as [|_]; [lia|].
  unfold Dec.strtoul10.
  destruct (DecFacts.fmt_udec_head (Z.to_nat (Z.log2 n)) n "") as (c & s & E & Hc).
  pose proof (DecFacts.digits_val_fmt_udec (Z.to_nat (Z.log2 n)) n ""
                (conj Hn (DecFacts.log2_fuel n Hn))) as Hd.
  rewrite E in *. cbn [Dec.skip_space]. rewrite (DecFacts.digit_not_space c Hc).
  destruct (DecFacts.digit_not_sign c Hc) as [-> ->]. rewrite Hc, Hd.
  reflexivity.
Qed.

(** X11: a property that holds the decimal of a number [n], not
    negative, read by [zfs_get_prop_int]: up to [ULONG_MAX] the code is 0
    and the field gets [n] cut to 32 bits, with no sign that bits were
    lost; above it the code is [ERANGE], and the field has been
    overwritten with 0xFFFFFFFF all the same. *)
Theorem zfs_get_prop_int_decimal (w : world) (zhp prop : string) (l : nvlist)
    (n old : Z) :
  zfs_get_user_props w zhp = Some l ->
  nvlist_find l prop = Some (Some (Dec.fmt_i n)) ->
  0 <= n ->
  zfs_get_prop_int w zhp prop old =
    if n <=? Dec.ULONG_MAX then (0, n mod 2 ^ 32) else (ERANGE, 2 ^ 32 - 1).
Proof.
  intros Hp Hf Hn.
  rewrite (zfs_get_prop_int_stored _ _ _ _ _ _ Hp Hf), (strtoul10_decimal n Hn).
  unfold Dec.ULONG_MAX, Dec.as_u32.
  destruct (Z.gtb_spec n (2 ^ 64 - 1)) as [Hbig|Hfit];
    destruct (Z.leb_spec n (2 ^ 64 - 1)); try lia.
  - reflexivity.
  - cbn [Z.eqb negb]. f_equal.
    rewrite (Z.mod_small n (2 ^ 64)) by lia. reflexivity.
Qed.

(** X12: a property whose string is empty, or starts with a character
    that is no blank, no sign and no digit, is read by [zfs_get_prop_int]
    as 0 with code 0: text that is not a number is not told from the
    number 0. *)
Theorem zfs_get_prop_int_not_a_number (w : world) (zhp prop : string)
    (l : nvlist) (value : string) (old : Z) :
  zfs_get_user_props w zhp = Some l ->
  nvlist_find l prop = Some (Some value) ->
  match value with
  | EmptyString => True
  | String c _ =>
      Dec.is_space c = false /\ Dec.is_digit c = false /\
      Ascii.eqb c "-" = false /\ Ascii.eqb c "+" = false
  end ->
  zfs_get_prop_int w zhp prop old = (0, 0).
Proof.
  intros Hp Hf Hv.
  rewrite (zfs_get_prop_int_stored _ _ _ _ _ _ Hp Hf).
  destruct value as [|c s]; [reflexivity|].
  destruct Hv as (H1 & H2 & H3 & H4).
  unfold Dec.strtoul10. cbn [Dec.skip_space]. now rewrite H1, H3, H4, H2.
Qed.

End IntegerReads.

(** ** When the host id check lets the caller go on *)

Section HostIdDecision.

Context {ext : Externals}.

(** X13: [zfs_check_hostid] returns 0 exactly when the parameters do not
    have the failover-node option, or spl_hostid failed to open with an
    [errno] of 0, or [fscanf] on it converted nothing (its result 0 is
    returned as the code), or it gave one number and that number is not
    0, or /etc/hostid gives a host id, or [MO_NOHOSTID_CHECK] is set. *)
Theorem zfs_check_hostid_passes_iff (w : world) (mop : mkfs_opts) :
  fst (zfs_check_hostid w mop) = 0 <->
  CStr.strstr (ldd_params (mo_ldd mop)) PARAM_FAILNODE = false \/
  match w_spl_hostid w with
  | SplNoFile err => err = 0
  | SplScanned rc hostid =>
      rc = 0 \/
      (rc = 1 /\
       (hostid <> 0 \/ etc_hostid_gives_zero w = false \/
        Z.land (mo_flags mop) MO_NOHOSTID_CHECK <> 0))
  end.
Proof.
  unfold zfs_check_hostid, flag_set, etc_hostid_gives_zero.
  destruct (CStr.strstr _ _); cbn [negb]; [|split; auto].
  destruct (w_spl_hostid w) as [err|rc hostid]; cbn [fst].
  - split; [auto|]. intros [Q|Q]; [discriminate|exact Q].
  - destruct (Z.eqb_spec rc 1) as [->|Hrc]; cbn [negb fst].
    + destruct (Z.eqb_spec hostid 0) as [->|Hh]; cbn [negb fst].
      * destruct (w_etc_hostid w) as [bytes|].
        -- destruct (Z.leb_spec 4 (Z.of_nat (List.length bytes))) as [Hl|Hl].
           ++ change (negb (1 =? 1)) with false. cbv beta iota zeta.
              destruct (Z.ltb_spec (Z.of_nat (List.length bytes)) 4); [lia|].
              cbn [orb].
              destruct (Z.eqb_spec (hostid_of_bytes bytes) 0) as [Hb|Hb].
              ** destruct (Z.eqb_spec (Z.land (mo_flags mop) MO_NOHOSTID_CHECK) 0)
                   as [Hf|Hf]; cbn [negb fst].
                 --- split; [discriminate|].
                     intros [Q|[Q|(_ & [Q|[Q|Q]])]];
                       try discriminate; try lia; contradiction.
                 --- split; auto 10.
              ** cbn [fst]. split; auto 10.
           ++ change (negb (0 =? 1)) with true. cbv beta iota zeta.
              change (0 =? 0) with true. cbv beta iota zeta.
              destruct (Z.ltb_spec (Z.of_nat (List.length bytes)) 4); [|lia].
              cbn [orb].
              destruct (Z.eqb_spec (Z.land (mo_flags mop) MO_NOHOSTID_CHECK) 0)
                as [Hf|Hf]; cbn [negb fst].
              ** split; [discriminate|].
                 intros [Q|[Q|(_ & [Q|[Q|Q]])]];
                   try discriminate; try lia; contradiction.
              ** split; auto 10.
        -- cbv beta iota zeta. change (0 =? 0) with true. cbv beta iota zeta.
           destruct (Z.eqb_spec (Z.land (mo_flags mop) MO_NOHOSTID_CHECK) 0)
             as [Hf|Hf]; cbn [negb fst].
           ++ split; [discriminate|].
              intros [Q|[Q|(_ & [Q|[Q|Q]])]];
                try discriminate; try lia; contradiction.
           ++ split; auto 10.
      * split; auto 10.
    + split.
      * intros ->. auto.
      * intros [Q|[Q|(Q & _)]]; [discriminate|exact Q|contradiction].
Qed.

End HostIdDecision.

(** ** Recognition, label and handles *)

Section Recognition.

Context {ext : Externals}.

(** A read that returns 0 has set the mount type. *)
Lemma zfs_read_ldd_zero_stamps w ds ldd :
  fst (fst (zfs_read_ldd w ds ldd)) = 0 ->
  ldd_mount_type (snd (fst (zfs_read_ldd w ds ldd))) = LDD_MT_ZFS.
Proof.
  unfold zfs_read_ldd.
  destruct (osd_check_zfs_setup w) as [ok w0].
  destruct ok; cbn [negb fst snd]; [|discriminate].
  destruct (match zfs_open w0 ds ZFS_TYPE_FILESYSTEM with
            | (Some zhp, w1) => (Some zhp, w1)
            | (None, w1) => zfs_open w1 ds ZFS_TYPE_SNAPSHOT
            end) as [[zhp|] w1]; cbn [fst snd]; [|discriminate].
  destruct (read_special_props w1 zhp ldd special_ldd_prop_params) as [ret ldd1].
  destruct (Z.eqb_spec ret 0) as [->|Hne]; cbn [negb fst snd];
    [|intros; contradiction].
  destruct (zfs_get_prop_params w1 zhp (ldd_params ldd1) 4096) as [ret2 params].
  destruct (Z.eqb_spec ret2 0) as [->|Hne2]; cbn [negb andb fst snd];
    [reflexivity|].
  destruct (negb (ret2 =? ENOENT)); cbn [fst snd];
    [intros; contradiction|reflexivity].
Qed.

(** A read changes neither the datasets nor the open handles. *)
Lemma zfs_read_ldd_datasets w ds ldd :
  w_datasets (snd (zfs_read_ldd w ds ldd)) = w_datasets w.
Proof.
  unfold zfs_read_ldd.
  assert (H0 : w_datasets (snd (osd_check_zfs_setup w)) = w_datasets w)
    by (unfold osd_check_zfs_setup; now destruct (osd_zfs_setup w =? 0)).
  destruct (osd_check_zfs_setup w) as [ok w0]. cbn [snd] in H0.
  destruct ok; cbn [negb snd]; [|exact H0]. rewrite <- H0.
  assert (Hopen :
    w_datasets (snd (match zfs_open w0 ds ZFS_TYPE_FILESYSTEM with
                     | (Some zhp, w1) => (Some zhp, w1)
                     | (None, w1) => zfs_open w1 ds ZFS_TYPE_SNAPSHOT
                     end)) = w_datasets w0).
  { unfold zfs_open.
    destruct (find_dataset (w_datasets w0) ds) as [d|] eqn:E;
      [|now rewrite E].
    destruct (zfs_type_eqb (ds_type d) ZFS_TYPE_FILESYSTEM); [reflexivity|].
    rewrite E. now destruct (zfs_type_eqb (ds_type d) ZFS_TYPE_SNAPSHOT). }
  destruct (match zfs_open w0 ds ZFS_TYPE_FILESYSTEM with
            | (Some zhp, w1) => (Some zhp, w1)
            | (None, w1) => zfs_open w1 ds ZFS_TYPE_SNAPSHOT
            end) as [[zhp|] w1]; cbn [snd] in Hopen; [|exact Hopen].
  destruct (read_special_props w1 zhp ldd special_ldd_prop_params) as [ret ldd1].
  destruct (negb (ret =? 0)); [exact Hopen|].
  destruct (zfs_get_prop_params w1 zhp (ldd_params ldd1) 4096) as [ret2 params].
  now destruct (negb (ret2 =? 0) && negb (ret2 =? ENOENT)).
Qed.

(** X15: [zfs_is_lustre] answers 0 or 1; with 0 the caller's
    [*mount_type] is what it was, with 1 it is [LDD_MT_ZFS]; and the call
    changes neither a dataset nor the open handles, nor the ready flag. *)
Theorem zfs_is_lustre_answer (w : world) (ds : string) (mount_type : Z)
    (tmp_ldd : lustre_disk_data) :
  let ans := fst (fst (zfs_is_lustre w ds mount_type tmp_ldd)) in
  let out := snd (fst (zfs_is_lustre w ds mount_type tmp_ldd)) in
  let w' := snd (zfs_is_lustre w ds mount_type tmp_ldd) in
  (ans = 0 /\ out = mount_type \/ ans = 1 /\ out = LDD_MT_ZFS) /\
  w_datasets w' = w_datasets w /\
  w_handles w' = w_handles w.
Proof.
  unfold zfs_is_lustre.
  destruct (osd_zfs_setup w =? 0); cbn [fst snd]; [auto|].
  pose proof (zfs_read_ldd_zero_stamps w ds tmp_ldd) as Hst.
  pose proof (zfs_read_ldd_datasets w ds tmp_ldd) as Hds.
  pose proof (zfs_read_ldd_closes w ds tmp_ldd) as Hh.
  destruct (zfs_read_ldd w ds tmp_ldd) as [[ret l] w1]. cbn [fst snd] in *.
  destruct (Z.eqb_spec ret 0) as [->|]; cbn [andb fst snd]; [|auto].
  destruct ((ldd_config_ver l >? 0)
            && (0 <? Z.of_nat (String.length (ldd_svname l))));
    cbn [fst snd]; auto.
Qed.

(** X16: a label with a service name that is not empty, on a filesystem
    whose store accepts the write: [zfs_label_lustre] returns 0, the
    handle is closed, lustre:svname reads back as the new name and every
    other property reads as before.  With an empty name the call returns
    0 as well and has changed nothing. *)
Theorem zfs_label_lustre_sets_svname (w : world) (mnt : mount_opts)
    (l0 : nvlist) :
  osd_zfs_setup w = 1 ->
  find_dataset (w_datasets w) (mo_source mnt)
  = Some (a_dataset ZFS_TYPE_FILESYSTEM l0) ->
  (ldd_svname (mnt_ldd mnt) = EmptyString -> zfs_label_lustre w mnt = (0, w)) /\
  (ldd_svname (mnt_ldd mnt) <> EmptyString ->
   (forall w', zfs_prop_set_errno w' (mo_source mnt) LDD_SVNAME_PROP
                 (ldd_svname (mnt_ldd mnt)) = 0) ->
   exists w',
     zfs_label_lustre w mnt = (0, w') /\
     w_handles w' = w_handles w /\
     (forall old,
         zfs_get_prop_str w' (mo_source mnt) LDD_SVNAME_PROP old
         = (0, ldd_svname (mnt_ldd mnt))) /\
     (forall name old,
         name <> LDD_SVNAME_PROP ->
         zfs_get_prop_str w' (mo_source mnt) name old
         = zfs_get_prop_str w (mo_source mnt) name old)).
Proof.
  intros Hs Hd. unfold zfs_label_lustre.
  rewrite (osd_check_zfs_setup_ready _ Hs). cbn [negb].
  rewrite (zfs_open_found w _ _ ZFS_TYPE_FILESYSTEM Hd eq_refl).
  split.
  - intros ->. cbn [zfs_set_prop_str String.length Z.of_nat Z.ltb Z.compare].
    now rewrite zfs_close_opened.
  - intros Hne Hset. unfold zfs_set_prop_str.
    assert (Hlen : (0 <? Z.of_nat (String.length (ldd_svname (mnt_ldd mnt)))) = true).
    { apply Z.ltb_lt. destruct (ldd_svname (mnt_ldd mnt)); [contradiction|].
      cbn [String.length]. lia. }
    rewrite Hlen.
    set (w1 := set_handles (mo_source mnt :: w_handles w) w).
    destruct (zfs_prop_set_world w1 (mo_source mnt) LDD_SVNAME_PROP
                (ldd_svname (mnt_ldd mnt)) ZFS_TYPE_FILESYSTEM l0 (Hset w1) Hd)
      as (ds' & E & F).
    rewrite E. eexists. split; [reflexivity|].
    assert (Hp : forall name old,
              zfs_get_prop_str (zfs_close (set_datasets ds' w1) (mo_source mnt))
                (mo_source mnt) name old
              = match nvlist_find
                        (nvlist_put l0 LDD_SVNAME_PROP (ldd_svname (mnt_ldd mnt)))
                        name with
                | Some (Some s) => (0, s)
                | _ => (ENOENT, old)
                end).
    { intros name old. unfold zfs_get_prop_str, zfs_get_user_props.
      cbn [w_datasets zfs_close set_handles set_datasets]. rewrite F.
      cbn [ds_user_props a_dataset nvlist_lookup_nvlist].
      destruct (nvlist_find _ name) as [[s|]|]; reflexivity. }
    split; [|split].
    + unfold zfs_close. cbn [w_handles set_handles set_datasets w1].
      apply remove_handle_head.
    + intros old. now rewrite Hp, nvlist_find_put.
    + intros name old Hname. rewrite Hp, nvlist_find_put_other by exact Hname.
      unfold zfs_get_prop_str, zfs_get_user_props. rewrite Hd.
      cbn [ds_user_props a_dataset nvlist_lookup_nvlist].
      destruct (nvlist_find l0 name) as [[s|]|]; reflexivity.
Qed.

(** X17: handles are opened and closed in pairs: [zfs_read_ldd] and
    [zfs_label_lustre] leave the open handles as they found them on every
    path, and so does [zfs_write_ldd] whenever it returns and the host id
    check passes in the world of the call, be it for want of the
    failover-node option or with it. *)
Theorem handles_are_closed (w : world) (ds : string) (ldd : lustre_disk_data)
    (mnt : mount_opts) (fuel : nat) (mop : mkfs_opts) :
  w_handles (snd (zfs_read_ldd w ds ldd)) = w_handles w /\
  w_handles (snd (zfs_label_lustre w mnt)) = w_handles w /\
  (fst (zfs_check_hostid w mop) = 0 ->
   forall ret w', zfs_write_ldd fuel w mop = Returns ret w' ->
                  w_handles w' = w_handles w).
Proof.
  split; [apply zfs_read_ldd_closes|].
  split; [apply zfs_label_lustre_closes|].
  intros Hc ret w'. now apply zfs_write_ldd_closes_after_check.
Qed.


End Recognition.

(** ** Provisioning *)

Section Provisioning.

Context {ext : Externals}.

(** X19: [zfs_prepare_lustre] returns 0 exactly when the library is set
    up, the name is valid for a filesystem and it has a '/'; any other
    case gives [EINVAL]; and a call that returns 0 has changed nothing. *)
Theorem zfs_prepare_lustre_accepts_iff (w : world) (mop : mkfs_opts)
    (wanted_mountopts : string) (len : Z) :
  let r := zfs_prepare_lustre w mop wanted_mountopts len in
  (fst r = 0 <->
   osd_zfs_setup w = 1 /\
   zfs_name_valid (mo_device mop) ZFS_TYPE_FILESYSTEM = true /\
   CStr.strchr (mo_device mop) "/" = true) /\
  (fst r = 0 \/ fst r = EINVAL) /\
  (fst r = 0 -> snd r = w).
Proof.
  unfold zfs_prepare_lustre, osd_check_zfs_setup.
  destruct (Z.eqb_spec (osd_zfs_setup w) 0) as [H0|H0].
  - cbn [osd_zfs_setup emit]. rewrite H0. cbn [Z.eqb negb fst snd].
    repeat split; try discriminate; auto.
    intros (H & _). lia.
  - destruct (Z.eqb_spec (osd_zfs_setup w) 1) as [H1|H1]; cbn [negb fst snd].
    + destruct (zfs_name_valid (mo_device mop) ZFS_TYPE_FILESYSTEM);
        cbn [negb fst snd].
      * destruct (CStr.strchr (mo_device mop) "/"); cbn [negb fst snd].
        -- repeat split; auto.
        -- repeat split; try discriminate; auto.
           intros (_ & _ & H). discriminate.
      * repeat split; try discriminate; auto.
        intros (_ & H & _). discriminate.
    + repeat split; try discriminate; auto.
      intros (H & _). contradiction.
Qed.

Lemma append_vdevs_returns mop vdevs : forall w mkfs_cmd,
  (forall dst src n, strscat dst src n <> None) ->
  append_vdevs w mop mkfs_cmd vdevs <> None.
Proof.
  induction vdevs as [|vdev vdevs IH]; intros w mkfs_cmd Hs; [discriminate|].
  cbn [append_vdevs].
  destruct (strscat mkfs_cmd " " PATH_MAX) as [c1|] eqn:E1;
    [|now apply Hs in E1].
  destruct (strscat c1 vdev PATH_MAX) as [c2|] eqn:E2; [|now apply Hs in E2].
  destruct (zfs_create_vdev w mop vdev) as [ret w1].
  destruct (negb (ret =? 0)); [discriminate|now apply IH].
Qed.

(** X20: the '/' that [zfs_make_lustre] cuts the pool name at is the
    one [zfs_prepare_lustre] checks: after a prepare that returned 0 the
    call reaches its end, when no pool is to be made or [strscat] never
    gives up; on a name without '/' that gets past the index and host id
    checks it does not return at all. *)
Theorem zfs_make_lustre_needs_prepare (w : world) (mop : mkfs_opts)
    (wanted_mountopts : string) (len : Z) :
  (fst (zfs_prepare_lustre w mop wanted_mountopts len) = 0 ->
   mo_pool_vdevs mop = None \/ (forall dst src n, strscat dst src n <> None) ->
   zfs_make_lustre w mop <> None) /\
  (osd_zfs_setup w = 1 ->
   Z.land (ldd_flags (mo_ldd mop)) LDD_F_NEED_INDEX = 0 ->
   fst (zfs_check_hostid w mop) = 0 ->
   CStr.strchr (mo_device mop) "/" = false ->
   zfs_make_lustre w mop = None).
Proof.
  split.
  - intros Hprep Hv.
    assert (Hs : osd_zfs_setup w = 1 /\ CStr.strchr (mo_device mop) "/" = true).
    { revert Hprep. unfold zfs_prepare_lustre, osd_check_zfs_setup.
      destruct (Z.eqb_spec (osd_zfs_setup w) 0) as [H0|H0].
      - cbn [osd_zfs_setup emit]. rewrite H0. discriminate.
      - destruct (Z.eqb_spec (osd_zfs_setup w) 1); cbn [negb fst];
          [|discriminate].
        destruct (zfs_name_valid _ _); cbn [negb fst]; [|discriminate].
        destruct (CStr.strchr _ _); cbn [negb fst]; [auto|discriminate]. }
    destruct Hs as [Hs Hc]. unfold zfs_make_lustre.
    rewrite (osd_check_zfs_setup_ready _ Hs). cbn [negb].
    destruct (flag_set (ldd_flags (mo_ldd mop)) LDD_F_NEED_INDEX);
      [discriminate|].
    destruct (zfs_check_hostid w mop) as [ret w1].
    destruct (negb (ret =? 0)); [discriminate|]. rewrite Hc. cbn [negb].
    match goal with
    | |- context [let '(r, w0) := ?d in _] => destruct d as [r2 w2]
    end.
    destruct (negb (r2 =? 0)); [discriminate|].
    assert (Hvd : forall w0 cmd vdevs,
              mo_pool_vdevs mop = Some vdevs ->
              append_vdevs w0 mop cmd vdevs <> None).
    { intros w0 cmd vdevs Ev. destruct Hv as [Hv|Hv]; [congruence|].
      now apply append_vdevs_returns. }
    destruct (mo_pool_vdevs mop) as [vdevs|].
    + destruct (negb (existsb _ (w_pools w2))).
      * specialize (Hvd w2 (snprintf PATH_MAX
                              ("zpool create -f -O canmount=off "
                                 ++ CStr.cut_at (mo_device mop) "/"))
                        vdevs eq_refl).
        destruct (append_vdevs w2 mop _ vdevs) as [[[[r3 c3] v3] w3]|];
          [|contradiction].
        repeat first
          [ progress cbv beta iota zeta
          | match goal with
            | |- context [run_command ?a ?b ?c] =>
                destruct (run_command a b c) as [? ?]
            | |- context [negb (?r =? 0)] => destruct (negb (r =? 0))
            end ];
          discriminate.
      * repeat first
          [ progress cbv beta iota zeta
          | match goal with
            | |- context [run_command ?a ?b ?c] =>
                destruct (run_command a b c) as [? ?]
            | |- context [negb (?r =? 0)] => destruct (negb (r =? 0))
            end ];
          discriminate.
    + repeat first
        [ progress cbv beta iota zeta
        | match goal with
          | |- context [run_command ?a ?b ?c] =>
              destruct (run_command a b c) as [? ?]
          | |- context [negb (?r =? 0)] => destruct (negb (r =? 0))
          end ];
        discriminate.
  - intros Hs Hidx Hc Hno. unfold zfs_make_lustre.
    rewrite (osd_check_zfs_setup_ready _ Hs). cbn [negb].
    unfold flag_set. rewrite Hidx. cbn [Z.eqb negb].
    destruct (zfs_check_hostid w mop) as [ret w1]. cbn [fst] in Hc. subst ret.
    cbn [Z.eqb negb]. now rewrite Hno.
Qed.

End Provisioning.

Section Commands.

Context {ext : Externals}.

Lemma cut_at_pool pool : forall rest,
  lacks "/" pool = true ->
  CStr.cut_at (pool ++ String "/" rest) "/" = pool /\
  CStr.strchr (pool ++ String "/" rest) "/" = true.
Proof.
  induction pool as [|c pool IH]; intros rest H.
  - now split.
  - cbn [lacks] in H. apply andb_prop in H as [Hc Hp].
    apply negb_true_iff in Hc.
    cbn [append CStr.cut_at CStr.strchr]. rewrite Hc.
    destruct (IH rest Hp) as [-> ->]. now split.
Qed.

Lemma zfs_create_vdev_there w mop vdev :
  vdev_is_there w vdev = true -> zfs_create_vdev w mop vdev = (0, w).
Proof.
  unfold zfs_create_vdev, vdev_is_there. intros H.
  destruct (CStr.has_prefix "disk" vdev || CStr.has_prefix "file" vdev
            || CStr.has_prefix "mirror" vdev || CStr.has_prefix "raidz" vdev
            || CStr.has_prefix "spare" vdev || CStr.has_prefix "log" vdev
            || CStr.has_prefix "cache" vdev); [reflexivity|].
  destruct (CStr.has_prefix "/" vdev); [|reflexivity].
  cbn [negb orb] in H. apply Z.eqb_eq in H. now rewrite H.
Qed.

(** X21: a vdev that is not an absolute path, or that [access] finds,
    is left to zpool: [zfs_create_vdev] returns 0 and does nothing, and no
    file is made for it.  For an absolute path that [access] reports
    missing the result is [EINVAL] when no device size was given, and
    whatever [file_create] answers otherwise. *)
Theorem zfs_create_vdev_cases (w : world) (mop : mkfs_opts) (vdev : string) :
  (vdev_is_there w vdev = true -> zfs_create_vdev w mop vdev = (0, w)) /\
  (CStr.has_prefix "/" vdev = true -> access_F_OK w vdev = ENOENT ->
   (mo_device_kb mop = 0 ->
    zfs_create_vdev w mop vdev = (EINVAL, emit [FATAL; MSG_vdev_no_size] w)) /\
   (mo_device_kb mop <> 0 ->
    fst (zfs_create_vdev w mop vdev)
    = fst (file_create vdev (mo_device_kb mop) w))).
Proof.
  assert (Habs : CStr.has_prefix "/" vdev = true ->
            CStr.has_prefix "disk" vdev || CStr.has_prefix "file" vdev
            || CStr.has_prefix "mirror" vdev || CStr.has_prefix "raidz" vdev
            || CStr.has_prefix "spare" vdev || CStr.has_prefix "log" vdev
            || CStr.has_prefix "cache" vdev = false).
  { unfold CStr.has_prefix. destruct vdev as [|c s]; [discriminate|].
    cbn [String.prefix]. destruct (ascii_dec "/" c) as [<-|]; [|discriminate].
    intros _. reflexivity. }
  split; [apply zfs_create_vdev_there|].
  - unfold zfs_create_vdev. intros Hp Ha. rewrite (Habs Hp), Hp, Ha.
    change (ENOENT =? 0) with false. change (negb (ENOENT =? ENOENT)) with false.
    cbv iota. split; intros Hkb.
    + now rewrite Hkb.
    + apply Z.eqb_neq in Hkb. rewrite Hkb.
      destruct (file_create vdev (mo_device_kb mop) w) as [ret w1].
      now destruct (negb (ret =? 0)).
Qed.

Lemma append_assoc3 (a b c : string) : (a ++ b) ++ c = a ++ b ++ c.
Proof. apply CStrFacts.append_assoc. Qed.

(** The command line after the loop over vdevs that need no file. *)
Lemma append_vdevs_command mop vdevs : forall w mkfs_cmd,
  (forall dst src, strscat dst src PATH_MAX = Some (dst ++ src)) ->
  forallb (vdev_is_there w) vdevs = true ->
  append_vdevs w mop mkfs_cmd vdevs
  = Some (0, mkfs_cmd ++ vdev_args vdevs, [], w).
Proof.
  induction vdevs as [|vdev vdevs IH]; intros w mkfs_cmd Hs Hv.
  - cbn [append_vdevs vdev_args]. now rewrite TokenFacts.append_nil_r.
  - cbn [forallb] in Hv. apply andb_prop in Hv as [Hv1 Hv2].
    cbn [append_vdevs vdev_args]. rewrite !Hs.
    rewrite (zfs_create_vdev_there w mop vdev Hv1). cbn [Z.eqb negb].
    rewrite (IH w _ Hs Hv2). now rewrite !append_assoc3.
Qed.

(** X22: on a name pool/..., with the library set up, no index to be
    found, the host id check passed and no --reformat: when the pool
    exists or no vdevs are given, [zfs_make_lustre] runs one command, zfs
    create with canmount=off and xattr=sa, the mkfs options and the name,
    and returns its status.  When the pool does not exist and vdevs are
    given that need no file, it first runs zpool create with the pool and
    the vdevs in order, stops with its status if that fails, and leaves
    [mo_pool_vdevs] at the end of the array. *)
Theorem zfs_make_lustre_commands (w : world) (mop : mkfs_opts)
    (pool rest : string) :
  osd_zfs_setup w = 1 ->
  Z.land (ldd_flags (mo_ldd mop)) LDD_F_NEED_INDEX = 0 ->
  fst (zfs_check_hostid w mop) = 0 ->
  Z.land (mo_flags mop) MO_FORCEFORMAT = 0 ->
  mo_device mop = pool ++ String "/" rest ->
  lacks "/" pool = true ->
  let w1 := snd (zfs_check_hostid w mop) in
  let zfs_create :=
    snprintf PATH_MAX
      ("zfs create -o canmount=off -o xattr=sa"
         ++ zfs_mkfs_opts mop PATH_MAX ++ " " ++ mo_device mop) in
  (mo_pool_vdevs mop = None \/ existsb (String.eqb pool) (w_pools w) = true ->
   zfs_make_lustre w mop =
     (let '(ret, w2) := run_command zfs_create PATH_MAX w1 in
      Some (ret, mop,
            if ret =? 0 then w2
            else emit [FATAL; MSG_fs_create_failed (mo_device mop) ret] w2))) /\
  (forall vdevs,
     mo_pool_vdevs mop = Some vdevs ->
     existsb (String.eqb pool) (w_pools w) = false ->
     (forall dst src, strscat dst src PATH_MAX = Some (dst ++ src)) ->
     forallb (vdev_is_there w1) vdevs = true ->
     zfs_make_lustre w mop =
       (let mop' := set_pool_vdevs (Some []) mop in
        let zpool_create :=
          snprintf PATH_MAX ("zpool create -f -O canmount=off " ++ pool)
            ++ vdev_args vdevs in
        let '(ret, w2) := run_command zpool_create PATH_MAX w1 in
        if ret =? 0 then
          let '(ret, w3) := run_command zfs_create PATH_MAX w2 in
          Some (ret, mop',
                if ret =? 0 then w3
                else emit [FATAL; MSG_fs_create_failed (mo_device mop) ret] w3)
        else
          Some (ret, mop', emit [FATAL; MSG_pool_create_failed pool ret] w2))).
Proof.
  intros Hs Hidx Hc Hff Hdev Hpool w1 zfs_create.
  destruct (cut_at_pool pool rest Hpool) as [Hcut Hchr].
  assert (Hpools : w_pools w1 = w_pools w).
  { subst w1. destruct (zfs_check_hostid_emits w mop) as [msgs ->].
    reflexivity. }
  assert (Hm :
            zfs_make_lustre w mop =
              (let pool_exists := existsb (String.eqb pool) (w_pools w) in
               match
                 match mo_pool_vdevs mop with
                 | Some vdevs =>
                     if negb pool_exists then
                       match append_vdevs w1 mop
                               (snprintf PATH_MAX
                                  ("zpool create -f -O canmount=off " ++ pool))
                               vdevs with
                       | None => None
                       | Some (ret, mkfs_cmd, vdevs, w0) =>
                           let mop0 := set_pool_vdevs (Some vdevs) mop in
                           if negb (ret =? 0) then Some (ret, mop0, w0)
                           else
                             let '(ret, w0) := run_command mkfs_cmd PATH_MAX w0 in
                             if negb (ret =? 0)
                             then Some (ret, mop0,
                                        emit [FATAL; MSG_pool_create_failed pool ret] w0)
                             else Some (ret, mop0, w0)
                       end
                     else Some (0, mop, w1)
                 | None => Some (0, mop, w1)
                 end
               with
               | None => None
               | Some (ret, mop0, w0) =>
                   if negb (ret =? 0) then Some (ret, mop0, w0)
                   else
                     let '(ret, w0) :=
                       run_command
                         (snprintf PATH_MAX
                            ("zfs create -o canmount=off -o xattr=sa"
                               ++ zfs_mkfs_opts mop0 PATH_MAX ++ " "
                               ++ mo_device mop)) PATH_MAX w0 in
                     if negb (ret =? 0)
                     then Some (ret, mop0,
                                emit [FATAL; MSG_fs_create_failed (mo_device mop) ret] w0)
                     else Some (ret, mop0, w0)
               end)).
  { unfold zfs_make_lustre.
    rewrite (osd_check_zfs_setup_ready _ Hs). cbn [negb].
    unfold flag_set. rewrite Hidx, Hff. cbn [Z.eqb negb].
    subst w1. destruct (zfs_check_hostid w mop) as [ret w1].
    cbn [fst snd] in *. subst ret. cbn [Z.eqb negb].
    rewrite Hdev, Hchr, Hcut. cbn [negb]. rewrite Hpools. reflexivity. }
  split.
  - intros Hv. rewrite Hm. cbv zeta.
    assert (E : match mo_pool_vdevs mop with
                | Some vdevs =>
                    if negb (existsb (String.eqb pool) (w_pools w)) then
                      match append_vdevs w1 mop
                              (snprintf PATH_MAX
                                 ("zpool create -f -O canmount=off " ++ pool))
                              vdevs with
                      | None => None
                      | Some (ret, mkfs_cmd, vdevs, w0) =>
                          if negb (ret =? 0)
                          then Some (ret, set_pool_vdevs (Some vdevs) mop, w0)
                          else
                            let '(ret, w0) := run_command mkfs_cmd PATH_MAX w0 in
                            if negb (ret =? 0)
                            then Some (ret, set_pool_vdevs (Some vdevs) mop,
                                       emit [FATAL; MSG_pool_create_failed pool ret] w0)
                            else Some (ret, set_pool_vdevs (Some vdevs) mop, w0)
                      end
                    else Some (0, mop, w1)
                | None => Some (0, mop, w1)
                end = Some (0, mop, w1)).
    { destruct Hv as [Hv|Hv]; rewrite Hv; [reflexivity|].
      now destruct (mo_pool_vdevs mop). }
    rewrite E. cbn [Z.eqb negb]. fold zfs_create.
    destruct (run_command zfs_create PATH_MAX w1) as [ret w2].
    now destruct (ret =? 0).
  - intros vdevs Hv Hnew Hscat Hthere. rewrite Hm. cbv zeta.
    rewrite Hv, Hnew. cbn [negb].
    rewrite (append_vdevs_command mop vdevs w1 _ Hscat Hthere).
    cbn [Z.eqb negb].
    destruct (run_command _ PATH_MAX w1) as [ret w2].
    destruct (ret =? 0) eqn:E; cbn [negb]; cbv beta iota; rewrite ?E;
      cbn [negb]; [|reflexivity].
    change (zfs_mkfs_opts (set_pool_vdevs (Some []) mop) PATH_MAX)
      with (zfs_mkfs_opts mop PATH_MAX).
    fold zfs_create.
    destruct (run_command zfs_create PATH_MAX w2) as [ret2 w3].
    now destruct (ret2 =? 0).
Qed.

End Commands.

(** ** Bounded text and the library state *)

Section TextAndState.

Context {ext : Externals}.

Lemma truncate_length n : forall s,
  String.length (truncate n s) = Nat.min n (String.length s).
Proof.
  induction n as [|n IH]; intros s; [reflexivity|].
  destruct s as [|c s]; [reflexivity|].
  cbn [truncate String.length Nat.min]. now rewrite IH.
Qed.

Lemma truncate_prefix n : forall s, String.prefix (truncate n s) s = true.
Proof.
  induction n as [|n IH]; intros s; [apply CStrFacts.prefix_nil|].
  destruct s as [|c s]; [reflexivity|].
  cbn [truncate String.prefix]. destruct (ascii_dec c c); [apply IH|congruence].
Qed.

Lemma truncate_fits n : forall s,
  (String.length s <= n)%nat -> truncate n s = s.
Proof.
  induction n as [|n IH]; intros s H.
  - destruct s; [reflexivity|cbn in H; lia].
  - destruct s as [|c s]; [reflexivity|].
    cbn [truncate]. rewrite IH; [reflexivity|cbn in H; lia].
Qed.

(** X23: the option string [zfs_mkfs_opts] leaves in a buffer of [len]
    bytes has at most [len - 1] characters and is the start of " -o "
    followed by the mkfs options: empty without options, the whole text
    when that fits with its NUL, and else cut to [len - 1] characters. *)
Theorem zfs_mkfs_opts_text (len : Z) (mop : mkfs_opts) :
  1 <= len ->
  let opts := mo_mkfsopts mop in
  let str := zfs_mkfs_opts mop len in
  Z.of_nat (String.length str) <= len - 1 /\
  String.prefix str (" -o " ++ opts) = true /\
  (opts = EmptyString -> str = EmptyString) /\
  (opts <> EmptyString -> Z.of_nat (String.length opts) + 4 < len ->
   str = " -o " ++ opts) /\
  (opts <> EmptyString -> len <= Z.of_nat (String.length opts) + 4 ->
   Z.of_nat (String.length str) = len - 1).
Proof.
  intros Hlen opts str. subst opts str. unfold zfs_mkfs_opts, snprintf.
  destruct (mo_mkfsopts mop) as [|c s].
  - cbn [String.length Nat.eqb negb].
    repeat split; try (cbn; lia); intros H; now contradiction H.
  - change (negb (Nat.eqb (String.length (String c s)) 0)) with true.
    cbv iota. set (text := " -o " ++ String c s).
    assert (Hl : String.length text = (4 + String.length (String c s))%nat)
      by reflexivity.
    repeat split.
    + rewrite truncate_length. lia.
    + apply truncate_prefix.
    + discriminate.
    + intros _ H. apply truncate_fits. lia.
    + intros _ H. rewrite truncate_length. lia.
Qed.

Lemma zfs_init_cases w :
  (libzfs_init w = true /\
   zfs_init w = (0, set_setup 1 (set_g_zfs true w))) \/
  (libzfs_init w = false /\
   exists ret w2,
     system "/sbin/modprobe -q zfs" (set_g_zfs false w) = (ret, w2) /\
     ((ret = 0 /\ libzfs_init w2 = true /\
       zfs_init w = (0, set_setup 1 (set_g_zfs true w2))) \/
      (ret = 0 /\ libzfs_init w2 = false /\
       zfs_init w
       = (EINVAL, emit [MSG_init_failed EINVAL] (set_g_zfs false w2))) \/
      (ret <> 0 /\ zfs_init w = (ret, emit [MSG_init_failed ret] w2)))).
Proof.
  unfold zfs_init. cbn [g_zfs set_g_zfs].
  destruct (libzfs_init w) eqn:E1; cbn [negb]; [left; now split|].
  right. split; [reflexivity|].
  destruct (system "/sbin/modprobe -q zfs" (set_g_zfs false w)) as [ret w2].
  exists ret, w2. split; [reflexivity|].
  destruct (Z.eqb_spec ret 0) as [->|Hret].
  - cbn [g_zfs set_g_zfs].
    destruct (libzfs_init w2) eqn:E2; cbn [negb Z.eqb]; [left|right; left];
      now repeat split.
  - right. right. split; [exact Hret|].
    apply Z.eqb_neq in Hret. now rewrite Hret.
Qed.

(** X24: [zfs_init] returns 0 exactly when [libzfs_init] gives a handle
    at once, or gives one after a modprobe that returned 0; a call that
    returned 0 has raised the ready flag and holds a handle; a call that
    did not has left the flag as the commands it ran left it.  After
    [zfs_fini] the flag is down and the handle gone, a second [zfs_fini]
    changes nothing, and a read is refused with [EINVAL]. *)
Theorem zfs_init_fini_lifecycle (w : world) :
  let modprobe := system "/sbin/modprobe -q zfs" (set_g_zfs false w) in
  (fst (zfs_init w) = 0 <->
   libzfs_init w = true \/
   (libzfs_init w = false /\ fst modprobe = 0 /\
    libzfs_init (snd modprobe) = true)) /\
  (fst (zfs_init w) = 0 ->
   osd_zfs_setup (snd (zfs_init w)) = 1 /\ g_zfs (snd (zfs_init w)) = true) /\
  ((forall cmd w0, osd_zfs_setup (snd (system cmd w0)) = osd_zfs_setup w0) ->
   fst (zfs_init w) <> 0 ->
   osd_zfs_setup (snd (zfs_init w)) = osd_zfs_setup w) /\
  osd_zfs_setup (zfs_fini w) = 0 /\
  g_zfs (zfs_fini w) = false /\
  zfs_fini (zfs_fini w) = zfs_fini w /\
  (forall ds ldd, fst (fst (zfs_read_ldd (zfs_fini w) ds ldd)) = EINVAL).
Proof.
  intros modprobe. subst modprobe.
  assert (Hfini : osd_zfs_setup (zfs_fini w) = 0 /\
                  g_zfs (zfs_fini w) = false /\
                  zfs_fini (zfs_fini w) = zfs_fini w /\
                  (forall ds ldd,
                      fst (fst (zfs_read_ldd (zfs_fini w) ds ldd)) = EINVAL)).
  { unfold zfs_fini. destruct w as [s g d p h sp et se].
    destruct g; cbn; repeat split. }
  split; [|split; [|split; [|exact Hfini]]]; clear Hfini.
  - destruct (zfs_init_cases w)
      as [(E1 & ->)|(E1 & ret & w2 & Es & [(-> & E2 & ->)|[(-> & E2 & ->)|(Hr & ->)]])];
      rewrite ?Es; cbn [fst snd]; split; auto;
      try discriminate; try (intros H; now contradiction H).
    + intros [H|(_ & _ & H)]; congruence.
    + intros [H|(_ & H & _)]; [congruence|contradiction].
  - destruct (zfs_init_cases w)
      as [(E1 & ->)|(E1 & ret & w2 & Es & [(-> & E2 & ->)|[(-> & E2 & ->)|(Hr & ->)]])];
      cbn [fst snd]; try (intros _; now split); try discriminate.
    intros H. contradiction.
  - intros Hsys.
    destruct (zfs_init_cases w)
      as [(E1 & ->)|(E1 & ret & w2 & Es & [(-> & E2 & ->)|[(-> & E2 & ->)|(Hr & ->)]])];
      cbn [fst snd]; try (intros H; now contradiction H);
      intros _; cbn [osd_zfs_setup emit set_g_zfs];
      pose proof (Hsys "/sbin/modprobe -q zfs" (set_g_zfs false w)) as H;
      rewrite Es in H; exact H.
Qed.

End TextAndState.

(** ** A write that fails half way *)

Section NoRollback.

Context {ext : Externals}.

(** What the setter of a table entry comes down to. *)
Lemma zlpb_set_prop_fn_value b w zhp ldd :
  zlpb_set_prop_fn b w zhp ldd =
    match bridge_value ldd b with
    | Some v => zfs_prop_set w zhp (zlpb_prop_name b) v
    | None => (0, w)
    end.
Proof.
  unfold zlpb_set_prop_fn, bridge_value, zfs_set_prop_int, zfs_set_prop_str.
  destruct (zlpb_ldd_offset b) as [get put|get put]; [reflexivity|].
  destruct (get ldd) as [|c s]; [reflexivity|].
  change (String.eqb (String c s) EmptyString) with false. cbv iota.
  assert (Hlen : (0 <? Z.of_nat (String.length (String c s))) = true)
    by (apply Z.ltb_lt; cbn [String.length]; lia).
  now rewrite Hlen.
Qed.

(** The loop over the table up to the first entry the store refuses. *)
Lemma write_special_props_upto ldd b post v e zhp type pre : forall w l,
  (forall w' b0 v0,
      In b0 pre -> bridge_value ldd b0 = Some v0 ->
      zfs_prop_set_errno w' zhp (zlpb_prop_name b0) v0 = 0) ->
  bridge_value ldd b = Some v ->
  (forall w', zfs_prop_set_errno w' zhp (zlpb_prop_name b) v = e) ->
  e <> 0 ->
  find_dataset (w_datasets w) zhp = Some (a_dataset type l) ->
  exists ds',
    write_special_props w zhp ldd (pre ++ b :: post) = (e, set_datasets ds' w) /\
    find_dataset ds' zhp
    = Some (a_dataset type (nvlist_puts l (bridge_writes ldd pre))).
Proof.
  induction pre as [|b0 pre IH]; intros w l Hpre Hv He Hne Hd.
  - exists (w_datasets w). rewrite set_datasets_same.
    cbn [app write_special_props bridge_writes nvlist_puts].
    rewrite zlpb_set_prop_fn_value, Hv. unfold zfs_prop_set. rewrite He.
    apply Z.eqb_neq in Hne. rewrite Hne. cbv beta iota. rewrite Hne.
    cbn [negb]. now split.
  - cbn [app write_special_props bridge_writes].
    rewrite zlpb_set_prop_fn_value.
    assert (Hpre' : forall w' b1 v1,
               In b1 pre -> bridge_value ldd b1 = Some v1 ->
               zfs_prop_set_errno w' zhp (zlpb_prop_name b1) v1 = 0)
      by (intros w' b1 v1 Hin; apply Hpre; now right).
    destruct (bridge_value ldd b0) as [v0|] eqn:Hv0.
    + destruct (zfs_prop_set_world w zhp (zlpb_prop_name b0) v0 type l
                  (Hpre _ _ _ (or_introl eq_refl) Hv0) Hd) as (ds1 & E1 & F1).
      rewrite E1. cbn [Z.eqb negb nvlist_puts].
      destruct (IH (set_datasets ds1 w) _ Hpre' Hv He Hne F1) as (ds' & E & F).
      exists ds'. now rewrite E.
    + cbn [Z.eqb negb]. apply (IH w l Hpre' Hv He Hne Hd).
Qed.

(** X25: [zfs_write_ldd] does not undo what it has written: when the
    store refuses the value of one table entry and accepts the entries
    before it, the call returns the code of the refusal with the handle
    closed, whatever the fuel; the dataset then holds the old properties
    with the values of the entries before the refused one put in table
    order, and neither a later entry nor a parameter. *)
Theorem zfs_write_ldd_no_rollback (fuel : nat) (w : world) (mop : mkfs_opts)
    (l0 : nvlist) (pre post : list zfs_ldd_prop_bridge)
    (b : zfs_ldd_prop_bridge) (v : string) (e : Z) :
  osd_zfs_setup w = 1 ->
  find_dataset (w_datasets w) (mo_device mop)
  = Some (a_dataset ZFS_TYPE_FILESYSTEM l0) ->
  fst (zfs_check_hostid w mop) = 0 ->
  special_ldd_prop_params = (pre ++ b :: post)%list ->
  bridge_value (mo_ldd mop) b = Some v ->
  (forall w' b0 v0,
      In b0 pre -> bridge_value (mo_ldd mop) b0 = Some v0 ->
      zfs_prop_set_errno w' (mo_device mop) (zlpb_prop_name b0) v0 = 0) ->
  (forall w', zfs_prop_set_errno w' (mo_device mop) (zlpb_prop_name b) v = e) ->
  e <> 0 ->
  exists w',
    zfs_write_ldd fuel w mop = Returns e w' /\
    w_handles w' = w_handles w /\
    find_dataset (w_datasets w') (mo_device mop)
    = Some (a_dataset ZFS_TYPE_FILESYSTEM
              (nvlist_puts l0 (bridge_writes (mo_ldd mop) pre))).
Proof.
  intros Hs Hd Hc Htbl Hv Hpre He Hne. unfold zfs_write_ldd.
  rewrite (osd_check_zfs_setup_ready _ Hs). cbn [negb].
  rewrite (zfs_open_found w _ _ ZFS_TYPE_FILESYSTEM Hd eq_refl).
  set (w1 := set_handles (mo_device mop :: w_handles w) w).
  pose proof (zfs_check_hostid_code_handles (mo_device mop :: w_handles w) w mop)
    as Hc1. fold w1 in Hc1. rewrite Hc in Hc1.
  destruct (zfs_check_hostid_emits w1 mop) as [msgs Hw2].
  destruct (zfs_check_hostid w1 mop) as [ret w2]. cbn [fst snd] in *.
  subst ret w2. cbn [Z.eqb negb]. rewrite Htbl.
  destruct (write_special_props_upto (mo_ldd mop) b post v e (mo_device mop)
              ZFS_TYPE_FILESYSTEM pre (emit msgs w1) l0 Hpre Hv He Hne Hd)
    as (ds3 & E3 & F3).
  rewrite E3. apply Z.eqb_neq in Hne. rewrite Hne. cbn [negb].
  eexists. split; [reflexivity|]. split.
  - unfold zfs_close. cbn [w_handles set_handles set_datasets emit w1].
    apply remove_handle_head.
  - cbn [w_datasets zfs_close set_handles set_datasets]. exact F3.
Qed.

End NoRollback.

(** ** A vdev that cannot be made *)

Section VdevFailure.

Context {ext : Externals}.

(** The loop over the vdevs up to the first one that fails. *)
Lemma append_vdevs_stops mop vdev post w pre : forall mkfs_cmd,
  (forall dst src, strscat dst src PATH_MAX = Some (dst ++ src)) ->
  forallb (vdev_is_there w) pre = true ->
  fst (zfs_create_vdev w mop vdev) <> 0 ->
  append_vdevs w mop mkfs_cmd (pre ++ vdev :: post)
  = Some (fst (zfs_create_vdev w mop vdev),
          mkfs_cmd ++ vdev_args pre ++ " " ++ vdev,
          vdev :: post,
          snd (zfs_create_vdev w mop vdev)).
Proof.
  induction pre as [|v0 pre IH]; intros mkfs_cmd Hs Hv Hfail.
  - cbn [app append_vdevs vdev_args]. rewrite !Hs.
    destruct (zfs_create_vdev w mop vdev) as [ret w']. cbn [fst snd] in *.
    apply Z.eqb_neq in Hfail. rewrite Hfail. cbn [negb].
    now rewrite !append_assoc3.
  - cbn [forallb] in Hv. apply andb_prop in Hv as [Hv1 Hv2].
    cbn [app append_vdevs vdev_args]. rewrite !Hs.
    rewrite (zfs_create_vdev_there w mop v0 Hv1). cbn [Z.eqb negb].
    rewrite (IH _ Hs Hv2 Hfail). now rewrite !append_assoc3.
Qed.

(** X26: when the pool is to be made and [zfs_create_vdev] fails for a
    vdev, after vdevs that needed no file, [zfs_make_lustre] returns the
    code of that failure in the world [zfs_create_vdev] left: neither
    zpool create nor zfs create is run, and [mo_pool_vdevs] is left
    pointing at the vdev that failed. *)
Theorem zfs_make_lustre_vdev_failure (w : world) (mop : mkfs_opts)
    (pool rest vdev : string) (pre post : list string) :
  osd_zfs_setup w = 1 ->
  Z.land (ldd_flags (mo_ldd mop)) LDD_F_NEED_INDEX = 0 ->
  fst (zfs_check_hostid w mop) = 0 ->
  Z.land (mo_flags mop) MO_FORCEFORMAT = 0 ->
  mo_device mop = pool ++ String "/" rest ->
  lacks "/" pool = true ->
  mo_pool_vdevs mop = Some (pre ++ vdev :: post)%list ->
  existsb (String.eqb pool) (w_pools w) = false ->
  (forall dst src, strscat dst src PATH_MAX = Some (dst ++ src)) ->
  let w1 := snd (zfs_check_hostid w mop) in
  forallb (vdev_is_there w1) pre = true ->
  fst (zfs_create_vdev w1 mop vdev) <> 0 ->
  zfs_make_lustre w mop
  = Some (fst (zfs_create_vdev w1 mop vdev),
          set_pool_vdevs (Some (vdev :: post)) mop,
          snd (zfs_create_vdev w1 mop vdev)).
Proof.
  intros Hs Hidx Hc Hff Hdev Hpool Hv Hnew Hscat w1 Hthere Hfail.
  destruct (cut_at_pool pool rest Hpool) as [Hcut Hchr].
  assert (Hpools : w_pools w1 = w_pools w).
  { subst w1. destruct (zfs_check_hostid_emits w mop) as [msgs ->].
    reflexivity. }
  unfold zfs_make_lustre.
  rewrite (osd_check_zfs_setup_ready _ Hs). cbn [negb].
  unfold flag_set. rewrite Hidx, Hff. cbn [Z.eqb negb].
  subst w1. destruct (zfs_check_hostid w mop) as [ret w1].
  cbn [fst snd] in *. subst ret. cbn [Z.eqb negb].
  rewrite Hdev, Hchr, Hcut. cbn [negb]. rewrite Hpools, Hv, Hnew. cbn [negb].
  rewrite (append_vdevs_stops mop vdev post w1 pre _ Hscat Hthere Hfail).
  apply Z.eqb_neq in Hfail. cbv beta iota zeta. rewrite Hfail. cbn [negb].
  cbv beta iota. rewrite Hfail. reflexivity.
Qed.

End VdevFailure.

(** From here on the collaborators are those of [host_ext]. *)
#[local] Existing Instance host_ext.

(** C3 (as stated) fails: with the flag at 0, [zfs_enable_quota] returns
    [ENOSYS] and [zfs_is_lustre] returns 0, neither of them [EINVAL]. *)
Lemma not_ready_not_always_einval :
  let w := set_setup 0 (demo_world None) in
  osd_zfs_setup w = 0 /\
  fst (zfs_enable_quota w (demo_mkfs_opts "" 0)) <> EINVAL /\
  fst (fst (zfs_is_lustre w "pool/ost0" 7 (demo_ldd ""))) <> EINVAL.
Proof.
  split; [reflexivity|].
  split; intros H; vm_compute in H; discriminate H.
Qed.

(** ** The theorems at concrete inputs *)

Lemma not_ready_entry_points_witness :
  let w := set_setup 0 (demo_world None) in
  let ready := demo_world None in
  osd_zfs_setup w = 0 /\
  zfs_write_ldd 5 w (demo_mkfs_opts "" 0)
  = Returns EINVAL (emit [FATAL; MSG_init_not_done] w) /\
  osd_zfs_setup ready = 1 /\
  fst (zfs_enable_quota w (demo_mkfs_opts "" 0)) = ENOSYS /\
  fst (zfs_enable_quota ready (demo_mkfs_opts "" 0)) = ENOSYS.
Proof.
  split; [reflexivity|]. split.
  - exact (proj1 (proj1 (@not_ready_entry_points host_ext
                           (set_setup 0 (demo_world None))) eq_refl)
             5%nat (demo_mkfs_opts "" 0)).
  - split; [reflexivity|]. split.
    + exact (f_equal fst
               (proj2 (@not_ready_entry_points host_ext
                         (set_setup 0 (demo_world None)))
                  (demo_mkfs_opts "" 0))).
    + exact (f_equal fst
               (proj2 (@not_ready_entry_points host_ext (demo_world None))
                  (demo_mkfs_opts "" 0))).
Defined.

Lemma zfs_int_accessor_roundtrip_witness :
  let w := demo_world (Some []) in
  0 <= 4294967295 < 2 ^ 32 /\
  find_dataset (w_datasets w) "pool/ost0"
  = Some {| ds_type := ZFS_TYPE_FILESYSTEM; ds_user_props := Some [] |} /\
  fst (zfs_set_prop_int w "pool/ost0" LDD_FLAGS_PROP 4294967295) = 0 /\
  zfs_get_prop_int
    (snd (zfs_set_prop_int w "pool/ost0" LDD_FLAGS_PROP 4294967295))
    "pool/ost0" LDD_FLAGS_PROP 0
  = (0, 4294967295).
Proof.
  assert (Hr : 0 <= 4294967295 < 2 ^ 32) by (split; [discriminate|reflexivity]).
  split; [exact Hr|]. split; [reflexivity|]. split; [reflexivity|].
  exact (proj1 (@zfs_int_accessor_roundtrip host_ext (demo_world (Some []))
                  "pool/ost0" LDD_FLAGS_PROP _ 4294967295 0 Hr eq_refl eq_refl)).
Defined.

Lemma zfs_set_prop_str_policy_witness :
  let w := demo_world (Some []) in
  find_dataset (w_datasets w) "pool/ost0"
  = Some {| ds_type := ZFS_TYPE_FILESYSTEM; ds_user_props := Some [] |} /\
  "lustre-OST0003" <> EmptyString /\
  fst (zfs_set_prop_str w "pool/ost0" LDD_SVNAME_PROP
         (Some "lustre-OST0003")) = 0 /\
  zfs_get_prop_str
    (snd (zfs_set_prop_str w "pool/ost0" LDD_SVNAME_PROP
            (Some "lustre-OST0003")))
    "pool/ost0" LDD_SVNAME_PROP "old"
  = (0, "lustre-OST0003").
Proof.
  assert (Hne : "lustre-OST0003" <> EmptyString) by discriminate.
  split; [reflexivity|]. split; [exact Hne|]. split; [reflexivity|].
  exact (proj2 (proj2 (proj2
           (@zfs_set_prop_str_policy host_ext (demo_world (Some []))
              "pool/ost0" LDD_SVNAME_PROP)))
         _ "lustre-OST0003" "old" eq_refl Hne eq_refl).
Defined.

Lemma params_codec_example_witness :
  let w := demo_world (Some []) in
  find_dataset (w_datasets w) "pool/ost0"
  = Some {| ds_type := ZFS_TYPE_FILESYSTEM; ds_user_props := Some [] |} /\
  (forall w' prop value,
      zfs_prop_set_errno w' "pool/ost0" prop value = 0) /\
  (forall buf key val, exists pre post,
      add_param buf key val = (0, buf ++ pre ++ key ++ val ++ post)) /\
  exists w2,
    zfs_set_prop_params 3 w "pool/ost0" "opt1=a opt2=b" = Returns 0 w2 /\
    zfs_get_user_props w2 "pool/ost0"
    = Some [("lustre:opt1", Some "a"); ("lustre:opt2", Some "b")].
Proof.
  assert (Hadd : forall buf key val, exists pre post,
             add_param buf key val
             = (0, buf ++ pre ++ key ++ val ++ post)).
  { intros buf key val. exists EmptyString, " ". reflexivity. }
  split; [reflexivity|]. split; [reflexivity|]. split; [exact Hadd|].
  eexists. 
  pose proof (@params_codec_example host_ext (demo_world (Some []))
                "pool/ost0" _ 0%nat eq_refl (fun _ _ _ => eq_refl) Hadd) as H.
  cbv zeta in H. destruct H as (H1 & H2 & _).
  split; [exact H1|exact H2].
Defined.

Lemma zfs_check_hostid_policy_witness :
  let w := demo_world None in
  let mop := demo_mkfs_opts "failnode=1" 0 in
  CStr.strstr (ldd_params (mo_ldd mop)) PARAM_FAILNODE = true /\
  w_spl_hostid w = SplScanned 1 0 /\
  etc_hostid_gives_zero w = true /\
  Z.land (mo_flags mop) MO_NOHOSTID_CHECK = 0 /\
  Z.land (mo_flags (demo_mkfs_opts "failnode=1" 256)) MO_NOHOSTID_CHECK <> 0 /\
  fst (zfs_check_hostid w mop) = EINVAL /\
  fst (zfs_check_hostid w (demo_mkfs_opts "failnode=1" 256)) = 0.
Proof.
  assert (Hset : Z.land (mo_flags (demo_mkfs_opts "failnode=1" 256))
                        MO_NOHOSTID_CHECK <> 0) by discriminate.
  split; [reflexivity|]. split; [reflexivity|]. split; [reflexivity|].
  split; [reflexivity|]. split; [exact Hset|].
  split.
  - destruct (proj2 (@zfs_check_hostid_policy host_ext (demo_world None)
                       (demo_mkfs_opts "failnode=1" 0)) eq_refl eq_refl eq_refl)
      as (pre & _ & H & _).
    rewrite (H eq_refl). reflexivity.
  - destruct (proj2 (@zfs_check_hostid_policy host_ext (demo_world None)
                       (demo_mkfs_opts "failnode=1" 256)) eq_refl eq_refl eq_refl)
      as (pre & _ & _ & H).
    rewrite (H Hset). reflexivity.
Defined.

(** The getters on a dataset whose properties are all well formed. *)
Lemma demo_codes_tolerated ds :
  let w := demo_world (Some [ ("lustre:version", Some "1");
                              ("lustre:svname", Some "lustre-OST0003");
                              ("lustre:opt1", Some "a") ]) in
  ds = "pool/ost0" \/ ds = "pool/ost0@snap" ->
  (forall b, In b special_ldd_prop_params ->
             tolerated (bridge_code w ds (demo_ldd "") b)) /\
  tolerated (bulk_code w ds (demo_ldd "")).
Proof.
  intros w [-> | ->]; (split; [|now left]); intros b Hin;
    repeat (destruct Hin as [<-|Hin]; [vm_compute; auto|]); destruct Hin.
Qed.

Lemma zfs_read_ldd_not_found_is_not_fatal_witness :
  let w := demo_world (Some [("lustre:version", Some "99999999999999999999999")]) in
  let w' := demo_world (Some [ ("lustre:version", Some "1");
                               ("lustre:svname", Some "lustre-OST0003");
                               ("lustre:opt1", Some "a") ]) in
  osd_zfs_setup w = 1 /\
  find_dataset (w_datasets w) "pool/ost0"
  = Some {| ds_type := ZFS_TYPE_FILESYSTEM;
            ds_user_props :=
              Some [("lustre:version", Some "99999999999999999999999")] |} /\
  fst (fst (zfs_read_ldd w "pool/ost0" (demo_ldd ""))) = ERANGE /\
  fst (fst (zfs_read_ldd w' "pool/ost0" (demo_ldd ""))) = 0 /\
  ldd_mount_type (snd (fst (zfs_read_ldd w' "pool/ost0" (demo_ldd "")))) = LDD_MT_ZFS.
Proof.
  intros w w'. split; [reflexivity|]. split; [reflexivity|]. split.
  - pose proof (zfs_read_ldd_not_found_is_not_fatal w "pool/ost0" _ (demo_ldd "")
                  eq_refl eq_refl (or_introl eq_refl)) as H.
    cbv zeta in H. destruct H as (_ & Hb & _).
    refine (Hb [] (ZLB_INIT_int LDD_VERSION_PROP ldd_config_ver Ldd.put_config_ver)
               _ eq_refl _ _).
    + intros b' [].
    + intros [H|H]; discriminate H.
  - pose proof (zfs_read_ldd_not_found_is_not_fatal w' "pool/ost0" _ (demo_ldd "")
                  eq_refl eq_refl (or_introl eq_refl)) as H.
    cbv zeta in H. destruct H as (Ha & _ & _).
    destruct (demo_codes_tolerated "pool/ost0" (or_introl eq_refl)) as [Hb Hp].
    exact (Ha Hb Hp).
Defined.

Lemma zfs_read_ldd_snapshot_fallback_witness :
  let w := demo_world (Some [ ("lustre:version", Some "1");
                              ("lustre:svname", Some "lustre-OST0003");
                              ("lustre:opt1", Some "a") ]) in
  osd_zfs_setup w = 1 /\
  fst (zfs_open w "pool/ost0@snap" ZFS_TYPE_FILESYSTEM) = None /\
  fst (zfs_open w "pool/ost0@snap" ZFS_TYPE_SNAPSHOT) = Some "pool/ost0@snap" /\
  fst (fst (zfs_read_ldd w "pool/ost0@snap" (demo_ldd ""))) = 0 /\
  ldd_mount_type (snd (fst (zfs_read_ldd w "pool/ost0@snap" (demo_ldd ""))))
  = LDD_MT_ZFS.
Proof.
  intros w. split; [reflexivity|].
  destruct (proj2 (proj2 (zfs_read_ldd_snapshot_fallback w "pool/ost0@snap"
                            (demo_ldd "") eq_refl))
              _ eq_refl eq_refl) as (H1 & H2 & H3).
  split; [exact H1|]. split; [exact H2|].
  destruct (demo_codes_tolerated "pool/ost0@snap" (or_intror eq_refl)) as [Hb Hp].
  exact (H3 Hb Hp).
Defined.

(** ** The code on examples *)

(** A write, then a read into a record of zeroes: every field comes back,
    the parameters in the form [add_param_spec] gives them. *)
Example write_then_read :
  exists w',
    zfs_write_ldd 4 (demo_world (Some [])) (demo_mkfs_opts "opt1=a opt2=b" 0)
    = Returns 0 w' /\
    zfs_get_user_props w' "pool/ost0"
    = Some [ ("lustre:version", Some "1"); ("lustre:flags", Some "2");
             ("lustre:index", Some "3"); ("lustre:fsname", Some "lustre");
             ("lustre:svname", Some "lustre-OST0003");
             ("lustre:opt1", Some "a"); ("lustre:opt2", Some "b") ] /\
    zfs_read_ldd w' "pool/ost0" zero_ldd
    = (0, Ldd.put_mount_type LDD_MT_ZFS (demo_ldd "opt1=a opt2=b "), w').
Proof. eexists. repeat split. Qed.

(** The field value 2^31 is stored with a minus sign. *)
Example high_bit_is_stored_negative :
  zfs_get_user_props
    (snd (zfs_set_prop_int (demo_world (Some [])) "pool/ost0" LDD_FLAGS_PROP
            2147483648))
    "pool/ost0"
  = Some [("lustre:flags", Some "-2147483648")].
Proof. reflexivity. Qed.

(** [strtoul]: sign and junk, no digits, and a magnitude of 2^64. *)
Example strtoul10_cases :
  Dec.strtoul10 "  -12abc" = (2 ^ 64 - 12, 0) /\
  Dec.strtoul10 "abc" = (0, 0) /\
  Dec.strtoul10 "18446744073709551616" = (Dec.ULONG_MAX, ERANGE).
Proof. repeat split. Qed.

(** Tokens with a second '=' and with doubled blanks are written; the
    token "=z", a value without a key, then holds the loop. *)
Example tokens_then_malformed (fuel : nat) :
  exists w',
    zfs_set_prop_params (3 + fuel) (demo_world (Some [])) "pool/ost0"
                        "a=b=c  x==y  =z" = Spins w' /\
    zfs_get_user_props w' "pool/ost0"
    = Some [("lustre:a", Some "b"); ("lustre:x", Some "y")].
Proof.
  eexists. split.
  - unfold zfs_set_prop_params.
    change (CStr.strtok_r "a=b=c  x==y  =z" " ") with (Some "a=b=c", " x==y  =z").
    cbv beta iota zeta. change (3 + fuel)%nat with (S (S (S fuel))).
    rewrite (set_params_loop_pair _ _ _ "a=b=c" _ _ "a" "b=c" "b") by reflexivity.
    rewrite zfs_prop_set_ok by reflexivity. cbn [Z.eqb negb].
    change (CStr.strtok_r " x==y  =z" " ") with (Some "x==y", " =z").
    cbv beta iota zeta.
    rewrite (set_params_loop_pair _ _ _ "x==y" _ _ "x" "=y" "y") by reflexivity.
    rewrite zfs_prop_set_ok by reflexivity. cbn [Z.eqb negb].
    change (CStr.strtok_r " =z" " ") with (Some "=z", "").
    cbv beta iota zeta.
    apply set_params_loop_malformed. right. reflexivity.
  - reflexivity.
Qed.

(** The failover-node option without a host id: with [MO_NOHOSTID_CHECK]
    the write goes through after the warning, and closes its handle. *)
Example write_with_nohostid_check :
  exists w',
    zfs_write_ldd 3 (demo_world (Some [])) (demo_mkfs_opts "failnode=1" 256)
    = Returns 0 w' /\
    w_stderr w' = [MSG_warn_no_hostid] /\
    w_handles w' = [] /\
    nvlist_find (match zfs_get_user_props w' "pool/ost0" with
                 | Some l => l
                 | None => []
                 end) "lustre:failnode" = Some (Some "1").
Proof. eexists. repeat split. Qed.

(** ** The further theorems at concrete inputs *)

Lemma host_store_accepts (zhp : string) :
  forall (w' : world) (prop value : string),
    zfs_prop_set_errno w' zhp prop value = 0.
Proof. reflexivity. Defined.

Lemma host_add_param_succeeds :
  forall buf key val : string, fst (add_param buf key val) = 0.
Proof. reflexivity. Defined.

Lemma host_strscat_appends :
  forall dst src : string, strscat dst src PATH_MAX = Some (dst ++ src).
Proof. reflexivity. Defined.

Lemma zfs_set_prop_params_stores_pairs_witness :
  let w := demo_world (Some []) in
  let kvs := [("opt1", "a"); ("opt2", "b"); ("opt1", "c")] in
  forallb is_pair kvs = true /\
  (forall w' prop value, zfs_prop_set_errno w' "pool/ost0" prop value = 0) /\
  exists w',
    zfs_set_prop_params 4 w "pool/ost0" "opt1=a opt2=b opt1=c" = Returns 0 w' /\
    zfs_get_user_props w' "pool/ost0"
    = Some [("lustre:opt1", Some "c"); ("lustre:opt2", Some "b")] /\
    zfs_get_prop_str w' "pool/ost0" "lustre:opt1" "" = (0, "c").
Proof.
  intros w kvs. split; [reflexivity|]. split; [reflexivity|].
  assert (Hfuel : (List.length kvs < 4)%nat) by (cbn; lia).
  destruct (@zfs_set_prop_params_stores_pairs host_ext kvs 4 w "pool/ost0" _ []
              eq_refl Hfuel (host_store_accepts _) eq_refl eq_refl)
    as (w' & H1 & H2 & H3).
  exists w'. split; [exact H1|]. split; [exact H2|].
  exact (H3 "opt1" "c" "" eq_refl).
Defined.

Lemma zfs_set_prop_params_stops_at_failure_witness :
  let w := demo_world (Some []) in
  fst (zfs_prop_set (ext := strict_ext) w "pool/ost0" "lustre:opt2" "refused")
  <> 0 /\
  zfs_set_prop_params (ext := strict_ext) 2 w "pool/ost0"
    "opt1=a opt2=refused opt3=c"
  = Returns EINVAL
      (snd (zfs_prop_set (ext := strict_ext) w "pool/ost0" "lustre:opt1" "a")).
Proof.
  intros w.
  assert (Hfail : fst (zfs_prop_set (ext := strict_ext) w "pool/ost0"
                         "lustre:opt2" "refused") <> 0) by discriminate.
  split; [exact Hfail|].
  assert (Hfuel : (List.length [("opt1", "a")] < 2)%nat) by (cbn; lia).
  apply (@zfs_set_prop_params_stops_at_failure strict_ext
           [("opt1", "a")] [("opt3", "c")] ("opt2", "refused") 2 w "pool/ost0"
           eq_refl Hfuel eq_refl).
  discriminate.
Defined.

Lemma zfs_set_prop_params_second_equals_witness :
  let w := demo_world (Some []) in
  is_word "a" = true /\ is_word "b" = true /\ lacks " " "c=d" = true /\
  zfs_set_prop_params 3 w "pool/ost0" "a=b=c=d x=y"
  = zfs_set_prop_params 3 w "pool/ost0" "a=b x=y" /\
  zfs_set_prop_params 3 w "pool/ost0" "a=b=c=d"
  = zfs_set_prop_params 3 w "pool/ost0" "a=b".
Proof.
  intros w. split; [reflexivity|]. split; [reflexivity|]. split; [reflexivity|].
  exact (@zfs_set_prop_params_second_equals host_ext "a" "b" "c=d" "x=y" 3 w "pool/ost0"
           eq_refl eq_refl eq_refl).
Defined.

Lemma zfs_set_prop_params_writes_then_spins_witness :
  let w := demo_world (Some []) in
  malformed "=z" /\
  zfs_set_prop_params 6 w "pool/ost0" "a=b =z x=y"
  = Spins (snd (zfs_prop_set w "pool/ost0" "lustre:a" "b")).
Proof.
  intros w.
  assert (Hbad : malformed "=z") by (right; reflexivity).
  split; [exact Hbad|].
  exact (@zfs_set_prop_params_writes_then_spins host_ext [("a", "b")] "=z x=y" "=z" "x=y"
           5 w "pool/ost0" eq_refl eq_refl eq_refl Hbad).
Defined.

Lemma four_names_distinct :
  NoDup ["lustre:version"; "lustre:opt1"; "other:x"; "lustre:opt2"].
Proof.
  repeat (constructor;
          [cbn; intros H;
           repeat (destruct H as [H|H]; [discriminate H|]); exact H|]).
  constructor.
Defined.

Lemma zfs_get_prop_params_filters_witness :
  let kvs := [ ("lustre:version", "1"); ("lustre:opt1", "a"); ("other:x", "y");
               ("lustre:opt2", "b") ] in
  let w := demo_world (Some (valued kvs)) in
  NoDup (map fst kvs) /\
  (forall buf key val, fst (add_param buf key val) = 0) /\
  (forall kv, In kv kvs -> Z.of_nat (String.length (snd kv)) < 4096) /\
  zfs_get_prop_params w "pool/ost0" "" (-1) = (ENOMEM, "") /\
  zfs_get_prop_params w "pool/ost0" "" 4096 = (0, "opt1=a opt2=b ").
Proof.
  intros kvs w.
  assert (Hneg : -1 < 0) by reflexivity.
  assert (Hpos : 0 < 4096) by reflexivity.
  assert (Hfit : forall kv, In kv kvs ->
                   Z.of_nat (String.length (snd kv)) < 4096).
  { intros kv Hin.
    repeat (destruct Hin as [<-|Hin]; [reflexivity|]). destruct Hin. }
  split; [exact four_names_distinct|]. split; [reflexivity|].
  split; [exact Hfit|]. split.
  - exact (proj1 (@zfs_get_prop_params_filters host_ext w "pool/ost0" "" (-1)
                    kvs eq_refl four_names_distinct host_add_param_succeeds)
             Hneg).
  - exact (proj2 (@zfs_get_prop_params_filters host_ext w "pool/ost0" "" 4096
                    kvs eq_refl four_names_distinct host_add_param_succeeds)
             Hpos Hfit).
Defined.

Lemma three_names_distinct :
  NoDup ["lustre:opt1"; "lustre:broken"; "lustre:opt2"].
Proof.
  repeat (constructor;
          [cbn; intros H;
           repeat (destruct H as [H|H]; [discriminate H|]); exact H|]).
  constructor.
Defined.

Lemma zfs_get_prop_params_valueless_witness :
  let w := demo_world (Some [ ("lustre:opt1", Some "a"); ("lustre:broken", None);
                              ("lustre:opt2", Some "b") ]) in
  0 < 4096 /\
  zfs_get_prop_params w "pool/ost0" "" 4096 = (ENOENT, "opt1=a ").
Proof.
  intros w.
  assert (Hpos : 0 < 4096) by reflexivity.
  assert (Hfit : forall kv, In kv [("lustre:opt1", "a")] ->
                   Z.of_nat (String.length (snd kv)) < 4096).
  { intros kv Hin.
    repeat (destruct Hin as [<-|Hin]; [reflexivity|]). destruct Hin. }
  split; [exact Hpos|].
  exact (@zfs_get_prop_params_valueless host_ext w "pool/ost0" "" "lustre:broken"
           4096 [("lustre:opt1", "a")] [("lustre:opt2", Some "b")] eq_refl
           three_names_distinct host_add_param_succeeds Hpos Hfit).
Defined.

Lemma two_keys_distinct : NoDup ["opt1"; "opt2"].
Proof.
  repeat (constructor;
          [cbn; intros H;
           repeat (destruct H as [H|H]; [discriminate H|]); exact H|]).
  constructor.
Defined.

Lemma demo_fields_fit :
  let ldd := demo_ldd "opt1=a opt2=b" in
  0 <= ldd_config_ver ldd < 2 ^ 32 /\
  0 <= ldd_flags ldd < 2 ^ 32 /\
  0 <= ldd_svindex ldd < 2 ^ 32.
Proof. cbn. repeat split; (discriminate || reflexivity). Defined.

Lemma zfs_write_then_read_witness :
  let w := demo_world (Some []) in
  let mop := demo_mkfs_opts "opt1=a opt2=b" 0 in
  osd_zfs_setup w = 1 /\
  fst (zfs_check_hostid w mop) = 0 /\
  ldd_params (mo_ldd mop) = params_blob [("opt1", "a"); ("opt2", "b")] /\
  exists w',
    zfs_write_ldd 3 w mop = Returns 0 w' /\
    zfs_get_prop_int w' "pool/ost0" LDD_INDEX_PROP 0 = (0, 3) /\
    zfs_get_prop_str w' "pool/ost0" LDD_SVNAME_PROP "" = (0, "lustre-OST0003") /\
    zfs_get_prop_str w' "pool/ost0" LDD_UUID_PROP "old" = (ENOENT, "old") /\
    exists order,
      Permutation order [("lustre:opt1", "a"); ("lustre:opt2", "b")] /\
      zfs_get_prop_params w' "pool/ost0" "" 4096 = (0, add_params "" order).
Proof.
  intros w mop. split; [reflexivity|]. split; [reflexivity|].
  split; [reflexivity|].
  assert (Hfuel : (List.length [("opt1", "a"); ("opt2", "b")] < 3)%nat)
    by (cbn; lia).
  assert (Hfit : forall b v, In b special_ldd_prop_params ->
                   bridge_value (mo_ldd mop) b = Some v ->
                   Z.of_nat (String.length v) < 4096).
  { intros b v Hin Hv.
    repeat (destruct Hin as [<-|Hin];
            [first [injection Hv as <-; reflexivity | discriminate Hv]|]).
    destruct Hin. }
  assert (Hfit' : forall kv, In kv [("opt1", "a"); ("opt2", "b")] ->
                    Z.of_nat (String.length (snd kv)) < 4096).
  { intros kv Hin.
    repeat (destruct Hin as [<-|Hin]; [reflexivity|]). destruct Hin. }
  destruct demo_fields_fit as (Hv & Hf & Hi).
  destruct (@zfs_write_then_read host_ext 3 w mop [("opt1", "a"); ("opt2", "b")]
              eq_refl eq_refl eq_refl (host_store_accepts _)
              host_add_param_succeeds Hv Hf Hi eq_refl eq_refl
              two_keys_distinct eq_refl Hfuel Hfit Hfit')
    as (w' & stored & H1 & H2 & H3).
  destruct (H3 w' stored H2 (Permutation_refl stored))
    as (Hint & Hstr & order & Hperm & Hbulk).
  exists w'. split; [exact H1|]. split.
  - exact (Hint (ZLB_INIT_int LDD_INDEX_PROP ldd_svindex Ldd.put_svindex)
             ldd_svindex Ldd.put_svindex 0
             (or_intror (or_intror (or_introl eq_refl))) eq_refl).
  - split.
    + exact (Hstr (ZLB_INIT_str LDD_SVNAME_PROP ldd_svname Ldd.put_svname)
               ldd_svname Ldd.put_svname ""
               (or_intror (or_intror (or_intror (or_intror (or_introl eq_refl)))))
               eq_refl).
    + split.
      * exact (Hstr (ZLB_INIT_str LDD_UUID_PROP ldd_uuid Ldd.put_uuid)
                 ldd_uuid Ldd.put_uuid "old"
                 (or_intror (or_intror (or_intror (or_intror
                    (or_intror (or_introl eq_refl)))))) eq_refl).
      * exists order. split; [exact Hperm|exact (Hbulk "")].
Defined.

Lemma zfs_write_ldd_keeps_stale_string_witness :
  let w := demo_world (Some [("lustre:uuid", Some "0123-4567")]) in
  let mop := demo_mkfs_opts "" 0 in
  ldd_uuid (mo_ldd mop) = EmptyString /\
  exists w',
    zfs_write_ldd 1 w mop = Returns 0 w' /\
    zfs_get_prop_str w' "pool/ost0" LDD_UUID_PROP "" = (0, "0123-4567").
Proof.
  intros w mop. split; [reflexivity|].
  assert (Hfuel : (List.length (@nil (string * string)) < 1)%nat) by (cbn; lia).
  assert (Hin : In (ZLB_INIT_str LDD_UUID_PROP ldd_uuid Ldd.put_uuid)
                   special_ldd_prop_params)
    by (do 5 right; left; reflexivity).
  exact (@zfs_write_ldd_keeps_stale_string host_ext 1 w mop [] _
           (ZLB_INIT_str LDD_UUID_PROP ldd_uuid Ldd.put_uuid)
           ldd_uuid Ldd.put_uuid "0123-4567" ""
           eq_refl eq_refl eq_refl (host_store_accepts _) eq_refl eq_refl
           eq_refl Hfuel Hin eq_refl eq_refl eq_refl).
Defined.

Lemma zfs_write_ldd_param_wins_witness :
  let w := demo_world (Some []) in
  let mop := demo_mkfs_opts "svname=other" 0 in
  ldd_svname (mo_ldd mop) = "lustre-OST0003" /\
  exists w',
    zfs_write_ldd 2 w mop = Returns 0 w' /\
    zfs_get_prop_str w' "pool/ost0" LDD_SVNAME_PROP "" = (0, "other").
Proof.
  intros w mop. split; [reflexivity|].
  assert (Hfuel : (List.length [("svname", "other")] < 2)%nat) by (cbn; lia).
  exact (@zfs_write_ldd_param_wins host_ext 2 w mop [("svname", "other")] _
           "svname" "other" ""
           eq_refl eq_refl eq_refl (host_store_accepts _) eq_refl eq_refl
           Hfuel eq_refl).
Defined.

Lemma zfs_get_prop_int_decimal_witness :
  let w := demo_world (Some [ ("lustre:flags", Some "4294967298");
                              ("lustre:index", Some "18446744073709551616") ]) in
  zfs_get_prop_int w "pool/ost0" LDD_FLAGS_PROP 7 = (0, 2) /\
  zfs_get_prop_int w "pool/ost0" LDD_INDEX_PROP 7 = (ERANGE, 4294967295).
Proof.
  intros w.
  assert (H1 : 0 <= 4294967298) by discriminate.
  assert (H2 : 0 <= 18446744073709551616) by discriminate.
  split.
  - exact (zfs_get_prop_int_decimal w "pool/ost0" LDD_FLAGS_PROP _
             4294967298 7 eq_refl eq_refl H1).
  - exact (zfs_get_prop_int_decimal w "pool/ost0" LDD_INDEX_PROP _
             18446744073709551616 7 eq_refl eq_refl H2).
Defined.

Lemma zfs_get_prop_int_not_a_number_witness :
  let w := demo_world (Some [("lustre:flags", Some "abc")]) in
  zfs_get_prop_int w "pool/ost0" LDD_FLAGS_PROP 7 = (0, 0).
Proof.
  intros w.
  exact (zfs_get_prop_int_not_a_number w "pool/ost0" LDD_FLAGS_PROP _ "abc" 7
           eq_refl eq_refl
           (conj eq_refl (conj eq_refl (conj eq_refl eq_refl)))).
Defined.

Lemma zfs_label_lustre_sets_svname_witness :
  let w := demo_world (Some [("lustre:fsname", Some "lustre")]) in
  let mnt := {| mo_source := "pool/ost0"; mnt_ldd := demo_ldd "" |} in
  osd_zfs_setup w = 1 /\
  ldd_svname (mnt_ldd mnt) <> EmptyString /\
  exists w',
    zfs_label_lustre w mnt = (0, w') /\
    zfs_get_prop_str w' "pool/ost0" LDD_SVNAME_PROP "" = (0, "lustre-OST0003") /\
    zfs_get_prop_str w' "pool/ost0" LDD_FSNAME_PROP "" = (0, "lustre").
Proof.
  intros w mnt.
  assert (Hne : ldd_svname (mnt_ldd mnt) <> EmptyString) by discriminate.
  assert (Hother : LDD_FSNAME_PROP <> LDD_SVNAME_PROP) by discriminate.
  split; [reflexivity|]. split; [exact Hne|].
  destruct (proj2 (@zfs_label_lustre_sets_svname host_ext w mnt _ eq_refl eq_refl)
              Hne (fun w0 => host_store_accepts _ w0 _ _)) as (w' & H1 & _ & H2 & H3).
  exists w'. split; [exact H1|]. split; [exact (H2 "")|].
  exact (eq_trans (H3 LDD_FSNAME_PROP "" Hother) eq_refl).
Defined.

Lemma handles_are_closed_witness :
  let w := demo_world (Some []) in
  let mop := demo_mkfs_opts "failnode=10.0.0.1@tcp opt1=a" 256 in
  CStr.strstr (ldd_params (mo_ldd mop)) PARAM_FAILNODE = true /\
  fst (zfs_check_hostid w mop) = 0 /\
  exists ret w',
    zfs_write_ldd 3 w mop = Returns ret w' /\ w_handles w' = w_handles w.
Proof.
  intros w mop.
  assert (Hchk : fst (zfs_check_hostid w mop) = 0) by reflexivity.
  split; [reflexivity|]. split; [exact Hchk|].
  eexists. eexists. split; [reflexivity|].
  exact (proj2 (proj2 (@handles_are_closed host_ext w "pool/ost0" zero_ldd
                         {| mo_source := "pool/ost0"; mnt_ldd := zero_ldd |}
                         3 mop))
           Hchk _ _ eq_refl).
Defined.


Lemma zfs_prepare_lustre_accepts_iff_witness :
  let w := demo_world (Some []) in
  let mop := demo_mkfs_opts "" 0 in
  fst (zfs_prepare_lustre w mop "" 0) = 0 /\
  snd (zfs_prepare_lustre w mop "" 0) = w.
Proof.
  intros w mop.
  assert (H0 : fst (zfs_prepare_lustre w mop "" 0) = 0) by reflexivity.
  split; [exact H0|].
  exact (proj2 (proj2 (@zfs_prepare_lustre_accepts_iff host_ext w mop "" 0)) H0).
Defined.

Lemma zfs_make_lustre_needs_prepare_witness :
  let w := demo_world (Some []) in
  let mop := demo_mkfs_opts "" 0 in
  let bare := {| mo_ldd := demo_ldd ""; mo_device := "pool"; mo_mkfsopts := "";
                 mo_pool_vdevs := None; mo_device_kb := 0; mo_flags := 0 |} in
  fst (zfs_prepare_lustre w mop "" 0) = 0 /\
  zfs_make_lustre w mop <> None /\
  CStr.strchr (mo_device bare) "/" = false /\
  zfs_make_lustre w bare = None.
Proof.
  intros w mop bare. split; [reflexivity|]. split.
  - exact (proj1 (@zfs_make_lustre_needs_prepare host_ext w mop "" 0) eq_refl
             (or_introl eq_refl)).
  - split; [reflexivity|].
    exact (proj2 (@zfs_make_lustre_needs_prepare host_ext w bare "" 0) eq_refl eq_refl
             eq_refl eq_refl).
Defined.

Lemma zfs_create_vdev_cases_witness :
  let w := demo_world (Some []) in
  let mop := demo_mkfs_opts "" 0 in
  vdev_is_there (ext := strict_ext) w "/dev/sdb" = true /\
  zfs_create_vdev (ext := strict_ext) w mop "/dev/sdb" = (0, w) /\
  zfs_create_vdev (ext := strict_ext) w mop "mirror" = (0, w) /\
  access_F_OK (Externals := strict_ext) w "/tmp/ost0.img" = ENOENT /\
  zfs_create_vdev (ext := strict_ext) w mop "/tmp/ost0.img"
  = (EINVAL, emit [FATAL; MSG_vdev_no_size] w).
Proof.
  intros w mop. split; [reflexivity|]. split.
  - exact (proj1 (@zfs_create_vdev_cases strict_ext w mop "/dev/sdb") eq_refl).
  - split.
    + exact (proj1 (@zfs_create_vdev_cases strict_ext w mop "mirror") eq_refl).
    + split; [reflexivity|].
      exact (proj1 (proj2 (@zfs_create_vdev_cases strict_ext w mop "/tmp/ost0.img")
                      eq_refl eq_refl) eq_refl).
Defined.

Lemma zfs_make_lustre_commands_witness :
  let w := demo_world (Some []) in
  let mop := {| mo_ldd := demo_ldd ""; mo_device := "tank/ost0";
                mo_mkfsopts := "recordsize=1M";
                mo_pool_vdevs := Some ["mirror"; "/dev/sda"; "/dev/sdb"];
                mo_device_kb := 0; mo_flags := 0 |} in
  existsb (String.eqb "tank") (w_pools w) = false /\
  existsb (String.eqb "pool") (w_pools w) = true /\
  zfs_make_lustre w mop = Some (0, set_pool_vdevs (Some []) mop, w) /\
  zfs_make_lustre w (demo_mkfs_opts "" 0) = Some (0, demo_mkfs_opts "" 0, w).
Proof.
  intros w mop. split; [reflexivity|]. split; [reflexivity|]. split.
  - exact (proj2 (@zfs_make_lustre_commands host_ext w mop "tank" "ost0"
                    eq_refl eq_refl eq_refl eq_refl eq_refl eq_refl)
             _ eq_refl eq_refl host_strscat_appends eq_refl).
  - exact (proj1 (@zfs_make_lustre_commands host_ext w (demo_mkfs_opts "" 0) "pool" "ost0"
                    eq_refl eq_refl eq_refl eq_refl eq_refl eq_refl)
             (or_introl eq_refl)).
Defined.

Lemma zfs_mkfs_opts_text_witness :
  let mop := {| mo_ldd := demo_ldd ""; mo_device := "pool/ost0";
                mo_mkfsopts := "recordsize=1M"; mo_pool_vdevs := None;
                mo_device_kb := 0; mo_flags := 0 |} in
  1 <= 4096 /\ 1 <= 8 /\
  zfs_mkfs_opts mop 4096 = " -o recordsize=1M" /\
  Z.of_nat (String.length (zfs_mkfs_opts mop 8)) = 7.
Proof.
  intros mop.
  assert (Hlen : 1 <= 4096) by discriminate.
  assert (Hlen' : 1 <= 8) by discriminate.
  assert (Hne : mo_mkfsopts mop <> EmptyString) by discriminate.
  assert (Hfits : Z.of_nat (String.length (mo_mkfsopts mop)) + 4 < 4096)
    by reflexivity.
  assert (Hcut : 8 <= Z.of_nat (String.length (mo_mkfsopts mop)) + 4)
    by discriminate.
  split; [exact Hlen|]. split; [exact Hlen'|]. split.
  - exact (proj1 (proj2 (proj2 (proj2 (zfs_mkfs_opts_text 4096 mop Hlen))))
             Hne Hfits).
  - exact (proj2 (proj2 (proj2 (proj2 (zfs_mkfs_opts_text 8 mop Hlen'))))
             Hne Hcut).
Defined.

Lemma zfs_init_fini_lifecycle_witness :
  let w := set_setup 0 (demo_world None) in
  fst (zfs_init w) = 0 /\
  osd_zfs_setup (snd (zfs_init w)) = 1 /\
  fst (zfs_init (ext := strict_ext) w) <> 0 /\
  osd_zfs_setup (snd (zfs_init (ext := strict_ext) w)) = osd_zfs_setup w.
Proof.
  intros w.
  assert (H0 : fst (zfs_init w) = 0) by reflexivity.
  assert (H1 : fst (zfs_init (ext := strict_ext) w) <> 0) by discriminate.
  split; [exact H0|]. split.
  - exact (proj1 (proj1 (proj2 (@zfs_init_fini_lifecycle host_ext w)) H0)).
  - split; [exact H1|].
    exact (proj1 (proj2 (proj2 (@zfs_init_fini_lifecycle strict_ext w)))
             (fun _ _ => eq_refl) H1).
Defined.

Lemma zfs_write_ldd_no_rollback_witness :
  let w := demo_world (Some []) in
  let mop := {| mo_ldd := Ldd.put_svname "refused" (demo_ldd "opt1=a");
                mo_device := "pool/ost0"; mo_mkfsopts := "";
                mo_pool_vdevs := None; mo_device_kb := 0; mo_flags := 0 |} in
  zfs_prop_set_errno (Externals := strict_ext) w "pool/ost0" LDD_SVNAME_PROP
    "refused" <> 0 /\
  exists w',
    zfs_write_ldd (ext := strict_ext) 0 w mop = Returns EINVAL w' /\
    find_dataset (w_datasets w') "pool/ost0"
    = Some (a_dataset ZFS_TYPE_FILESYSTEM
              [ ("lustre:version", Some "1"); ("lustre:flags", Some "2");
                ("lustre:index", Some "3"); ("lustre:fsname", Some "lustre") ]).
Proof.
  intros w mop.
  assert (Hne : EINVAL <> 0) by discriminate.
  split; [exact Hne|].
  pose (pre := [ ZLB_INIT_int LDD_VERSION_PROP ldd_config_ver Ldd.put_config_ver;
                 ZLB_INIT_int LDD_FLAGS_PROP ldd_flags Ldd.put_flags;
                 ZLB_INIT_int LDD_INDEX_PROP ldd_svindex Ldd.put_svindex;
                 ZLB_INIT_str LDD_FSNAME_PROP ldd_fsname Ldd.put_fsname ]).
  assert (Hpre : forall w' b0 v0,
             In b0 pre ->
             bridge_value (mo_ldd mop) b0 = Some v0 ->
             zfs_prop_set_errno (Externals := strict_ext) w' (mo_device mop)
               (zlpb_prop_name b0) v0 = 0).
  { intros w' b0 v0 Hin Hv0.
    repeat (destruct Hin as [<-|Hin];
            [injection Hv0 as <-; reflexivity|]).
    destruct Hin. }
  destruct (@zfs_write_ldd_no_rollback strict_ext 0 w mop [] pre
              [ ZLB_INIT_str LDD_UUID_PROP ldd_uuid Ldd.put_uuid;
                ZLB_INIT_str LDD_USERDATA_PROP ldd_userdata Ldd.put_userdata;
                ZLB_INIT_str LDD_MOUNTOPTS_PROP ldd_mount_opts Ldd.put_mount_opts ]
              (ZLB_INIT_str LDD_SVNAME_PROP ldd_svname Ldd.put_svname)
              "refused" EINVAL eq_refl eq_refl eq_refl eq_refl eq_refl Hpre
              (fun _ => eq_refl) Hne) as (w' & H1 & _ & H2).
  exists w'. split; [exact H1|exact H2].
Defined.

Lemma zfs_make_lustre_vdev_failure_witness :
  let w := demo_world (Some []) in
  let mop := {| mo_ldd := demo_ldd ""; mo_device := "tank/ost0";
                mo_mkfsopts := "";
                mo_pool_vdevs :=
                  Some ["mirror"; "/dev/sdb"; "/tmp/ost0.img"; "/dev/sdc"];
                mo_device_kb := 0; mo_flags := 0 |} in
  fst (zfs_create_vdev (ext := strict_ext) w mop "/tmp/ost0.img") <> 0 /\
  zfs_make_lustre (ext := strict_ext) w mop
  = Some (EINVAL, set_pool_vdevs (Some ["/tmp/ost0.img"; "/dev/sdc"]) mop,
          emit [FATAL; MSG_vdev_no_size] w).
Proof.
  intros w mop.
  assert (Hfail : fst (zfs_create_vdev (ext := strict_ext) w mop "/tmp/ost0.img")
                  <> 0) by discriminate.
  split; [exact Hfail|].
  exact (@zfs_make_lustre_vdev_failure strict_ext w mop "tank" "ost0"
           "/tmp/ost0.img" ["mirror"; "/dev/sdb"] ["/dev/sdc"]
           eq_refl eq_refl eq_refl eq_refl eq_refl eq_refl eq_refl eq_refl
           (fun _ _ => eq_refl) eq_refl Hfail).
Defined.
